(** * STM32 inclinometer: ADXL345 accelerometer and SSD1306 display drivers

    Shallow embedding of [Core/Src/hardware/accelerometer/ADXL345.c] and
    [Core/Src/hardware/screen/SSD1306.c].

    Both drivers are function-pointer state machines over module-level
    variables.  Each driver's variables become one record, every C function
    becomes a function from that record to a result code and the new record.
    The SPI peripheral, the DMA controller, the GPIO pins and the tick
    interrupt are outside the C sources: calls into them are appended to an
    event trace, and what they answer is read from an environment [Env].
    The handles are taken as set ([ADXL345initialise] and [SSD1306initialise]
    have run), so the [assert]s on them pass. *)

From Stdlib Require Import ZArith List Bool Lia.
Import ListNotations.
Local Open Scope Z_scope.

(** * Fixed-width integers *)

Definition u8 (x : Z) : Z := x mod 256.
Definition u16 (x : Z) : Z := x mod 65536.
(** Conversion to [int16_t] and [int32_t] (two's complement wrap-around). *)
Definition s16 (x : Z) : Z := (x + 32768) mod 65536 - 32768.
Definition s32 (x : Z) : Z := (x + 2147483648) mod 4294967296 - 2147483648.

(** [array[i] = v]; an index past the end leaves the list as it is (the C
    code never writes there). *)
Fixpoint poke (i : nat) (v : Z) (l : list Z) : list Z :=
  match l, i with
  | [], _ => []
  | _ :: t, O => v :: t
  | h :: t, S i' => h :: poke i' v t
  end.

(** [dst[offset + k] = bytes[k]] for every [k]. *)
Fixpoint blit (offset : nat) (bytes : list Z) (dst : list Z) : list Z :=
  match bytes with
  | [] => dst
  | b :: rest => blit (S offset) rest (poke offset b dst)
  end.

(** * Error codes *)

Module ErrorStack.

Inductive errorLevel_e := ERR_NONE | ERR_WARNING | ERR_ERROR | ERR_CRITICAL.

(** Modelled from the spec: [errorstack.h] is not among the sources.  An
    error code is {origin, detail, severity}; success is the zero value. *)
Record errorCode_u := mkErrorCode {
  origin : Z;
  detail : Z;
  severity : errorLevel_e
}.

Definition ERR_SUCCESS : errorCode_u := mkErrorCode 0 0 ERR_NONE.

(** Modelled from the spec: [createErrorCode] of the missing
    [errorstack.c]: a new code from its three components. *)
Definition createErrorCode (functionID newError : Z) (level : errorLevel_e)
  : errorCode_u :=
  mkErrorCode functionID newError level.

(** Modelled from the spec: [pushErrorCode] of the missing [errorstack.c]:
    the origin is overwritten, the severity is the inner one, the detail is
    the innermost non-zero detail, or the new one above a success. *)
Definition pushErrorCode (oldCode : errorCode_u) (functionID newError : Z)
  : errorCode_u :=
  mkErrorCode functionID
              (if detail oldCode =? 0 then newError else detail oldCode)
              (severity oldCode).

(** Modelled from the spec: [isError] of the missing [errorstack.h]: true
    iff the severity is not none. *)
Definition isError (code : errorCode_u) : bool :=
  match severity code with
  | ERR_NONE => false
  | _ => true
  end.

End ErrorStack.
Export ErrorStack.

(** * Hardware collaborators *)

Inductive Pin := ADXL_INT1_Pin | SSD1306_DC_Pin | SSD1306_RES_Pin.

(** One constructor per low-level call that acts on a peripheral. *)
Inductive Event :=
| LL_SPI_Enable
| LL_SPI_Disable
| LL_SPI_TransmitData8 (byte : Z)
| LL_SPI_ReceiveData8
| LL_SPI_ClearFlag_OVR
| LL_SPI_EnableDMAReq_TX
| LL_GPIO_ResetOutputPin (pin : Pin)
| LL_GPIO_SetOutputPin (pin : Pin)
| LL_DMA_DisableChannel
| LL_DMA_ClearFlag_GI5
| LL_DMA_SetDataLength (length : Z)
| LL_DMA_EnableChannel.

(** What the hardware answers during one call of a driver function.

    - [flag_deadline n]: the driver's n-th busy-wait ([while(!FLAG &&
      timer);]) spins while the tick interrupt decrements the SPI timer; the
      awaited flag rises when the timer shows this value.  A value at or
      above the current timer means the flag is there at once, a value of
      zero or below that it does not rise before the timer runs out.
    - [rx_data n]: the n-th byte read from the SPI data register.
    - [int1_pin_set]: level of the watermark pin (active low).
    - [dma_TE5], [dma_TC5]: DMA transfer-error and transfer-complete flags. *)
Record Env := {
  flag_deadline : nat -> Z;
  rx_data : nat -> Z;
  int1_pin_set : bool;
  dma_TE5 : bool;
  dma_TC5 : bool
}.

(** The SPI side of a driver: its transaction timer ([adxlSPITimer_ms],
    [ssd1306SPITimer_ms]), how many busy-waits and receptions it has made
    (indices into [Env]), and the calls it issued, oldest first. *)
Record Bus := {
  SPITimer_ms : Z;
  waits : nat;
  receptions : nat;
  trace : list Event
}.

Definition emit (e : Event) (b : Bus) : Bus :=
  {| SPITimer_ms := SPITimer_ms b; waits := waits b;
     receptions := receptions b; trace := trace b ++ [e] |}.

Definition arm (span : Z) (b : Bus) : Bus :=
  {| SPITimer_ms := span; waits := waits b;
     receptions := receptions b; trace := trace b |}.

(** [while(!FLAG && timer);]: on exit the timer is what was left when the
    flag rose, or zero.  Ticks are only observed here: between two waits the
    timer keeps its value. *)
Definition busy_wait (env : Env) (b : Bus) : Bus :=
  {| SPITimer_ms := Z.max 0 (Z.min (SPITimer_ms b) (flag_deadline env (waits b)));
     waits := S (waits b);
     receptions := receptions b; trace := trace b |}.

Definition receive (env : Env) (b : Bus) : Z * Bus :=
  (u8 (rx_data env (receptions b)),
   {| SPITimer_ms := SPITimer_ms b; waits := waits b;
      receptions := S (receptions b);
      trace := trace b ++ [LL_SPI_ReceiveData8] |}).

(** A bus transaction starts when the peripheral is enabled. *)
Definition starts_transaction (e : Event) : bool :=
  match e with
  | LL_SPI_Enable => true
  | _ => false
  end.

Definition transactions (t : list Event) : nat :=
  length (filter starts_transaction t).

(** * ADXL345 accelerometer driver *)

Module ADXL345.

(** The constants of [ADXL345registers.h], which is not among the sources:
    register numbers, the bounds used to validate them, and the bit masks
    written into the registers.  The driver is modelled for any values. *)
Class ADXL345registers := {
  DEVICE_ID : Z;
  BANDWIDTH_POWERMODE : Z;
  POWER_CONTROL : Z;
  INTERRUPT_ENABLE : Z;
  DATA_FORMAT : Z;
  DATA_X0 : Z;
  FIFO_CONTROL : Z;
  ADXL_REGISTER_MAXNB : Z;
  ADXL_HIGH_RESERVED_REG : Z;
  ADXL_DEVICE_ID : Z;
  ADXL_WRITE : Z;
  ADXL_READ : Z;
  ADXL_SINGLE : Z;
  ADXL_MULTIPLE : Z;
  ADXL_NO_SELF_TEST : Z;
  ADXL_SELF_TEST : Z;
  ADXL_SPI_4WIRE : Z;
  ADXL_INT_ACTIV_LOW : Z;
  ADXL_13BIT_RESOL : Z;
  ADXL_RIGHT_JUSTIFY : Z;
  ADXL_RANGE_16G : Z;
  ADXL_MODE_BYPASS : Z;
  ADXL_MODE_FIFO : Z;
  ADXL_INT_MAP_INT1 : Z;
  ADXL_POWER_NORMAL : Z;
  ADXL_RATE_200HZ : Z;
  ADXL_MEASURE_MODE : Z;
  ADXL_INT_WATERMARK : Z
}.

(** The values of the ADXL345 datasheet (register map, table 19), used
    where a concrete device is needed. *)
Definition datasheet : ADXL345registers := {|
  DEVICE_ID := 0x00;
  BANDWIDTH_POWERMODE := 0x2C;
  POWER_CONTROL := 0x2D;
  INTERRUPT_ENABLE := 0x2E;
  DATA_FORMAT := 0x31;
  DATA_X0 := 0x32;
  FIFO_CONTROL := 0x38;
  ADXL_REGISTER_MAXNB := 0x39;
  ADXL_HIGH_RESERVED_REG := 0x1C;
  ADXL_DEVICE_ID := 0xE5;
  ADXL_WRITE := 0x00;
  ADXL_READ := 0x80;
  ADXL_SINGLE := 0x00;
  ADXL_MULTIPLE := 0x40;
  ADXL_NO_SELF_TEST := 0x00;
  ADXL_SELF_TEST := 0x80;
  ADXL_SPI_4WIRE := 0x00;
  ADXL_INT_ACTIV_LOW := 0x20;
  ADXL_13BIT_RESOL := 0x08;
  ADXL_RIGHT_JUSTIFY := 0x00;
  ADXL_RANGE_16G := 0x03;
  ADXL_MODE_BYPASS := 0x00;
  ADXL_MODE_FIFO := 0x40;
  ADXL_INT_MAP_INT1 := 0x00;
  ADXL_POWER_NORMAL := 0x00;
  ADXL_RATE_200HZ := 0x0B;
  ADXL_MEASURE_MODE := 0x08;
  ADXL_INT_WATERMARK := 0x02
|}.

(** Modelled from the spec: [axis_e] of the missing [ADXL345.h]; three
    axes, stored in this order in the data registers. *)
Inductive axis_e := X_AXIS | Y_AXIS | Z_AXIS.

Definition axis_index (axis : axis_e) : nat :=
  match axis with X_AXIS => 0 | Y_AXIS => 1 | Z_AXIS => 2 end%nat.

(** An [int32_t array[NB_AXIS]]. *)
Record axes := mkAxes { x_of : Z; y_of : Z; z_of : Z }.

Definition get (axis : axis_e) (a : axes) : Z :=
  match axis with X_AXIS => x_of a | Y_AXIS => y_of a | Z_AXIS => z_of a end.

Definition set (axis : axis_e) (v : Z) (a : axes) : axes :=
  match axis with
  | X_AXIS => mkAxes v (y_of a) (z_of a)
  | Y_AXIS => mkAxes (x_of a) v (z_of a)
  | Z_AXIS => mkAxes (x_of a) (y_of a) v
  end.

(** ** Definitions *)

Definition SPI_TIMEOUT_MS : Z := 10.
Definition INT_TIMEOUT_MS : Z := 1000.
Definition NB_REG_INIT : nat := 6.
(** Modelled from the spec: [ADXL_SAMPLES_32] and [ADXL_NB_DATA_REGISTERS]
    of the missing [ADXL345registers.h]: 32 samples of six bytes. *)
Definition ADXL_SAMPLES_32 : Z := 32.
Definition ADXL_NB_DATA_REGISTERS : Z := 6.
Definition ADXL_AVG_SAMPLES : Z := ADXL_SAMPLES_32.
Definition ADXL_AVG_SHIFT : Z := 5.

(** The expression of the [static_assert] on the two constants. *)
Definition static_assert_AVG (samples shift : Z) : bool :=
  Z.shiftr samples shift =? 1.

(** [ADXLfunctionCodes_e] *)
Definition INIT : Z := 0.
Definition SELF_TESTING_OFF : Z := 1.
Definition SELF_TEST_WAIT : Z := 2.
Definition SELF_TESTING_ON : Z := 3.
Definition MEASURE : Z := 4.
Definition CHK_MEASURES : Z := 5.
Definition WRITE_REGISTER : Z := 6.
Definition READ_REGISTERS : Z := 7.
Definition GET_X_ANGLE : Z := 8.
Definition GET_Y_ANGLE : Z := 9.
Definition INTEGRATE : Z := 10.
Definition POP_FIFO : Z := 11.
Definition STARTUP : Z := 12.

(** The states [_state] can point to. *)
Inductive adxlState :=
| Startup
| Configuring
| MeasuringST_OFF
| WaitingForSTenabled
| MeasuringST_ON
| Measuring
| Error.

(** The module-level variables of the driver. *)
Record ADXL := mkADXL {
  adxlTimer_ms : Z;
  bus : Bus;
  _state : adxlState;
  _measurementsUpdated : Z;
  _latestValues : axes;
  _previousValues : axes;
  _zeroValues : axes;
  _result : errorCode_u
}.

Definition set_adxlTimer_ms (v : Z) (s : ADXL) : ADXL :=
  mkADXL v (bus s) (_state s) (_measurementsUpdated s) (_latestValues s)
         (_previousValues s) (_zeroValues s) (_result s).
Definition set_bus (v : Bus) (s : ADXL) : ADXL :=
  mkADXL (adxlTimer_ms s) v (_state s) (_measurementsUpdated s)
         (_latestValues s) (_previousValues s) (_zeroValues s) (_result s).
Definition set_state (v : adxlState) (s : ADXL) : ADXL :=
  mkADXL (adxlTimer_ms s) (bus s) v (_measurementsUpdated s)
         (_latestValues s) (_previousValues s) (_zeroValues s) (_result s).
Definition set_measurementsUpdated (v : Z) (s : ADXL) : ADXL :=
  mkADXL (adxlTimer_ms s) (bus s) (_state s) v (_latestValues s)
         (_previousValues s) (_zeroValues s) (_result s).
Definition set_latestValues (v : axes) (s : ADXL) : ADXL :=
  mkADXL (adxlTimer_ms s) (bus s) (_state s) (_measurementsUpdated s) v
         (_previousValues s) (_zeroValues s) (_result s).
Definition set_previousValues (v : axes) (s : ADXL) : ADXL :=
  mkADXL (adxlTimer_ms s) (bus s) (_state s) (_measurementsUpdated s)
         (_latestValues s) v (_zeroValues s) (_result s).
Definition set_zeroValues (v : axes) (s : ADXL) : ADXL :=
  mkADXL (adxlTimer_ms s) (bus s) (_state s) (_measurementsUpdated s)
         (_latestValues s) (_previousValues s) v (_result s).
Definition set_result (v : errorCode_u) (s : ADXL) : ADXL :=
  mkADXL (adxlTimer_ms s) (bus s) (_state s) (_measurementsUpdated s)
         (_latestValues s) (_previousValues s) (_zeroValues s) v.

(** The variables as their initialisers give them, after
    [ADXL345initialise] has zeroed the three arrays. *)
Definition initial : ADXL :=
  mkADXL INT_TIMEOUT_MS
         {| SPITimer_ms := 0; waits := 0; receptions := 0; trace := [] |}
         Startup 0 (mkAxes 0 0 0) (mkAxes 0 0 0) (mkAxes 0 0 0) ERR_SUCCESS.

Definition ADXL345initialise (s : ADXL) : errorCode_u * ADXL :=
  let s := set_bus (emit LL_SPI_Disable (bus s)) s in
  let s := set_latestValues (mkAxes 0 0 0) s in
  let s := set_previousValues (mkAxes 0 0 0) s in
  let s := set_zeroValues (mkAxes 0 0 0) s in
  (ERR_SUCCESS, s).

Definition ADXL345hasChanged (axis : axis_e) (s : ADXL) : Z * ADXL :=
  let tmp := if get axis (_latestValues s) =? get axis (_previousValues s)
             then 0 else 1 in
  (tmp, set_previousValues (set axis (get axis (_latestValues s))
                                (_previousValues s)) s).

Definition ADXLzeroDown (s : ADXL) : ADXL :=
  let z := set X_AXIS (s32 (- get X_AXIS (_latestValues s))) (_zeroValues s) in
  let z := set Y_AXIS (s32 (- get Y_AXIS (_latestValues s))) z in
  set_zeroValues z s.

Definition ADXLcancelZeroing (s : ADXL) : ADXL :=
  set_zeroValues (mkAxes 0 0 0) s.

Definition isFIFOdataReady (env : Env) : bool := negb (int1_pin_set env).

(** [((int16_t)bytes[1] << 8) | (int16_t)bytes[0]], returned as [int16_t]. *)
Definition twoComplement (byte0 byte1 : Z) : Z :=
  s16 (Z.lor (Z.shiftl byte1 8) byte0).

Section Driver.

Context {regs : ADXL345registers}.

Definition DATA_FORMAT_DEFAULT : Z :=
  u8 (Z.lor ADXL_NO_SELF_TEST (Z.lor ADXL_SPI_4WIRE
     (Z.lor ADXL_INT_ACTIV_LOW (Z.lor ADXL_13BIT_RESOL
     (Z.lor ADXL_RIGHT_JUSTIFY ADXL_RANGE_16G))))).
Definition FIFO_CONTROL_DEFAULT : Z :=
  u8 (Z.lor ADXL_MODE_FIFO (Z.lor ADXL_INT_MAP_INT1 (ADXL_AVG_SAMPLES - 1))).

(** The test at the head of [writeRegister]. *)
Definition write_rejected (registerNumber : Z) : bool :=
  (registerNumber >? ADXL_REGISTER_MAXNB)
  || (u8 (registerNumber - 1) <? ADXL_HIGH_RESERVED_REG).

Definition writeRegister (registerNumber value : Z) (env : Env) (s : ADXL)
  : errorCode_u * ADXL :=
  if write_rejected registerNumber
  then (createErrorCode WRITE_REGISTER 1 ERR_WARNING, s)
  else
    let b := arm SPI_TIMEOUT_MS (bus s) in
    let b := emit LL_SPI_Enable b in
    let b := emit (LL_SPI_TransmitData8
                     (u8 (Z.lor ADXL_WRITE (Z.lor ADXL_SINGLE registerNumber)))) b in
    let b := busy_wait env b in
    let b := if SPITimer_ms b =? 0 then b
             else emit (LL_SPI_TransmitData8 (u8 value)) b in
    let b := busy_wait env b in
    let b := emit LL_SPI_ClearFlag_OVR b in
    let b := emit LL_SPI_Disable b in
    if SPITimer_ms b =? 0
    then (createErrorCode WRITE_REGISTER 2 ERR_WARNING, set_bus b s)
    else (ERR_SUCCESS, set_bus b s).

Definition SPI_RX_FILLER : Z := 0xFF.

(** The [do { ... } while(size && adxlSPITimer_ms);] of [readRegisters],
    entered with [size] bytes left and [iterator] at [value[index]]. *)
Fixpoint receive_bytes (size : nat) (index : nat) (env : Env) (b : Bus)
         (value : list Z) : Bus * list Z :=
  match size with
  | O => (b, value)
  | S size' =>
      let b := emit (LL_SPI_TransmitData8 SPI_RX_FILLER) b in
      let b := busy_wait env b in
      let '(byte, b) := receive env b in
      let value := poke index byte value in
      if SPITimer_ms b =? 0 then (b, value)
      else receive_bytes size' (S index) env b value
  end.

(** [value] is the caller's array as it is on entry; the array as it is
    on return comes back with the result code. *)
Definition readRegisters (firstRegister : Z) (value : list Z) (size : Z)
           (env : Env) (s : ADXL) : errorCode_u * list Z * ADXL :=
  if u8 size =? 0 then (ERR_SUCCESS, value, s)
  else if firstRegister >? ADXL_REGISTER_MAXNB
  then (createErrorCode READ_REGISTERS 1 ERR_WARNING, value, s)
  else
    let b := arm SPI_TIMEOUT_MS (bus s) in
    let b := emit LL_SPI_Enable b in
    let b := emit (LL_SPI_TransmitData8
                     (u8 (Z.lor ADXL_READ (Z.lor ADXL_MULTIPLE firstRegister)))) b in
    let b := busy_wait env b in
    let '(byte, b) := receive env b in
    let value := poke 0 byte value in
    let '(b, value) := receive_bytes (Z.to_nat (u8 size)) 0 env b value in
    let b := busy_wait env b in
    let b := emit LL_SPI_ClearFlag_OVR b in
    let b := emit LL_SPI_Disable b in
    if SPITimer_ms b =? 0
    then (createErrorCode READ_REGISTERS 2 ERR_WARNING, value, set_bus b s)
    else (ERR_SUCCESS, value, set_bus b s).

(** [values[axis] += twoComplement(&buffer[axis << 1])] for one axis. *)
Definition add_axis (buffer : list Z) (axis : axis_e) (values : axes) : axes :=
  set axis
      (s32 (get axis values
            + twoComplement (nth (2 * axis_index axis) buffer 0)
                            (nth (2 * axis_index axis + 1) buffer 0)))
      values.

Definition add_sample (buffer : list Z) (values : axes) : axes :=
  add_axis buffer Z_AXIS (add_axis buffer Y_AXIS (add_axis buffer X_AXIS values)).

(** The [for] loop of [integrateFIFO] with [count] samples left.  [Some]
    is the early [return].  The 5 us delay at the end of the body
    ([while(tempo--);] on a local) touches neither a variable of the
    driver nor a peripheral. *)
Fixpoint integrate_samples (count : nat) (env : Env) (s : ADXL)
         (buffer : list Z) (values : axes)
  : option errorCode_u * axes * ADXL :=
  match count with
  | O => (None, values, s)
  | S count' =>
      let '(r, buffer, s) :=
        readRegisters DATA_X0 buffer ADXL_NB_DATA_REGISTERS env s in
      let s := set_result r s in
      if isError r
      then (Some (pushErrorCode r INTEGRATE 1), values, set_state Error s)
      else integrate_samples count' env s buffer (add_sample buffer values)
  end.

(** [values] is an out-parameter: its content on return comes back with
    the result code, also on the failing path.  The callers that pass
    [_latestValues] store it there. *)
Definition integrateFIFO (env : Env) (s : ADXL) : errorCode_u * axes * ADXL :=
  match integrate_samples (Z.to_nat ADXL_AVG_SAMPLES) env s
                          [0; 0; 0; 0; 0; 0] (mkAxes 0 0 0) with
  | (Some e, values, s) => (e, values, s)
  | (None, values, s) =>
      (ERR_SUCCESS,
       mkAxes (Z.shiftr (x_of values) ADXL_AVG_SHIFT)
              (Z.shiftr (y_of values) ADXL_AVG_SHIFT)
              (Z.shiftr (z_of values) ADXL_AVG_SHIFT),
       s)
  end.

(** ** States *)

Definition stStartup (env : Env) (s : ADXL) : errorCode_u * ADXL :=
  if adxlTimer_ms s =? 0
  then (createErrorCode STARTUP 1 ERR_CRITICAL, set_state Error s)
  else
    let '(r, deviceID, s) := readRegisters DEVICE_ID [0] 1 env s in
    let s := set_result r s in
    if isError r then (pushErrorCode r STARTUP 2, s)
    else if negb (nth 0 deviceID 0 =? ADXL_DEVICE_ID) then (ERR_SUCCESS, s)
    else (ERR_SUCCESS, set_state Configuring s).

Definition initialisationArray : list (Z * Z) :=
  [ (u8 DATA_FORMAT, DATA_FORMAT_DEFAULT);
    (u8 BANDWIDTH_POWERMODE, u8 (Z.lor ADXL_POWER_NORMAL ADXL_RATE_200HZ));
    (u8 FIFO_CONTROL, u8 ADXL_MODE_BYPASS);
    (u8 FIFO_CONTROL, FIFO_CONTROL_DEFAULT);
    (u8 POWER_CONTROL, u8 ADXL_MEASURE_MODE);
    (u8 INTERRUPT_ENABLE, u8 ADXL_INT_WATERMARK) ].

(** The [for] loop of [stConfiguring]; [Some] is the early [return]. *)
Fixpoint write_registers (entries : list (Z * Z)) (env : Env) (s : ADXL)
  : option errorCode_u * ADXL :=
  match entries with
  | [] => (None, s)
  | (registerNumber, value) :: rest =>
      let '(r, s) := writeRegister registerNumber value env s in
      let s := set_result r s in
      if isError r
      then (Some (pushErrorCode r INIT 1), set_state Error s)
      else write_registers rest env s
  end.

Definition stConfiguring (env : Env) (s : ADXL) : errorCode_u * ADXL :=
  match write_registers initialisationArray env s with
  | (Some e, s) => (e, s)
  | (None, s) =>
      (_result s, set_state MeasuringST_OFF (set_adxlTimer_ms INT_TIMEOUT_MS s))
  end.

Definition ST_WAIT_MS : Z := 25.

Definition stMeasuringST_OFF (env : Env) (s : ADXL) : errorCode_u * ADXL :=
  if adxlTimer_ms s =? 0
  then (createErrorCode SELF_TESTING_OFF 1 ERR_ERROR, set_state Error s)
  else if negb (isFIFOdataReady env) then (ERR_SUCCESS, s)
  else
    let '(r, values, s) := integrateFIFO env s in
    let s := set_result r (set_latestValues values s) in
    if isError r
    then (pushErrorCode r SELF_TESTING_OFF 2, set_state Error s)
    else
      let '(r, s) :=
        writeRegister DATA_FORMAT (Z.lor DATA_FORMAT_DEFAULT ADXL_SELF_TEST) env s in
      let s := set_result r s in
      if isError r
      then (pushErrorCode r SELF_TESTING_OFF 3, set_state Error s)
      else
        let '(r, s) := writeRegister FIFO_CONTROL ADXL_MODE_BYPASS env s in
        let s := set_result r s in
        if isError r
        then (pushErrorCode r SELF_TESTING_OFF 4, set_state Error s)
        else (ERR_SUCCESS,
              set_state WaitingForSTenabled (set_adxlTimer_ms ST_WAIT_MS s)).

Definition stWaitingForSTenabled (env : Env) (s : ADXL) : errorCode_u * ADXL :=
  if adxlTimer_ms s =? 0 then (ERR_SUCCESS, s)
  else
    let '(r, s) := writeRegister FIFO_CONTROL FIFO_CONTROL_DEFAULT env s in
    let s := set_result r s in
    if isError r
    then (pushErrorCode r SELF_TEST_WAIT 1, set_state Error s)
    else (ERR_SUCCESS,
          set_state MeasuringST_ON (set_adxlTimer_ms INT_TIMEOUT_MS s)).

Definition ST_MAXDELTAS (axis : axis_e) : Z * Z :=
  match axis with
  | X_AXIS => (85, 949)
  | Y_AXIS => (-949, -85)
  | Z_AXIS => (118, 1294)
  end.

(** The condition of the "self-test values out of range" [if]. *)
Definition ST_out_of_range (STdeltas : axes) : bool :=
  (get X_AXIS STdeltas <=? fst (ST_MAXDELTAS X_AXIS))
  || (get X_AXIS STdeltas >=? snd (ST_MAXDELTAS X_AXIS))
  || (get Y_AXIS STdeltas <=? fst (ST_MAXDELTAS Y_AXIS))
  || (get Y_AXIS STdeltas >=? snd (ST_MAXDELTAS Y_AXIS))
  || (get Z_AXIS STdeltas <=? fst (ST_MAXDELTAS Z_AXIS))
  || (get Z_AXIS STdeltas >=? snd (ST_MAXDELTAS Z_AXIS)).

(** [STdeltas[axis] -= _latestValues[axis]] on the three axes. *)
Definition self_test_deltas (values latest : axes) : axes :=
  mkAxes (s32 (x_of values - x_of latest))
         (s32 (y_of values - y_of latest))
         (s32 (z_of values - z_of latest)).

Definition stMeasuringST_ON (env : Env) (s : ADXL) : errorCode_u * ADXL :=
  if adxlTimer_ms s =? 0
  then (createErrorCode SELF_TESTING_ON 1 ERR_ERROR, set_state Error s)
  else if negb (isFIFOdataReady env) then (ERR_SUCCESS, s)
  else
    let '(r, STdeltas, s) := integrateFIFO env s in
    let s := set_result r s in
    if isError r
    then (pushErrorCode r SELF_TESTING_ON 2, set_state Error s)
    else
      let STdeltas := self_test_deltas STdeltas (_latestValues s) in
      if ST_out_of_range STdeltas
      then (pushErrorCode (_result s) SELF_TESTING_ON 3, set_state Error s)
      else
        let '(r, s) := writeRegister DATA_FORMAT DATA_FORMAT_DEFAULT env s in
        let s := set_result r s in
        if isError r
        then (pushErrorCode r SELF_TESTING_ON 4, set_state Error s)
        else (ERR_SUCCESS,
              set_state Measuring (set_adxlTimer_ms INT_TIMEOUT_MS s)).

Definition stMeasuring (env : Env) (s : ADXL) : errorCode_u * ADXL :=
  if adxlTimer_ms s =? 0
  then (createErrorCode MEASURE 1 ERR_ERROR, set_state Error s)
  else if negb (isFIFOdataReady env) then (ERR_SUCCESS, s)
  else
    let s := set_adxlTimer_ms INT_TIMEOUT_MS s in
    let '(r, values, s) := integrateFIFO env s in
    let s := set_result r (set_latestValues values s) in
    if isError r
    then (pushErrorCode r MEASURE 2, set_state Error s)
    else (ERR_SUCCESS, set_measurementsUpdated 1 s).

Definition stError (env : Env) (s : ADXL) : errorCode_u * ADXL :=
  (ERR_SUCCESS, s).

(** The function [_state] points to. *)
Definition state_function (st : adxlState) : Env -> ADXL -> errorCode_u * ADXL :=
  match st with
  | Startup => stStartup
  | Configuring => stConfiguring
  | MeasuringST_OFF => stMeasuringST_OFF
  | WaitingForSTenabled => stWaitingForSTenabled
  | MeasuringST_ON => stMeasuringST_ON
  | Measuring => stMeasuring
  | Error => stError
  end.

Definition ADXL345update (env : Env) (s : ADXL) : errorCode_u * ADXL :=
  state_function (_state s) env s.

End Driver.

Section Angle.

(** [(int16_t)(atanf((float)numerator / (float)denominator) *
    RADIANS_TO_DEGREES_TENTHS)]: the single-precision computation is left
    to the floating-point unit. *)
Variable atanf_degrees_tenths : Z -> Z -> Z.

Definition getAngleDegreesTenths (axis : axis_e) (s : ADXL) : Z :=
  if get Z_AXIS (_latestValues s) =? 0 then 0
  else atanf_degrees_tenths
         (s32 (get axis (_latestValues s) + get axis (_zeroValues s)))
         (get Z_AXIS (_latestValues s)).

End Angle.

End ADXL345.

(** * SSD1306 display driver *)

Module SSD1306.

(** What the missing headers declare: the command bytes and masks of
    [SSD1306_registers.h], the icons of [icons.h], the font of
    [numbersVerdana16.h] and the bitmap behind [arrowsIcon.h].  The driver
    is modelled for any values. *)
Class SSD1306resources := {
  SCAN_DIRECTION_N1_0 : Z;
  HARDWARE_CONFIG : Z;
  SEGMENT_REMAP_127 : Z;
  MEMORY_ADDR_MODE : Z;
  CONTRAST_CONTROL : Z;
  CLOCK_DIVIDE_RATIO : Z;
  CHG_PUMP_REGULATOR : Z;
  DISPLAY_ON : Z;
  COLUMN_ADDRESS : Z;
  PAGE_ADDRESS : Z;
  SSD_PIN_CONFIG_ALT : Z;
  SSD_COM_REMAP_DISABLE : Z;
  SSD_HORIZONTAL_ADDR : Z;
  SSD_CONTRAST_HIGHEST : Z;
  SSD_CLOCK_FREQ_MID : Z;
  SSD_CLOCK_DIVIDER_1 : Z;
  SSD_ENABLE_CHG_PUMP : Z;
  REFERENCETYPE_NB_BYTES : Z;
  absoluteReferentialIcon : list Z;
  relativeReferentialIcon : list Z;
  holdIcon : list Z;
  VERDANA_NB_BYTES_CHAR : Z;
  VERDANA_CHAR_WIDTH : Z;
  VERDANA_NB_PAGES : Z;
  verdana_16ptNumbers : list (list Z);
  INDEX_PLUS : Z;
  INDEX_MINUS : Z;
  INDEX_DOT : Z;
  INDEX_DEG : Z;
  arrowsIcon_32px : list Z
}.

(** Command bytes of the SSD1306 datasheet, with a 16-byte icon set and a
    10-column, two-page font of blank glyphs, used where a concrete display
    is needed. *)
Definition sample : SSD1306resources := {|
  SCAN_DIRECTION_N1_0 := 0xC8;
  HARDWARE_CONFIG := 0xDA;
  SEGMENT_REMAP_127 := 0xA1;
  MEMORY_ADDR_MODE := 0x20;
  CONTRAST_CONTROL := 0x81;
  CLOCK_DIVIDE_RATIO := 0xD5;
  CHG_PUMP_REGULATOR := 0x8D;
  DISPLAY_ON := 0xAF;
  COLUMN_ADDRESS := 0x21;
  PAGE_ADDRESS := 0x22;
  SSD_PIN_CONFIG_ALT := 0x10;
  SSD_COM_REMAP_DISABLE := 0x00;
  SSD_HORIZONTAL_ADDR := 0x00;
  SSD_CONTRAST_HIGHEST := 0xFF;
  SSD_CLOCK_FREQ_MID := 0x80;
  SSD_CLOCK_DIVIDER_1 := 0x00;
  SSD_ENABLE_CHG_PUMP := 0x14;
  REFERENCETYPE_NB_BYTES := 16;
  absoluteReferentialIcon := repeat 0x81 16;
  relativeReferentialIcon := repeat 0x42 16;
  holdIcon := repeat 0x3C 16;
  VERDANA_NB_BYTES_CHAR := 20;
  VERDANA_CHAR_WIDTH := 10;
  VERDANA_NB_PAGES := 2;
  verdana_16ptNumbers := repeat (repeat 0 20) 14;
  INDEX_PLUS := 10;
  INDEX_MINUS := 11;
  INDEX_DOT := 12;
  INDEX_DEG := 13;
  arrowsIcon_32px := repeat 0x55 256
|}.

(** Modelled from the spec: [rotationAxis_e] and [referentialType_e] of the
    missing [SSD1306.h]: two screen locations, two referential icons. *)
Inductive rotationAxis_e := ROLL | PITCH.
Inductive referentialType_e := ABSOLUTE | RELATIVE.

(** ** Definitions *)

Definition SPI_TIMEOUT_MS : Z := 10.
Definition MAX_DATA_SIZE : Z := 1024.
Definition ANGLE_NB_CHARS : Z := 6.
Definition SSD_LAST_COLUMN : Z := 127.
Definition SSD_LAST_PAGE : Z := 31.
Definition ARROWSICON_NB_BYTES : Z := 255 + 1.
Definition ARROWSICON_WIDTH : Z := 32.

(** [_SSD1306functionCodes_e] *)
Definition INIT : Z := 0.
Definition SEND_CMD : Z := 1.
Definition PRT_ANGLE : Z := 2.
Definition SENDING_DATA : Z := 3.
Definition WAITING_DMA_RDY : Z := 4.

(** The states [_state] can point to. *)
Inductive screenState := Idle | Configuring | SendingData | WaitingForTXdone.

(** The module-level variables of the driver; [_limitColumns] and
    [_limitPages] are the two-byte arrays {first, last}. *)
Record SSD := mkSSD {
  screenTimer_ms : Z;
  bus : Bus;
  _state : screenState;
  _screenBuffer : list Z;
  _limitColumns : Z * Z;
  _limitPages : Z * Z;
  _size : Z
}.

Definition set_screenTimer_ms (v : Z) (s : SSD) : SSD :=
  mkSSD v (bus s) (_state s) (_screenBuffer s) (_limitColumns s)
        (_limitPages s) (_size s).
Definition set_bus (v : Bus) (s : SSD) : SSD :=
  mkSSD (screenTimer_ms s) v (_state s) (_screenBuffer s) (_limitColumns s)
        (_limitPages s) (_size s).
Definition set_state (v : screenState) (s : SSD) : SSD :=
  mkSSD (screenTimer_ms s) (bus s) v (_screenBuffer s) (_limitColumns s)
        (_limitPages s) (_size s).
Definition set_screenBuffer (v : list Z) (s : SSD) : SSD :=
  mkSSD (screenTimer_ms s) (bus s) (_state s) v (_limitColumns s)
        (_limitPages s) (_size s).
(** The five assignments at the head of a buffer-preparation call. *)
Definition set_window (columns pages : Z * Z) (size : Z) (s : SSD) : SSD :=
  mkSSD (screenTimer_ms s) (bus s) (_state s) (_screenBuffer s)
        (u8 (fst columns), u8 (snd columns))
        (u8 (fst pages), u8 (snd pages)) (u16 size).

Definition initial : SSD :=
  mkSSD 0 {| SPITimer_ms := 0; waits := 0; receptions := 0; trace := [] |}
        Configuring (repeat 0 (Z.to_nat MAX_DATA_SIZE)) (0, 0) (0, 0) 0.

(** Bytes of the sub-rectangle [_limitColumns] x [_limitPages]. *)
Definition window_area (s : SSD) : Z :=
  (snd (_limitColumns s) - fst (_limitColumns s) + 1)
  * (snd (_limitPages s) - fst (_limitPages s) + 1).

(** [array[0 .. n-1]], zero past the end of the list. *)
Definition first_bytes (n : Z) (array : list Z) : list Z :=
  map (fun k => u8 (nth k array 0)) (seq 0 (Z.to_nat n)).

Definition isScreenReady (s : SSD) : Z :=
  match _state s with Idle => 1 | _ => 0 end.

Section Driver.

Context {res : SSD1306resources}.

Definition REFTYPE_PAGE : Z := SSD_LAST_PAGE.
Definition REFTYPE_COLUMN : Z := SSD_LAST_COLUMN - REFERENCETYPE_NB_BYTES.

Definition SSD1306initialise (s : SSD) : errorCode_u * SSD :=
  (ERR_SUCCESS,
   set_bus (emit LL_DMA_DisableChannel (emit LL_SPI_Disable (bus s))) s).

Definition MAX_PARAMETERS : Z := 6.

(** The [while(nbParameters && ssd1306SPITimer_ms)] of [sendCommand],
    with [iterator] at [parameters[index]]. *)
Fixpoint send_parameters (nbParameters : nat) (index : nat)
         (parameters : list Z) (env : Env) (b : Bus) : Bus :=
  match nbParameters with
  | O => b
  | S nbParameters' =>
      if SPITimer_ms b =? 0 then b
      else
        let b := busy_wait env b in
        let b := if SPITimer_ms b =? 0 then b
                 else emit (LL_SPI_TransmitData8 (u8 (nth index parameters 0))) b in
        send_parameters nbParameters' (S index) parameters env b
  end.

Definition sendCommand (regNumber : Z) (parameters : list Z) (nbParameters : Z)
           (env : Env) (s : SSD) : errorCode_u * SSD :=
  if u8 nbParameters >? MAX_PARAMETERS
  then (createErrorCode SEND_CMD 1 ERR_WARNING, s)
  else
    let b := arm SPI_TIMEOUT_MS (bus s) in
    let b := emit (LL_GPIO_ResetOutputPin SSD1306_DC_Pin) b in
    let b := emit LL_SPI_Enable b in
    let b := emit (LL_SPI_TransmitData8 (u8 regNumber)) b in
    let b := send_parameters (Z.to_nat (u8 nbParameters)) 0 parameters env b in
    let b := busy_wait env b in
    let b := emit LL_SPI_ClearFlag_OVR b in
    let b := emit LL_SPI_Disable b in
    if SPITimer_ms b =? 0
    then (createErrorCode SEND_CMD 2 ERR_WARNING, set_bus b s)
    else (ERR_SUCCESS, set_bus b s).

(** ** Buffer preparation *)

Definition LIGN : Z := 0x03.

(** The arrows icon, byte [i] to [(i / WIDTH) * (LAST_COLUMN + 1) +
    i % WIDTH]. *)
Fixpoint draw_arrows (indices : list nat) (buffer : list Z) : list Z :=
  match indices with
  | [] => buffer
  | i :: rest =>
      let bufferOffset :=
        u16 ((Z.of_nat i / ARROWSICON_WIDTH) * (SSD_LAST_COLUMN + 1)) in
      draw_arrows rest
        (poke (Z.to_nat (bufferOffset + Z.of_nat i mod ARROWSICON_WIDTH))
              (u8 (nth i arrowsIcon_32px 0)) buffer)
  end.

Definition SSD1306drawBaseScreen (s : SSD) : errorCode_u * SSD :=
  let s := set_window (0, SSD_LAST_COLUMN) (0, SSD_LAST_PAGE) MAX_DATA_SIZE s in
  let buffer := repeat 0 (Z.to_nat MAX_DATA_SIZE) in
  let buffer :=
    blit (Z.to_nat (Z.shiftr MAX_DATA_SIZE 1 + ARROWSICON_WIDTH))
         (repeat LIGN (Z.to_nat (SSD_LAST_COLUMN + 1 - ARROWSICON_WIDTH)))
         buffer in
  let buffer := draw_arrows (seq 0 (Z.to_nat ARROWSICON_NB_BYTES)) buffer in
  let buffer :=
    blit (Z.to_nat (MAX_DATA_SIZE - REFERENCETYPE_NB_BYTES))
         (first_bytes REFERENCETYPE_NB_BYTES absoluteReferentialIcon)
         buffer in
  (ERR_SUCCESS, set_state SendingData (set_screenBuffer buffer s)).

Definition ANGLE_COLUMN : Z := 40.
Definition ANGLE_ROLL_PAGE : Z := 1.
Definition ANGLE_PITCH_PAGE : Z := 5.
Definition MIN_ANGLE_DEG_TENTHS : Z := -900.
Definition MAX_ANGLE_DEG_TENTHS : Z := 900.

(** The angle as printed: clamped, and its sign taken apart. *)
Definition clamp_angle (angleTenths : Z) : Z :=
  let a := if angleTenths <? MIN_ANGLE_DEG_TENTHS
           then MIN_ANGLE_DEG_TENTHS else angleTenths in
  if a >? MAX_ANGLE_DEG_TENTHS then MAX_ANGLE_DEG_TENTHS else a.

Definition charIndexes (angleTenths : Z) : list Z :=
  let a := clamp_angle angleTenths in
  let sign := if a <? 0 then INDEX_MINUS else INDEX_PLUS in
  let a := if a <? 0 then s16 (- a) else a in
  [ u8 sign; u8 (Z.quot a 100); u8 (Z.rem (Z.quot a 10) 10);
    u8 INDEX_DOT; u8 (Z.rem a 10); u8 INDEX_DEG ].

(** The three nested loops: page by page, character by character, column
    by column. *)
Definition angle_bitmap (indexes : list Z) : list Z :=
  flat_map (fun page =>
    flat_map (fun character =>
      map (fun column =>
             u8 (nth (Z.to_nat (VERDANA_CHAR_WIDTH * Z.of_nat page) + column)
                     (nth (Z.to_nat character) verdana_16ptNumbers []) 0))
          (seq 0 (Z.to_nat VERDANA_CHAR_WIDTH)))
      indexes)
    (seq 0 (Z.to_nat VERDANA_NB_PAGES)).

(** The three loops count with [uint8_t] and write
    [VERDANA_NB_PAGES * 6 * VERDANA_CHAR_WIDTH] bytes from the head of
    the buffer: this is the code for a font whose two dimensions are
    below 256 and whose six glyphs fit the buffer. *)
Definition SSD1306_printAngleTenths (angleTenths : Z) (rotationAxis : rotationAxis_e)
           (s : SSD) : errorCode_u * SSD :=
  let page := match rotationAxis with
              | ROLL => ANGLE_ROLL_PAGE
              | PITCH => ANGLE_PITCH_PAGE
              end in
  let s := set_window
             (ANGLE_COLUMN, ANGLE_COLUMN + VERDANA_CHAR_WIDTH * ANGLE_NB_CHARS - 1)
             (page, page + 1) (ANGLE_NB_CHARS * VERDANA_NB_BYTES_CHAR) s in
  let buffer := blit 0 (angle_bitmap (charIndexes (s16 angleTenths)))
                     (_screenBuffer s) in
  (ERR_SUCCESS, set_state SendingData (set_screenBuffer buffer s)).

(** The copy loop counts with a [uint8_t]: this is the code for
    [REFERENCETYPE_NB_BYTES < 256] (from 256 on the C loop does not
    end). *)
Definition SSD1306_printReferentialIcon (type : referentialType_e) (s : SSD)
  : errorCode_u * SSD :=
  let icon := match type with
              | ABSOLUTE => absoluteReferentialIcon
              | RELATIVE => relativeReferentialIcon
              end in
  let s := set_window (REFTYPE_COLUMN, REFTYPE_COLUMN + REFERENCETYPE_NB_BYTES)
                      (REFTYPE_PAGE, REFTYPE_PAGE) REFERENCETYPE_NB_BYTES s in
  let buffer := blit 0 (first_bytes REFERENCETYPE_NB_BYTES icon)
                     (_screenBuffer s) in
  (ERR_SUCCESS, set_state SendingData (set_screenBuffer buffer s)).

(** The same [uint8_t] counter: the code for
    [REFERENCETYPE_NB_BYTES < 256]. *)
Definition SSD1306_printHoldIcon (status : Z) (s : SSD) : errorCode_u * SSD :=
  let s := set_window (REFTYPE_COLUMN - REFERENCETYPE_NB_BYTES, REFTYPE_COLUMN)
                      (REFTYPE_PAGE, REFTYPE_PAGE) REFERENCETYPE_NB_BYTES s in
  let bytes := if u8 status =? 0
               then repeat 0 (Z.to_nat REFERENCETYPE_NB_BYTES)
               else first_bytes REFERENCETYPE_NB_BYTES holdIcon in
  let buffer := blit 0 bytes (_screenBuffer s) in
  (ERR_SUCCESS, set_state SendingData (set_screenBuffer buffer s)).

(** ** States *)

Definition initCommands : list (Z * Z * Z) :=
  [ (u8 SCAN_DIRECTION_N1_0, 0, 0x00);
    (u8 HARDWARE_CONFIG, 1, u8 (Z.lor SSD_PIN_CONFIG_ALT SSD_COM_REMAP_DISABLE));
    (u8 SEGMENT_REMAP_127, 0, 0x00);
    (u8 MEMORY_ADDR_MODE, 1, u8 SSD_HORIZONTAL_ADDR);
    (u8 CONTRAST_CONTROL, 1, u8 SSD_CONTRAST_HIGHEST);
    (u8 CLOCK_DIVIDE_RATIO, 1, u8 (Z.lor SSD_CLOCK_FREQ_MID SSD_CLOCK_DIVIDER_1));
    (u8 CHG_PUMP_REGULATOR, 1, u8 SSD_ENABLE_CHG_PUMP);
    (u8 DISPLAY_ON, 0, 0x00) ].

(** The [for] loop of [stConfiguring]; [Some] is the early [return]. *)
Fixpoint send_commands (commands : list (Z * Z * Z)) (env : Env) (s : SSD)
  : option errorCode_u * SSD :=
  match commands with
  | [] => (None, s)
  | (regNumber, nbParameters, parameter) :: rest =>
      let '(result, s) := sendCommand regNumber [parameter] nbParameters env s in
      if isError result
      then (Some (pushErrorCode result INIT 1), s)
      else send_commands rest env s
  end.

Definition stConfiguring (env : Env) (s : SSD) : errorCode_u * SSD :=
  let b := emit (LL_GPIO_ResetOutputPin SSD1306_RES_Pin) (bus s) in
  let b := emit (LL_GPIO_SetOutputPin SSD1306_RES_Pin) b in
  match send_commands initCommands env (set_bus b s) with
  | (Some e, s) => (e, s)
  | (None, s) =>
      let '(result, s) := SSD1306drawBaseScreen s in
      if isError result then (pushErrorCode result INIT 2, s)
      else (ERR_SUCCESS, set_state SendingData s)
  end.

Definition stIdle (env : Env) (s : SSD) : errorCode_u * SSD :=
  (ERR_SUCCESS, s).

Definition stSendingData (env : Env) (s : SSD) : errorCode_u * SSD :=
  let '(result, s) :=
    sendCommand COLUMN_ADDRESS
                [fst (_limitColumns s); snd (_limitColumns s)] 2 env s in
  if isError result
  then (pushErrorCode result SENDING_DATA 1, set_state Idle s)
  else
    let '(result, s) :=
      sendCommand PAGE_ADDRESS
                  [fst (_limitPages s); snd (_limitPages s)] 2 env s in
    if isError result
    then (pushErrorCode result SENDING_DATA 2, set_state Idle s)
    else
      let b := emit (LL_GPIO_SetOutputPin SSD1306_DC_Pin) (bus s) in
      let b := emit LL_SPI_Enable b in
      let b := emit LL_DMA_DisableChannel b in
      let b := emit LL_DMA_ClearFlag_GI5 b in
      let b := emit (LL_DMA_SetDataLength (_size s)) b in
      let b := emit LL_DMA_EnableChannel b in
      let s := set_screenTimer_ms SPI_TIMEOUT_MS (set_bus b s) in
      let s := set_bus (emit LL_SPI_EnableDMAReq_TX (bus s)) s in
      (ERR_SUCCESS, set_state WaitingForTXdone s).

(** The code after the [finalise] label. *)
Definition finalise (result : errorCode_u) (s : SSD) : errorCode_u * SSD :=
  let b := emit LL_DMA_DisableChannel (bus s) in
  let b := emit LL_SPI_Disable b in
  (result, set_state Idle (set_bus b s)).

Definition stWaitingForTXdone (env : Env) (s : SSD) : errorCode_u * SSD :=
  if screenTimer_ms s =? 0
  then finalise (createErrorCode WAITING_DMA_RDY 1 ERR_ERROR) s
  else if dma_TE5 env
  then finalise (createErrorCode WAITING_DMA_RDY 2 ERR_ERROR) s
  else if negb (dma_TC5 env) then (ERR_SUCCESS, s)
  else finalise ERR_SUCCESS s.

(** The function [_state] points to. *)
Definition state_function (st : screenState) : Env -> SSD -> errorCode_u * SSD :=
  match st with
  | Idle => stIdle
  | Configuring => stConfiguring
  | SendingData => stSendingData
  | WaitingForTXdone => stWaitingForTXdone
  end.

Definition SSD1306update (env : Env) (s : SSD) : errorCode_u * SSD :=
  state_function (_state s) env s.

End Driver.

End SSD1306.

(** * Reference definitions and concrete runs *)

Definition idle_bus : Bus :=
  {| SPITimer_ms := 0; waits := 0; receptions := 0; trace := [] |}.

(** On a bus where every awaited flag rises in time, nothing fails. *)
Definition always_in_time (env : Env) : Prop :=
  forall n, 0 < flag_deadline env n.

Module ADXL345_spec.

Import ADXL345.

(** The sample carried by one complete burst read whose first reception has
    index [first]: the byte at [first] answers the opcode, the six data
    bytes follow, low byte first. *)
Definition burst_sample (env : Env) (first : nat) : axes :=
  let byte k := u8 (rx_data env (first + 1 + k)) in
  mkAxes (twoComplement (byte 0%nat) (byte 1%nat))
         (twoComplement (byte 2%nat) (byte 3%nat))
         (twoComplement (byte 4%nat) (byte 5%nat)).

(** The samples of [count] complete burst reads in a row. *)
Fixpoint burst_samples (env : Env) (first : nat) (count : nat) : list axes :=
  match count with
  | O => []
  | S count' => burst_sample env first :: burst_samples env (first + 7) count'
  end.

Definition axis_sum (axis : axis_e) (samples : list axes) : Z :=
  fold_right Z.add 0 (map (get axis) samples).

(** Bus transactions one call of [ADXL345update] can start, by state. *)
Definition max_transactions (st : adxlState) : nat :=
  match st with
  | Startup => 1
  | Configuring => 6
  | MeasuringST_OFF => 34
  | WaitingForSTenabled => 1
  | MeasuringST_ON => 33
  | Measuring => 32
  | Error => 0
  end.

(** The self-test window as an interval: strictly between the two bounds. *)
Definition strictly_inside (axis : axis_e) (delta : Z) : Prop :=
  fst (ST_MAXDELTAS axis) < delta < snd (ST_MAXDELTAS axis).

(** A register number the datasheet reserves, or one past the last. *)
Definition reserved_or_beyond {regs : ADXL345registers} (registerNumber : Z) : Prop :=
  1 <= registerNumber <= ADXL_HIGH_RESERVED_REG
  \/ ADXL_REGISTER_MAXNB < registerNumber.

(** A device that answers every wait at once and sends the sample
    [(x, y, z)] in every burst. *)
Definition steady (x y z : Z) (pin_set : bool) : Env :=
  {| flag_deadline := fun _ => 10;
     rx_data := fun n =>
       match (n mod 7)%nat with
       | 1%nat => x mod 256
       | 2%nat => (x / 256) mod 256
       | 3%nat => y mod 256
       | 4%nat => (y / 256) mod 256
       | 5%nat => z mod 256
       | 6%nat => (z / 256) mod 256
       | _ => 0
       end;
     int1_pin_set := pin_set; dma_TE5 := false; dma_TC5 := false |}.

(** A device that answers every wait at once and sends the X samples
    0, -1, 0, -1, ... with Y at -3 and Z at 255 throughout. *)
Definition alternating : Env :=
  {| flag_deadline := fun _ => 10;
     rx_data := fun n =>
       match (n mod 7)%nat with
       | 1%nat | 2%nat => if Nat.even (n / 7) then 0x00 else 0xFF
       | 3%nat => 0xFD
       | 4%nat => 0xFF
       | 5%nat => 0xFF
       | _ => 0
       end;
     int1_pin_set := false; dma_TE5 := false; dma_TC5 := false |}.

(** A device that answers every wait at once with its identity byte. *)
Definition present : Env :=
  {| flag_deadline := fun _ => 10; rx_data := fun _ => 0xE5;
     int1_pin_set := true; dma_TE5 := false; dma_TC5 := false |}.

(** A bus on which no flag ever rises: every transaction times out. *)
Definition dead : Env :=
  {| flag_deadline := fun _ => 0; rx_data := fun _ => 0;
     int1_pin_set := true; dma_TE5 := false; dma_TC5 := false |}.

(** [s'] is [s] up to the bus, the last result and the current state. *)
Definition keeps_data (s s' : ADXL) : Prop :=
  adxlTimer_ms s' = adxlTimer_ms s
  /\ _measurementsUpdated s' = _measurementsUpdated s
  /\ _latestValues s' = _latestValues s
  /\ _previousValues s' = _previousValues s
  /\ _zeroValues s' = _zeroValues s.

(** One turn of the receive loop. *)
Definition receive_turn (index : nat) (env : Env) (b : Bus) (value : list Z)
  : Bus * list Z :=
  let b := busy_wait env (emit (LL_SPI_TransmitData8 SPI_RX_FILLER) b) in
  (snd (receive env b), poke index (fst (receive env b)) value).

(** The driver in a given state, with a given outer timer and baseline. *)
Definition at_state (st : adxlState) (timer : Z) (latest : axes) : ADXL :=
  set_latestValues latest (set_adxlTimer_ms timer (set_state st initial)).


(** MeasuringSelfTestOn with 1 s left and a baseline of (100, -100, 250). *)
Definition self_testing : ADXL :=
  at_state MeasuringST_ON 1000 (mkAxes 100 (-100) 250).

(** Startup with 1 s left. *)
Definition starting : ADXL := at_state Startup 1000 (mkAxes 0 0 0).

(** MeasuringSelfTestOff with 1 s left. *)
Definition measuring_baseline : ADXL :=
  at_state MeasuringST_OFF 1000 (mkAxes 0 0 0).

(** WaitingForSelfTestEnabled as MeasuringSelfTestOff leaves it: 25 ms to
    go. *)
Definition settling : ADXL :=
  at_state WaitingForSTenabled ST_WAIT_MS (mkAxes 0 0 0).

(** Measuring, lying on its side: Z reads zero, with zero offsets set. *)
Definition on_its_side : ADXL :=
  set_zeroValues (mkAxes 7 (-7) 0)
                 (at_state Measuring 1000 (mkAxes 120 (-45) 0)).

End ADXL345_spec.

Module SSD1306_spec.

Import SSD1306.

(** Bus transactions one call of [SSD1306update] can start, by state. *)
Definition max_transactions (st : screenState) : nat :=
  match st with
  | Configuring => 8
  | SendingData => 3
  | WaitingForTXdone => 0
  | Idle => 0
  end.

(** A display that answers every wait at once. *)
Definition responsive (TE5 TC5 : bool) : Env :=
  {| flag_deadline := fun _ => 10; rx_data := fun _ => 0;
     int1_pin_set := true; dma_TE5 := TE5; dma_TC5 := TC5 |}.

Definition dead : Env :=
  {| flag_deadline := fun _ => 0; rx_data := fun _ => 0;
     int1_pin_set := true; dma_TE5 := false; dma_TC5 := false |}.

Definition at_state (st : screenState) (timer : Z) : SSD :=
  set_screenTimer_ms timer (set_state st initial).

End SSD1306_spec.

(** * Sequences of calls *)

(** Whether the SPI peripheral is enabled after the calls of a trace, having
    been disabled before. *)
Definition spi_enabled (t : list Event) : bool :=
  fold_left (fun enabled e =>
               match e with
               | LL_SPI_Enable => true
               | LL_SPI_Disable => false
               | _ => enabled
               end) t false.

Module ADXL345_api.

Import ADXL345.

(** The two bytes the device sends for a 16-bit sample, low byte first. *)
Definition sample_bytes (v : Z) : Z * Z := (v mod 256, (v / 256) mod 256).

(** The position of a state in the start-up sequence; Error comes last. *)
Definition rank (st : adxlState) : nat :=
  match st with
  | Startup => 0
  | Configuring => 1
  | MeasuringST_OFF => 2
  | WaitingForSTenabled => 3
  | MeasuringST_ON => 4
  | Measuring => 5
  | Error => 6
  end.

(** A call of one of the driver's entry points that change its variables. *)
Inductive call :=
| Initialise
| Update (env : Env)
| HasChanged (axis : axis_e)
| ZeroDown
| CancelZeroing.

(** [s'] has the data of [s] and, if the peripheral was disabled in [s],
    it is disabled in [s']. *)
Definition quiet (s s' : ADXL) : Prop :=
  ADXL345_spec.keeps_data s s'
  /\ (spi_enabled (trace (bus s)) = false ->
      spi_enabled (trace (bus s')) = false).

(** [st'] is [st], the state after it, or Error. *)
Definition steps_to (st st' : adxlState) : Prop :=
  st' = Error \/ st' = st \/ rank st' = S (rank st).

Section Calls.

Context {regs : ADXL345registers}.

Definition perform (c : call) (s : ADXL) : ADXL :=
  match c with
  | Initialise => snd (ADXL345initialise s)
  | Update env => snd (ADXL345update env s)
  | HasChanged axis => snd (ADXL345hasChanged axis s)
  | ZeroDown => ADXLzeroDown s
  | CancelZeroing => ADXLcancelZeroing s
  end.

Fixpoint perform_all (calls : list call) (s : ADXL) : ADXL :=
  match calls with
  | [] => s
  | c :: rest => perform_all rest (perform c s)
  end.

(** What an accepted register write puts on the bus when the bus answers
    in time. *)
Definition write_trace (entry : Z * Z) : list Event :=
  [ LL_SPI_Enable;
    LL_SPI_TransmitData8
      (u8 (Z.lor ADXL_WRITE (Z.lor ADXL_SINGLE (fst entry))));
    LL_SPI_TransmitData8 (u8 (snd entry));
    LL_SPI_ClearFlag_OVR;
    LL_SPI_Disable ].

(** What an accepted register write puts on the bus when the transmit
    buffer does not empty in time: the value byte is missing. *)
Definition aborted_write_trace (registerNumber : Z) : list Event :=
  [ LL_SPI_Enable;
    LL_SPI_TransmitData8
      (u8 (Z.lor ADXL_WRITE (Z.lor ADXL_SINGLE registerNumber)));
    LL_SPI_ClearFlag_OVR;
    LL_SPI_Disable ].

(** Every register of the configuration table passes the validation of
    [writeRegister]. *)
Definition configuration_accepted : Prop :=
  forall entry, In entry initialisationArray ->
                write_rejected (fst entry) = false.

End Calls.

(** The device [env] seen by a driver that has already made [d]
    receptions. *)
Definition delayed (d : nat) (env : Env) : Env :=
  {| flag_deadline := flag_deadline env;
     rx_data := fun n => rx_data env (n - d);
     int1_pin_set := int1_pin_set env;
     dma_TE5 := dma_TE5 env; dma_TC5 := dma_TC5 env |}.

(** Calls on a device that answers in time: start-up, configuration, the
    two self-test measurements and a first measurement, with queries in
    between. *)
Definition session : list call :=
  [ Initialise; Update ADXL345_spec.present; Update ADXL345_spec.present;
    HasChanged X_AXIS;
    Update (delayed 2 (ADXL345_spec.steady 100 (-100) 250 false));
    ZeroDown; Update ADXL345_spec.present;
    Update (delayed 2 (ADXL345_spec.steady 186 (-600) 750 false));
    CancelZeroing;
    Update (delayed 2 (ADXL345_spec.steady 3 (-4) 255 false)) ].

End ADXL345_api.

Module SSD1306_api.

Import SSD1306.

(** A call of one of the driver's entry points. *)
Inductive call :=
| Initialise
| Update (env : Env)
| DrawBaseScreen
| PrintAngleTenths (angleTenths : Z) (rotationAxis : rotationAxis_e)
| PrintReferentialIcon (type : referentialType_e)
| PrintHoldIcon (status : Z).

Section Calls.

Context {res : SSD1306resources}.

Definition perform (c : call) (s : SSD) : SSD :=
  match c with
  | Initialise => snd (SSD1306initialise s)
  | Update env => snd (SSD1306update env s)
  | DrawBaseScreen => snd (SSD1306drawBaseScreen s)
  | PrintAngleTenths angleTenths rotationAxis =>
      snd (SSD1306_printAngleTenths angleTenths rotationAxis s)
  | PrintReferentialIcon type => snd (SSD1306_printReferentialIcon type s)
  | PrintHoldIcon status => snd (SSD1306_printHoldIcon status s)
  end.

Fixpoint perform_all (calls : list call) (s : SSD) : SSD :=
  match calls with
  | [] => s
  | c :: rest => perform_all rest (perform c s)
  end.

(** The buffer has the size of the screen memory and the staged byte
    count does not exceed it. *)
Definition well_staged (s : SSD) : Prop :=
  length (_screenBuffer s) = Z.to_nat MAX_DATA_SIZE
  /\ 0 <= _size s <= MAX_DATA_SIZE.


(** Where [SSD1306drawBaseScreen] puts byte [i] of the arrows icon. *)
Definition arrows_offset (i : nat) : nat :=
  Z.to_nat (u16 ((Z.of_nat i / ARROWSICON_WIDTH) * (SSD_LAST_COLUMN + 1))
            + Z.of_nat i mod ARROWSICON_WIDTH).

(** What a command with [nbParameters] parameters puts on the bus when
    the bus answers in time. *)
Definition command_trace (regNumber : Z) (parameters : list Z)
           (nbParameters : Z) : list Event :=
  [ LL_GPIO_ResetOutputPin SSD1306_DC_Pin; LL_SPI_Enable;
    LL_SPI_TransmitData8 (u8 regNumber) ]
  ++ map (fun k => LL_SPI_TransmitData8 (u8 (nth k parameters 0)))
         (seq 0 (Z.to_nat nbParameters))
  ++ [ LL_SPI_ClearFlag_OVR; LL_SPI_Disable ].

(** What [stSendingData] puts on the bus after its two commands. *)
Definition dma_start_trace (size : Z) : list Event :=
  [ LL_GPIO_SetOutputPin SSD1306_DC_Pin; LL_SPI_Enable;
    LL_DMA_DisableChannel; LL_DMA_ClearFlag_GI5;
    LL_DMA_SetDataLength size; LL_DMA_EnableChannel;
    LL_SPI_EnableDMAReq_TX ].

End Calls.

(** Calls on a display that answers in time: set-up, the transfer of the
    base screen, then an angle, an icon and the hold icon, each staged and
    transferred. *)
Definition session : list call :=
  [ Initialise; Update (SSD1306_spec.responsive false false);
    Update (SSD1306_spec.responsive false false);
    Update (SSD1306_spec.responsive false true);
    PrintAngleTenths (-123) ROLL;
    Update (SSD1306_spec.responsive false false);
    Update (SSD1306_spec.responsive false true);
    PrintReferentialIcon RELATIVE;
    Update (SSD1306_spec.responsive false false);
    Update (SSD1306_spec.responsive true false);
    PrintHoldIcon 1 ].

End SSD1306_api.

(** * Properties *)

(** ** Integers and the bus *)

Lemma u8_range (x : Z) : 0 <= u8 x < 256.
Proof. unfold u8. apply Z.mod_pos_bound. lia. Qed.

Lemma u8_small (x : Z) : 0 <= x < 256 -> u8 x = x.
Proof. intros H. unfold u8. apply Z.mod_small. exact H. Qed.

Lemma u8_le (x : Z) : 0 <= x -> u8 x <= x.
Proof. intros H. unfold u8. apply Z.mod_le; lia. Qed.

Lemma s16_range (x : Z) : -32768 <= s16 x < 32768.
Proof.
  unfold s16.
  pose proof (Z.mod_pos_bound (x + 32768) 65536 ltac:(lia)). lia.
Qed.

Lemma s32_small (x : Z) : -2147483648 <= x < 2147483648 -> s32 x = x.
Proof. intros H. unfold s32. rewrite Z.mod_small; lia. Qed.

Lemma twoComplement_range (byte0 byte1 : Z) :
  -32768 <= ADXL345.twoComplement byte0 byte1 < 32768.
Proof. apply s16_range. Qed.

Lemma poke_length (i : nat) (v : Z) (l : list Z) : length (poke i v l) = length l.
Proof.
  revert i. induction l as [|h t IH]; intros [|i]; simpl; auto.
Qed.

Lemma nth_poke_same (i : nat) (v : Z) (l : list Z) :
  (i < length l)%nat -> nth i (poke i v l) 0 = v.
Proof.
  revert i. induction l as [|h t IH]; intros [|i] H; simpl in *; try lia; auto.
  apply IH. lia.
Qed.

Lemma nth_poke_other (i j : nat) (v : Z) (l : list Z) :
  i <> j -> nth j (poke i v l) 0 = nth j l 0.
Proof.
  revert i j. induction l as [|h t IH]; intros [|i] [|j] H; simpl; auto; try lia.
Qed.

Lemma transactions_app (t1 t2 : list Event) :
  transactions (t1 ++ t2) = (transactions t1 + transactions t2)%nat.
Proof. unfold transactions. rewrite filter_app, length_app. reflexivity. Qed.

Arguments transactions : simpl never.

(** Count the transactions of a trace built by appending events. *)
Ltac count :=
  simpl; rewrite ?transactions_app; unfold transactions; simpl; try lia.

Ltac branches :=
  repeat match goal with
         | |- context [if ?c then _ else _] => destruct c eqn:?
         end.

Lemma busy_wait_expired (env : Env) (b : Bus) :
  SPITimer_ms b = 0 -> SPITimer_ms (busy_wait env b) = 0.
Proof. intros H. simpl. rewrite H. lia. Qed.

Lemma busy_wait_running (env : Env) (b : Bus) :
  SPITimer_ms (busy_wait env b) <> 0 -> SPITimer_ms b <> 0.
Proof. intros H E. apply H, busy_wait_expired, E. Qed.

Lemma busy_wait_responsive (env : Env) (b : Bus) :
  0 < SPITimer_ms b -> 0 < flag_deadline env (waits b) ->
  0 < SPITimer_ms (busy_wait env b).
Proof. intros H1 H2. simpl. lia. Qed.

(** ** Accelerometer: the two bus primitives *)

Module ADXL345_proofs.

Import ADXL345 ADXL345_spec.

Lemma keeps_data_refl (s : ADXL) : keeps_data s s.
Proof. repeat split. Qed.

Lemma keeps_data_trans (s1 s2 s3 : ADXL) :
  keeps_data s1 s2 -> keeps_data s2 s3 -> keeps_data s1 s3.
Proof.
  unfold keeps_data. intros (A1 & A2 & A3 & A4 & A5) (B1 & B2 & B3 & B4 & B5).
  repeat split; congruence.
Qed.

Lemma keeps_data_set_bus (b : Bus) (s : ADXL) : keeps_data s (set_bus b s).
Proof. repeat split. Qed.

Lemma keeps_data_set_result (r : errorCode_u) (s : ADXL) :
  keeps_data s (set_result r s).
Proof. repeat split. Qed.

Lemma keeps_data_set_state (st : adxlState) (s : ADXL) :
  keeps_data s (set_state st s).
Proof. repeat split. Qed.

Create HintDb frame.
#[local] Hint Resolve keeps_data_refl keeps_data_set_bus keeps_data_set_result
  keeps_data_set_state : frame.

Section Primitives.

Context {regs : ADXL345registers}.

Lemma writeRegister_rejected (registerNumber value : Z) (env : Env) (s : ADXL) :
  write_rejected registerNumber = true ->
  writeRegister registerNumber value env s
  = (createErrorCode WRITE_REGISTER 1 ERR_WARNING, s).
Proof. intros H. unfold writeRegister. rewrite H. reflexivity. Qed.

Lemma writeRegister_state (registerNumber value : Z) (env : Env) (s : ADXL) :
  _state (snd (writeRegister registerNumber value env s)) = _state s
  /\ keeps_data s (snd (writeRegister registerNumber value env s)).
Proof. unfold writeRegister. branches; simpl; auto with frame. Qed.

Lemma writeRegister_transactions (registerNumber value : Z) (env : Env) (s : ADXL) :
  (transactions (trace (bus (snd (writeRegister registerNumber value env s))))
   <= transactions (trace (bus s)) + 1)%nat.
Proof.
  unfold writeRegister.
  branches; count.
Qed.

(** An accepted write enables the peripheral: the bus is used. *)
Lemma writeRegister_accepted (registerNumber value : Z) (env : Env) (s : ADXL) :
  write_rejected registerNumber = false ->
  transactions (trace (bus (snd (writeRegister registerNumber value env s))))
  = S (transactions (trace (bus s))).
Proof.
  intros H. unfold writeRegister. rewrite H.
  branches; count.
Qed.

Lemma writeRegister_code (registerNumber value : Z) (env : Env) (s : ADXL) :
  let r := fst (writeRegister registerNumber value env s) in
  (r = ERR_SUCCESS /\ isError r = false)
  \/ (isError r = true /\ severity r = ERR_WARNING).
Proof. unfold writeRegister. branches; simpl; auto. Qed.

Lemma receive_bytes_turn (size index : nat) (env : Env) (b : Bus) (value : list Z) :
  receive_bytes (S size) index env b value
  = if SPITimer_ms (fst (receive_turn index env b value)) =? 0
    then receive_turn index env b value
    else receive_bytes size (S index) env
                       (fst (receive_turn index env b value))
                       (snd (receive_turn index env b value)).
Proof. reflexivity. Qed.

Lemma receive_turn_facts (index : nat) (env : Env) (b : Bus) (value : list Z) :
  transactions (trace (fst (receive_turn index env b value)))
  = transactions (trace b)
  /\ receptions (fst (receive_turn index env b value)) = S (receptions b)
  /\ snd (receive_turn index env b value)
     = poke index (u8 (rx_data env (receptions b))) value.
Proof. repeat split. count. Qed.

(** The receive loop starts no transaction and leaves the array's length. *)
Lemma receive_bytes_trace (size index : nat) (env : Env) (b : Bus) (value : list Z) :
  transactions (trace (fst (receive_bytes size index env b value)))
  = transactions (trace b)
  /\ length (snd (receive_bytes size index env b value)) = length value.
Proof.
  revert index b value.
  induction size as [|size IH]; intros index b value; [simpl; auto|].
  rewrite receive_bytes_turn.
  destruct (receive_turn_facts index env b value) as (T & _ & V).
  destruct (SPITimer_ms _ =? 0).
  - rewrite T, V, poke_length. auto.
  - destruct (IH (S index) (fst (receive_turn index env b value))
                 (snd (receive_turn index env b value))) as [IH1 IH2].
    rewrite IH1, IH2, T, V, poke_length. auto.
Qed.

(** When the loop leaves the timer running, it has stored [size] bytes,
    one per reception, in consecutive cells. *)
Lemma receive_bytes_complete (size index : nat) (env : Env) (b : Bus) (value : list Z) :
  (index + size <= length value)%nat ->
  SPITimer_ms (fst (receive_bytes size index env b value)) <> 0 ->
  receptions (fst (receive_bytes size index env b value))
  = (receptions b + size)%nat
  /\ (forall k, (k < size)%nat ->
                nth (index + k) (snd (receive_bytes size index env b value)) 0
                = u8 (rx_data env (receptions b + k)))
  /\ (forall j, (j < index)%nat ->
                nth j (snd (receive_bytes size index env b value)) 0
                = nth j value 0).
Proof.
  revert index b value.
  induction size as [|size IH]; intros index b value Hlen Hrun.
  - simpl. repeat split; auto; intros; lia.
  - rewrite receive_bytes_turn in *.
    destruct (receive_turn_facts index env b value) as (_ & R & V).
    destruct (SPITimer_ms (fst (receive_turn index env b value)) =? 0) eqn:E.
    + apply Z.eqb_eq in E. contradiction.
    + destruct (IH (S index) (fst (receive_turn index env b value))
                   (snd (receive_turn index env b value)))
        as (R' & Hnew & Hold); auto.
      { rewrite V, poke_length. lia. }
      rewrite R in *. rewrite V in *.
      split; [lia|]. split.
      * intros [|k] Hk.
        -- rewrite Nat.add_0_r. rewrite Hold by lia.
           rewrite Nat.add_0_r. apply nth_poke_same. lia.
        -- replace (index + S k)%nat with (S index + k)%nat by lia.
           rewrite Hnew by lia. f_equal. f_equal. lia.
      * intros j Hj. rewrite Hold by lia. apply nth_poke_other. lia.
Qed.

Lemma readRegisters_state (firstRegister : Z) (value : list Z) (size : Z)
      (env : Env) (s : ADXL) :
  _state (snd (readRegisters firstRegister value size env s)) = _state s
  /\ keeps_data s (snd (readRegisters firstRegister value size env s)).
Proof.
  unfold readRegisters. branches; simpl; auto with frame.
  all: destruct (receive_bytes _ _ _ _ _); branches; simpl; auto with frame.
Qed.

Lemma readRegisters_transactions (firstRegister : Z) (value : list Z) (size : Z)
      (env : Env) (s : ADXL) :
  (transactions (trace (bus (snd (readRegisters firstRegister value size env s))))
   <= transactions (trace (bus s)) + 1)%nat.
Proof.
  unfold readRegisters. branches; simpl; try lia.
  match goal with
  | |- context [receive_bytes ?n ?i ?e ?b ?v] =>
      pose proof (receive_bytes_trace n i e b v) as [T _];
      destruct (receive_bytes n i e b v) as [b' value']
  end.
  simpl in T. rewrite !transactions_app in T.
  unfold transactions in T. simpl in T.
  branches; count.
Qed.

Lemma readRegisters_code (firstRegister : Z) (value : list Z) (size : Z)
      (env : Env) (s : ADXL) :
  let r := fst (fst (readRegisters firstRegister value size env s)) in
  (r = ERR_SUCCESS /\ isError r = false)
  \/ (isError r = true /\ severity r = ERR_WARNING).
Proof.
  unfold readRegisters. branches; simpl; auto.
  all: destruct (receive_bytes _ _ _ _ _); branches; simpl; auto.
Qed.

(** [readRegisters] with the outcome of its loop named. *)
Lemma readRegisters_unfold (firstRegister : Z) (value : list Z) (size : Z)
      (env : Env) (s : ADXL) :
  readRegisters firstRegister value size env s
  = if u8 size =? 0 then (ERR_SUCCESS, value, s)
    else if firstRegister >? ADXL_REGISTER_MAXNB
    then (createErrorCode READ_REGISTERS 1 ERR_WARNING, value, s)
    else
      let opened :=
        receive env (busy_wait env
          (emit (LL_SPI_TransmitData8
                   (u8 (Z.lor ADXL_READ (Z.lor ADXL_MULTIPLE firstRegister))))
                (emit LL_SPI_Enable (arm SPI_TIMEOUT_MS (bus s))))) in
      let received :=
        receive_bytes (Z.to_nat (u8 size)) 0 env (snd opened)
                      (poke 0 (fst opened) value) in
      let closed :=
        emit LL_SPI_Disable
             (emit LL_SPI_ClearFlag_OVR (busy_wait env (fst received))) in
      if SPITimer_ms closed =? 0
      then (createErrorCode READ_REGISTERS 2 ERR_WARNING, snd received,
            set_bus closed s)
      else (ERR_SUCCESS, snd received, set_bus closed s).
Proof.
  unfold readRegisters.
  destruct (u8 size =? 0); [reflexivity|].
  destruct (firstRegister >? ADXL_REGISTER_MAXNB); [reflexivity|].
  unfold receive. cbn [fst snd]. cbv zeta.
  destruct (receive_bytes _ _ _ _ _). reflexivity.
Qed.

(** A burst read that does not fail has consumed one reception for the
    opcode and one per byte, and the array holds the bytes in order. *)
Lemma readRegisters_complete (firstRegister : Z) (value : list Z) (size : Z)
      (env : Env) (s : ADXL) :
  0 < size < 256 -> (Z.to_nat size <= length value)%nat ->
  isError (fst (fst (readRegisters firstRegister value size env s))) = false ->
  receptions (bus (snd (readRegisters firstRegister value size env s)))
  = (receptions (bus s) + 1 + Z.to_nat size)%nat
  /\ (forall k, (k < Z.to_nat size)%nat ->
                nth k (snd (fst (readRegisters firstRegister value size env s))) 0
                = u8 (rx_data env (receptions (bus s) + 1 + k)))
  /\ length (snd (fst (readRegisters firstRegister value size env s)))
     = length value.
Proof.
  intros Hsize Hlen. rewrite readRegisters_unfold.
  rewrite (u8_small size) by lia.
  destruct (size =? 0) eqn:E0; [apply Z.eqb_eq in E0; lia|].
  destruct (firstRegister >? ADXL_REGISTER_MAXNB); [discriminate|].
  cbv zeta.
  match goal with
  | |- context [receive_bytes ?n ?i ?e ?b ?v] =>
      pose proof (receive_bytes_complete n i e b v) as C;
      pose proof (receive_bytes_trace n i e b v) as [_ L];
      set (received := receive_bytes n i e b v) in *
  end.
  destruct (SPITimer_ms _ =? 0) eqn:E; [discriminate|]. intros _.
  apply Z.eqb_neq in E.
  change (SPITimer_ms (busy_wait env (fst received)) <> 0) in E.
  apply busy_wait_running in E.
  rewrite poke_length in C, L.
  destruct (C ltac:(simpl; lia) E) as (R & Hnew & _).
  cbn [fst snd bus set_bus receptions emit busy_wait].
  split; [rewrite R; simpl; lia|]. split; [|exact L].
  intros k Hk. specialize (Hnew k Hk). simpl in Hnew. rewrite Hnew.
  f_equal. f_equal. lia.
Qed.

End Primitives.

(** ** Accelerometer: FIFO integration *)

Section Integration.

Context {regs : ADXL345registers}.

(** One turn of the sample loop. *)
Lemma integrate_samples_turn (count : nat) (env : Env) (s : ADXL)
      (buffer : list Z) (values : axes) :
  integrate_samples (S count) env s buffer values
  = let read := readRegisters DATA_X0 buffer ADXL_NB_DATA_REGISTERS env s in
    let s1 := set_result (fst (fst read)) (snd read) in
    if isError (fst (fst read))
    then (Some (pushErrorCode (fst (fst read)) INTEGRATE 1), values,
          set_state Error s1)
    else integrate_samples count env s1 (snd (fst read))
                           (add_sample (snd (fst read)) values).
Proof.
  simpl. destruct (readRegisters _ _ _ _ _) as [[r b] s1]. reflexivity.
Qed.

(** The loop touches the bus, [_result] and, on failure, [_state]; it
    starts at most one transaction per sample. *)
Lemma integrate_samples_frame (count : nat) (env : Env) (s : ADXL)
      (buffer : list Z) (values : axes) :
  let out := integrate_samples count env s buffer values in
  keeps_data s (snd out)
  /\ (transactions (trace (bus (snd out)))
      <= transactions (trace (bus s)) + count)%nat
  /\ match fst (fst out) with
     | None => _state (snd out) = _state s
     | Some _ => _state (snd out) = Error
     end.
Proof.
  revert s buffer values.
  induction count as [|count IH]; intros s buffer values.
  - simpl. repeat split. lia.
  - rewrite integrate_samples_turn. cbv zeta.
    pose proof (readRegisters_state DATA_X0 buffer ADXL_NB_DATA_REGISTERS env s)
      as [St K].
    pose proof (readRegisters_transactions DATA_X0 buffer
                  ADXL_NB_DATA_REGISTERS env s) as T.
    destruct (readRegisters DATA_X0 buffer ADXL_NB_DATA_REGISTERS env s)
      as [[r buffer1] s1].
    cbn [fst snd] in *.
    destruct (isError r).
    + cbn [fst snd]. split; [|split].
      * eapply keeps_data_trans; [exact K|]. repeat split.
      * simpl. lia.
      * reflexivity.
    + specialize (IH (set_result r s1) buffer1 (add_sample buffer1 values)).
      cbv zeta in IH. destruct IH as (K' & T' & S').
      split; [|split].
      * eapply keeps_data_trans; [exact K|].
        eapply keeps_data_trans; [apply keeps_data_set_result|exact K'].
      * simpl in T'. lia.
      * destruct (fst (fst (integrate_samples count env (set_result r s1)
                              buffer1 (add_sample buffer1 values)))).
        -- exact S'.
        -- rewrite S'. simpl. exact St.
Qed.

Lemma add_sample_exact (buffer : list Z) (values : axes) (bound : Z) :
  (forall axis, - bound <= get axis values <= bound) ->
  0 <= bound -> bound + 32768 < 2147483648 ->
  forall axis,
    get axis (add_sample buffer values)
    = get axis values
      + twoComplement (nth (2 * axis_index axis) buffer 0)
                      (nth (2 * axis_index axis + 1) buffer 0).
Proof.
  intros Hb H0 Hmax axis.
  pose proof (Hb X_AXIS) as Bx. pose proof (Hb Y_AXIS) as By.
  pose proof (Hb Z_AXIS) as Bz.
  pose proof (twoComplement_range (nth 0 buffer 0) (nth 1 buffer 0)).
  pose proof (twoComplement_range (nth 2 buffer 0) (nth 3 buffer 0)).
  pose proof (twoComplement_range (nth 4 buffer 0) (nth 5 buffer 0)).
  destruct values as [x y z]. simpl in Bx, By, Bz.
  destruct axis; unfold add_sample, add_axis; simpl;
    apply s32_small; lia.
Qed.

(** A buffer filled by a complete burst read carries [burst_sample]. *)
Lemma add_sample_burst (env : Env) (first : nat) (buffer : list Z) :
  (forall k, (k < 6)%nat -> nth k buffer 0 = u8 (rx_data env (first + 1 + k))) ->
  forall axis,
    twoComplement (nth (2 * axis_index axis) buffer 0)
                  (nth (2 * axis_index axis + 1) buffer 0)
    = get axis (burst_sample env first).
Proof.
  intros H axis. destruct axis; simpl;
    rewrite !H by lia; reflexivity.
Qed.

(** When the loop runs to its end, each axis has gained the sum of the
    samples read, with no wrap-around. *)
Lemma integrate_samples_sum (count : nat) (env : Env) :
  forall (s : ADXL) (buffer : list Z) (values : axes) (bound : Z),
    length buffer = 6%nat ->
    (forall axis, - bound <= get axis values <= bound) ->
    0 <= bound -> bound + 32768 * Z.of_nat count < 2147483648 ->
    fst (fst (integrate_samples count env s buffer values)) = None ->
    forall axis,
      get axis (snd (fst (integrate_samples count env s buffer values)))
      = get axis values
        + axis_sum axis (burst_samples env (receptions (bus s)) count).
Proof.
  induction count as [|count IH]; intros s buffer values bound L B H0 Hmax Hnone axis.
  - simpl. unfold axis_sum. simpl. lia.
  - rewrite integrate_samples_turn in *. cbv zeta in *.
    pose proof (readRegisters_complete DATA_X0 buffer ADXL_NB_DATA_REGISTERS env s
                  ltac:(unfold ADXL_NB_DATA_REGISTERS; lia)
                  ltac:(rewrite L; simpl; lia)) as C.
    destruct (readRegisters DATA_X0 buffer ADXL_NB_DATA_REGISTERS env s)
      as [[r buffer1] s1].
    cbn [fst snd] in *.
    destruct (isError r) eqn:E; [discriminate|].
    destruct (C eq_refl) as (R & Hbytes & L1).
    change (Z.to_nat ADXL_NB_DATA_REGISTERS) with 6%nat in *.
    pose proof (add_sample_exact buffer1 values bound B H0 ltac:(lia)) as A.
    rewrite (IH (set_result r s1) buffer1 (add_sample buffer1 values)
                (bound + 32768)); auto; try lia.
    + rewrite A. rewrite (add_sample_burst env (receptions (bus s)) buffer1 Hbytes).
      simpl bus. rewrite R. unfold axis_sum. simpl.
      replace (receptions (bus s) + 1 + 6)%nat
        with (receptions (bus s) + 7)%nat by lia.
      lia.
    + intros a. rewrite A.
      pose proof (twoComplement_range (nth (2 * axis_index a) buffer1 0)
                                      (nth (2 * axis_index a + 1) buffer1 0)).
      pose proof (B a). lia.
Qed.

(** [integrateFIFO] keeps the data of the driver, starts at most 32
    transactions, and changes the state only to [Error]. *)
Lemma integrateFIFO_frame (env : Env) (s : ADXL) :
  let out := integrateFIFO env s in
  keeps_data s (snd out)
  /\ (transactions (trace (bus (snd out)))
      <= transactions (trace (bus s)) + 32)%nat
  /\ (_state (snd out) = _state s \/ _state (snd out) = Error).
Proof.
  unfold integrateFIFO.
  pose proof (integrate_samples_frame (Z.to_nat ADXL_AVG_SAMPLES) env s
                [0; 0; 0; 0; 0; 0] (mkAxes 0 0 0)) as F.
  cbv zeta in F. change (Z.to_nat ADXL_AVG_SAMPLES) with 32%nat in *.
  destruct (integrate_samples 32 env s [0; 0; 0; 0; 0; 0] (mkAxes 0 0 0))
    as [[[e|] values] s1]; cbn [fst snd] in *;
    destruct F as (K & T & S); auto.
Qed.

(** An early return of the loop carries the origin [INTEGRATE]. *)
Lemma integrate_samples_early (count : nat) (env : Env) :
  forall (s : ADXL) (buffer : list Z) (values : axes) (e : errorCode_u),
    fst (fst (integrate_samples count env s buffer values)) = Some e ->
    origin e = INTEGRATE.
Proof.
  induction count as [|count IH]; intros s buffer values e H.
  - discriminate.
  - rewrite integrate_samples_turn in H. cbv zeta in H.
    destruct (isError _) in H.
    + inversion H. reflexivity.
    + eapply IH. exact H.
Qed.

(** [integrateFIFO] returns success only when the loop ran to its end. *)
Lemma integrateFIFO_code (env : Env) (s : ADXL) :
  fst (fst (integrateFIFO env s)) = ERR_SUCCESS ->
  fst (fst (integrate_samples (Z.to_nat ADXL_AVG_SAMPLES) env s
                              [0; 0; 0; 0; 0; 0] (mkAxes 0 0 0))) = None.
Proof.
  unfold integrateFIFO.
  pose proof (integrate_samples_early (Z.to_nat ADXL_AVG_SAMPLES) env s
                [0; 0; 0; 0; 0; 0] (mkAxes 0 0 0)) as O.
  destruct (integrate_samples _ env s _ _) as [[[e|] values] s1];
    cbn [fst snd] in *; auto.
  intros H. specialize (O e eq_refl). rewrite H in O. discriminate.
Qed.

Lemma receive_bytes_in_time (size : nat) (env : Env) :
  always_in_time env ->
  forall (index : nat) (b : Bus) (value : list Z),
    0 < SPITimer_ms b ->
    0 < SPITimer_ms (fst (receive_bytes size index env b value)).
Proof.
  intros Henv. induction size as [|size IH]; intros index b value Hb.
  - exact Hb.
  - rewrite receive_bytes_turn.
    assert (Ht : 0 < SPITimer_ms (fst (receive_turn index env b value))).
    { unfold receive_turn. cbn [fst receive snd SPITimer_ms].
      apply busy_wait_responsive; [exact Hb | apply Henv]. }
    destruct (SPITimer_ms _ =? 0); [exact Ht|].
    apply IH. exact Ht.
Qed.

Lemma readRegisters_in_time (firstRegister : Z) (value : list Z) (size : Z)
      (env : Env) (s : ADXL) :
  always_in_time env -> firstRegister <= ADXL_REGISTER_MAXNB ->
  fst (fst (readRegisters firstRegister value size env s)) = ERR_SUCCESS.
Proof.
  intros Henv Hreg. rewrite readRegisters_unfold.
  destruct (u8 size =? 0); [reflexivity|].
  destruct (firstRegister >? ADXL_REGISTER_MAXNB) eqn:G.
  { rewrite Z.gtb_ltb in G. apply Z.ltb_lt in G. lia. }
  cbv zeta.
  match goal with
  | |- context [receive_bytes ?n ?i ?e ?b ?v] =>
      pose proof (receive_bytes_in_time n e Henv i b v) as R;
      set (received := receive_bytes n i e b v) in *
  end.
  assert (Hopen : 0 < SPITimer_ms (fst received)).
  { apply R. cbn [receive snd SPITimer_ms].
    apply busy_wait_responsive; [|apply Henv].
    simpl. unfold SPI_TIMEOUT_MS. lia. }
  pose proof (busy_wait_responsive env (fst received) Hopen (Henv _)) as Hend.
  change (SPITimer_ms (emit LL_SPI_Disable
            (emit LL_SPI_ClearFlag_OVR (busy_wait env (fst received)))))
    with (SPITimer_ms (busy_wait env (fst received))).
  destruct (SPITimer_ms (busy_wait env (fst received)) =? 0) eqn:E;
    [apply Z.eqb_eq in E; lia | reflexivity].
Qed.

(** [integrateFIFO] returns success whenever the bus answers in time and
    the data registers are addressable. *)
Lemma integrateFIFO_in_time (env : Env) (s : ADXL) :
  always_in_time env -> DATA_X0 <= ADXL_REGISTER_MAXNB ->
  fst (fst (integrateFIFO env s)) = ERR_SUCCESS.
Proof.
  intros Henv Hreg. unfold integrateFIFO.
  assert (L : forall count s0 buffer values,
             fst (fst (integrate_samples count env s0 buffer values)) = None).
  { induction count as [|count IH]; intros s0 buffer values; [reflexivity|].
    rewrite integrate_samples_turn. cbv zeta.
    rewrite (readRegisters_in_time DATA_X0 buffer ADXL_NB_DATA_REGISTERS
                                   env s0 Henv Hreg).
    cbn [isError severity ERR_SUCCESS]. apply IH. }
  specialize (L (Z.to_nat ADXL_AVG_SAMPLES) s [0; 0; 0; 0; 0; 0] (mkAxes 0 0 0)).
  destruct (integrate_samples _ env s _ _) as [[[e|] values] s1];
    cbn [fst snd] in *; [discriminate|reflexivity].
Qed.

End Integration.

(** ** Accelerometer: claims on the primitives and the queries *)

Section Claims.

Context {regs : ADXL345registers}.

Lemma reserved_or_beyond_rejected (registerNumber : Z) :
  reserved_or_beyond registerNumber -> write_rejected registerNumber = true.
Proof.
  unfold reserved_or_beyond, write_rejected. intros [[H1 H2]|H].
  - apply orb_true_iff. right. apply Z.ltb_lt.
    pose proof (u8_le (registerNumber - 1) ltac:(lia)). lia.
  - apply orb_true_iff. left. apply Z.gtb_lt. lia.
Qed.

(** C6 (amended): for every register number in the reserved range or
    above the addressable maximum, the register write returns the range
    error and leaves the driver, and with it the bus, untouched.  The
    burst read, for a non-zero size, rejects this way only a starting
    register above the addressable maximum; any other starting register,
    the reserved ones included, opens a bus transaction. *)
Theorem register_validation (registerNumber value : Z) (buffer : list Z)
        (size : Z) (env : Env) (s : ADXL) :
  (reserved_or_beyond registerNumber ->
   writeRegister registerNumber value env s
   = (createErrorCode WRITE_REGISTER 1 ERR_WARNING, s)
   /\ isError (createErrorCode WRITE_REGISTER 1 ERR_WARNING) = true)
  /\ (u8 size <> 0 -> ADXL_REGISTER_MAXNB < registerNumber ->
      readRegisters registerNumber buffer size env s
      = (createErrorCode READ_REGISTERS 1 ERR_WARNING, buffer, s)
      /\ isError (createErrorCode READ_REGISTERS 1 ERR_WARNING) = true)
  /\ (u8 size <> 0 -> registerNumber <= ADXL_REGISTER_MAXNB ->
      transactions (trace (bus (snd (readRegisters registerNumber buffer
                                                   size env s))))
      = S (transactions (trace (bus s)))).
Proof.
  split; [|split].
  - intros H. split; [|reflexivity].
    apply writeRegister_rejected, reserved_or_beyond_rejected, H.
  - intros Hs H. split; [|reflexivity].
    unfold readRegisters.
    destruct (u8 size =? 0) eqn:E; [apply Z.eqb_eq in E; contradiction|].
    destruct (registerNumber >? ADXL_REGISTER_MAXNB) eqn:G; [reflexivity|].
    rewrite Z.gtb_ltb in G. apply Z.ltb_ge in G. lia.
  - intros Hs H. rewrite readRegisters_unfold.
    destruct (u8 size =? 0) eqn:E; [apply Z.eqb_eq in E; contradiction|].
    destruct (registerNumber >? ADXL_REGISTER_MAXNB) eqn:G.
    { rewrite Z.gtb_ltb in G. apply Z.ltb_lt in G. lia. }
    cbv zeta.
    match goal with
    | |- context [receive_bytes ?n ?i ?e ?b ?v] =>
        pose proof (receive_bytes_trace n i e b v) as [T _];
        set (received := receive_bytes n i e b v) in *
    end.
    simpl in T. rewrite !transactions_app in T.
    unfold transactions in T. simpl in T.
    branches; cbn [fst snd bus set_bus emit busy_wait trace];
      rewrite !transactions_app; unfold transactions; simpl; lia.
Qed.

(** Among the sample counts that are powers of two, the build-time
    assertion accepts exactly the one whose exponent is the shift. *)
Lemma static_assert_AVG_power (k shift : Z) :
  0 <= k -> 0 <= shift ->
  static_assert_AVG (2 ^ k) shift = true <-> k = shift.
Proof.
  intros Hk Hs. unfold static_assert_AVG.
  rewrite Z.shiftr_div_pow2 by lia. rewrite Z.eqb_eq.
  destruct (Z_lt_le_dec k shift) as [Hlt|Hge].
  - rewrite Z.div_small.
    + split; intros; lia.
    + split; [apply Z.pow_nonneg; lia|].
      apply Z.pow_lt_mono_r; lia.
  - replace k with ((k - shift) + shift) at 1 by lia.
    rewrite Z.pow_add_r by lia.
    rewrite Z.div_mul by (apply Z.pow_nonzero; lia).
    split.
    + intros H. destruct (Z.eq_dec k shift) as [E|N]; [exact E|].
      pose proof (Z.pow_gt_1 2 (k - shift) ltac:(lia)) as [G _].
      specialize (G ltac:(lia)). lia.
    + intros ->. rewrite Z.sub_diag. reflexivity.
Qed.

(** The build-time assertion accepts a sample count exactly when it
    lies between 2 to the power of the shift and the next power of two,
    this one excluded. *)
Lemma static_assert_AVG_bracket (count shift : Z) :
  0 <= shift ->
  static_assert_AVG count shift = true
  <-> 2 ^ shift <= count < 2 ^ (shift + 1).
Proof.
  intros Hs. unfold static_assert_AVG.
  rewrite Z.shiftr_div_pow2 by lia. rewrite Z.eqb_eq.
  rewrite Z.pow_add_r by lia. change (2 ^ 1) with 2.
  assert (Hp : 0 < 2 ^ shift) by (apply Z.pow_pos_nonneg; lia).
  set (p := 2 ^ shift) in *.
  split.
  - intros H.
    pose proof (Z.div_mod count p ltac:(lia)) as D.
    pose proof (Z.mod_pos_bound count p Hp) as B.
    rewrite H in D. lia.
  - intros H. symmetry.
    apply (Z.div_unique count p 1 (count - p)); lia.
Qed.

(** C8: when [integrateFIFO] succeeds, every axis holds the sum of the 32
    two's-complement samples of the 32 burst reads, shifted right by 5,
    which is the floor of the sum divided by the sample count (rounded
    toward minus infinity, also for a negative sum).  The sample count is
    2 to the power of the shift and the build-time assertion on the two
    constants holds; the assertion accepts exactly the counts from
    2^shift to 2^(shift+1) - 1, so of the power-of-two counts this one
    only, but it does not require the count to equal 2^shift. *)
Theorem integrateFIFO_floor_mean (env : Env) (s : ADXL) :
  fst (fst (integrateFIFO env s)) = ERR_SUCCESS ->
  let samples :=
    burst_samples env (receptions (bus s)) (Z.to_nat ADXL_AVG_SAMPLES) in
  length samples = 32%nat
  /\ (forall axis,
         let mean := get axis (snd (fst (integrateFIFO env s))) in
         mean = Z.shiftr (axis_sum axis samples) ADXL_AVG_SHIFT
         /\ mean = axis_sum axis samples / ADXL_AVG_SAMPLES
         /\ ADXL_AVG_SAMPLES * mean <= axis_sum axis samples
            < ADXL_AVG_SAMPLES * (mean + 1))
  /\ ADXL_AVG_SAMPLES = 2 ^ ADXL_AVG_SHIFT
  /\ static_assert_AVG ADXL_AVG_SAMPLES ADXL_AVG_SHIFT = true
  /\ (forall count,
         static_assert_AVG count ADXL_AVG_SHIFT = true
         <-> 2 ^ ADXL_AVG_SHIFT <= count < 2 ^ (ADXL_AVG_SHIFT + 1))
  /\ (forall k, 0 <= k ->
                static_assert_AVG (2 ^ k) ADXL_AVG_SHIFT = true
                <-> k = ADXL_AVG_SHIFT).
Proof.
  intros Hok. cbv zeta.
  split; [reflexivity|].
  split; [|split; [reflexivity|split; [reflexivity|split]]].
  2: { intros count. apply static_assert_AVG_bracket.
       unfold ADXL_AVG_SHIFT. lia. }
  2: { intros k Hk. apply static_assert_AVG_power; [exact Hk|].
       unfold ADXL_AVG_SHIFT. lia. }
  intros axis.
  pose proof (integrateFIFO_code env s Hok) as Hnone.
  pose proof (integrate_samples_sum (Z.to_nat ADXL_AVG_SAMPLES) env s
                [0; 0; 0; 0; 0; 0] (mkAxes 0 0 0) 0 eq_refl) as Hsum.
  unfold integrateFIFO in *.
  destruct (integrate_samples _ env s _ _) as [[[e|] values] s1];
    cbn [fst snd] in *; [discriminate|].
  assert (Hget : get axis values
                 = axis_sum axis (burst_samples env (receptions (bus s))
                                    (Z.to_nat ADXL_AVG_SAMPLES))).
  { rewrite Hsum; auto.
    - destruct axis; reflexivity.
    - intros a. destruct a; simpl; lia.
    - lia.
    - change (Z.of_nat (Z.to_nat ADXL_AVG_SAMPLES)) with 32. lia. }
  set (total := axis_sum axis _) in *.
  assert (Hshift : get axis
            (mkAxes (Z.shiftr (x_of values) ADXL_AVG_SHIFT)
                    (Z.shiftr (y_of values) ADXL_AVG_SHIFT)
                    (Z.shiftr (z_of values) ADXL_AVG_SHIFT))
          = Z.shiftr total ADXL_AVG_SHIFT).
  { rewrite <- Hget. destruct axis; reflexivity. }
  rewrite Hshift.
  assert (Hdiv : Z.shiftr total ADXL_AVG_SHIFT = total / ADXL_AVG_SAMPLES).
  { rewrite Z.shiftr_div_pow2 by (unfold ADXL_AVG_SHIFT; lia). reflexivity. }
  split; [reflexivity|]. split; [exact Hdiv|].
  rewrite Hdiv. change ADXL_AVG_SAMPLES with 32.
  pose proof (Z.div_mod total 32 ltac:(lia)).
  pose proof (Z.mod_pos_bound total 32 ltac:(lia)). lia.
Qed.

End Claims.

Lemma integrateFIFO_floor_mean_witness :
  fst (fst (@integrateFIFO datasheet alternating initial)) = ERR_SUCCESS
  /\ axis_sum X_AXIS (burst_samples alternating 0 32) = -16
  /\ get X_AXIS (snd (fst (@integrateFIFO datasheet alternating initial))) = -1.
Proof.
  split; [vm_compute; reflexivity|]. split; [vm_compute; reflexivity|].
  destruct (@integrateFIFO_floor_mean datasheet alternating initial)
    as (_ & M & _); [vm_compute; reflexivity|].
  destruct (M X_AXIS) as (_ & -> & _). vm_compute. reflexivity.
Defined.

(** C8 (as stated) fails in its last clause: the build-time assertion
    holds for a count of 33 samples with the shift of 5, although 33 is not
    2 to the power of 5; the sum of 33 samples shifted by 5 would not be
    their mean. *)
Lemma build_check_accepts_33_samples :
  static_assert_AVG 33 ADXL_AVG_SHIFT = true
  /\ 33 <> 2 ^ ADXL_AVG_SHIFT
  /\ Z.shiftr (33 * 64) ADXL_AVG_SHIFT <> 64.
Proof. repeat split; vm_compute; first [reflexivity | discriminate]. Qed.

Lemma register_validation_witness :
  @reserved_or_beyond datasheet 0x1C
  /\ @writeRegister datasheet 0x1C 0xFF present initial
     = (createErrorCode WRITE_REGISTER 1 ERR_WARNING, initial)
  /\ @readRegisters datasheet 0x3A [0] 1 present initial
     = (createErrorCode READ_REGISTERS 1 ERR_WARNING, [0], initial)
  /\ transactions
       (trace (bus (snd (@readRegisters datasheet 0x1C [0] 1 present initial))))
     = 1%nat.
Proof.
  assert (R : @reserved_or_beyond datasheet 0x1C)
    by (left; simpl; lia).
  split; [exact R|].
  split; [apply (@register_validation datasheet 0x1C 0xFF [0] 1 present initial), R|].
  split.
  - apply (@register_validation datasheet 0x3A 0xFF [0] 1 present initial);
      [vm_compute; discriminate | simpl; lia].
  - apply (@register_validation datasheet 0x1C 0xFF [0] 1 present initial);
      [vm_compute; discriminate | simpl; lia].
Defined.

(** C6 (as stated) fails: register 0x10 is reserved and the write rejects
    it, yet a one-byte burst read starting there succeeds after using the
    bus. *)
Lemma burst_read_accepts_reserved_register :
  @reserved_or_beyond datasheet 0x10
  /\ fst (@writeRegister datasheet 0x10 0 present initial)
     = createErrorCode WRITE_REGISTER 1 ERR_WARNING
  /\ fst (fst (@readRegisters datasheet 0x10 [0] 1 present initial)) = ERR_SUCCESS
  /\ trace (bus (snd (@readRegisters datasheet 0x10 [0] 1 present initial)))
     = [LL_SPI_Enable; LL_SPI_TransmitData8 0xD0; LL_SPI_ReceiveData8;
        LL_SPI_TransmitData8 0xFF; LL_SPI_ReceiveData8;
        LL_SPI_ClearFlag_OVR; LL_SPI_Disable]
  /\ trace (bus initial) = [].
Proof.
  split; [left; simpl; lia|]. repeat split.
Qed.

(** ** Accelerometer: claims on the states *)

Section States.

Context {regs : ADXL345registers}.

Lemma ST_out_of_range_spec (STdeltas : axes) :
  ST_out_of_range STdeltas = false
  <-> forall axis, strictly_inside axis (get axis STdeltas).
Proof.
  unfold ST_out_of_range, strictly_inside. split.
  - intros H. repeat (apply orb_false_iff in H; destruct H as [H ?]).
    rewrite Z.geb_leb in *.
    repeat match goal with
           | E : (_ <=? _) = false |- _ => apply Z.leb_gt in E
           end.
    intros axis. destruct axis; simpl in *; lia.
  - intros H.
    pose proof (H X_AXIS) as Hx. pose proof (H Y_AXIS) as Hy.
    pose proof (H Z_AXIS) as Hz. simpl in Hx, Hy, Hz.
    rewrite !Z.geb_leb. simpl.
    repeat (apply orb_false_iff; split); apply Z.leb_gt; lia.
Qed.

(** C2 (amended): in MeasuringSelfTestOn, once the FIFO is integrated, a
    self-test delta at or beyond either bound of its axis is rejected (a
    delta equal to a bound included: the window is exclusive), and a
    rejected delta drives the machine to Error.  When the three deltas
    lie strictly between their bounds the check passes, and the machine
    reaches Measuring as soon as the data-format write succeeds. *)
Theorem self_test_window_is_exclusive (env : Env) (s : ADXL) :
  _state s = MeasuringST_ON ->
  adxlTimer_ms s <> 0 ->
  int1_pin_set env = false ->
  isError (fst (fst (integrateFIFO env s))) = false ->
  let integrated :=
    set_result (fst (fst (integrateFIFO env s))) (snd (integrateFIFO env s)) in
  let STdeltas :=
    self_test_deltas (snd (fst (integrateFIFO env s))) (_latestValues s) in
  (forall axis,
      get axis STdeltas <= fst (ST_MAXDELTAS axis)
      \/ snd (ST_MAXDELTAS axis) <= get axis STdeltas ->
      _state (snd (ADXL345update env s)) = Error)
  /\ ((forall axis, strictly_inside axis (get axis STdeltas)) ->
      isError (fst (writeRegister DATA_FORMAT DATA_FORMAT_DEFAULT env integrated))
      = false ->
      _state (snd (ADXL345update env s)) = Measuring).
Proof.
  intros Hst Htimer Hpin Hok. cbv zeta.
  unfold ADXL345update. rewrite Hst. cbn [state_function].
  unfold stMeasuringST_ON, isFIFOdataReady.
  apply Z.eqb_neq in Htimer. rewrite Htimer, Hpin. cbn [negb].
  pose proof (integrateFIFO_frame env s) as (K & _ & _).
  destruct (integrateFIFO env s) as [[r values] s1]. cbn [fst snd] in *.
  rewrite Hok.
  destruct K as (_ & _ & Hlatest & _).
  change (_latestValues (set_result r s1)) with (_latestValues s1).
  rewrite Hlatest.
  split.
  - intros axis Hout.
    destruct (ST_out_of_range (self_test_deltas values (_latestValues s)))
      eqn:E; [reflexivity|].
    pose proof (proj1 (ST_out_of_range_spec _) E axis) as I.
    unfold strictly_inside in I. lia.
  - intros Hin Hwrite.
    rewrite (proj2 (ST_out_of_range_spec _) Hin).
    destruct (writeRegister DATA_FORMAT DATA_FORMAT_DEFAULT env
                            (set_result r s1)) as [r2 s2].
    cbn [fst snd] in *. rewrite Hwrite. reflexivity.
Qed.

(** C4 (amended): in Startup the machine goes to Error only when the
    outer timer has reached zero.  A failed read of the device-identity
    register returns a failure code and leaves the machine in Startup,
    as does a successful read of a non-matching identity (with a success
    code); a matching identity leads to Configuring. *)
Theorem startup_transitions (env : Env) (s : ADXL) :
  _state s = Startup ->
  let read := readRegisters DEVICE_ID [0] 1 env s in
  let after := ADXL345update env s in
  (adxlTimer_ms s = 0 -> _state (snd after) = Error)
  /\ (adxlTimer_ms s <> 0 -> isError (fst (fst read)) = true ->
      _state (snd after) = Startup /\ isError (fst after) = true)
  /\ (adxlTimer_ms s <> 0 -> isError (fst (fst read)) = false ->
      nth 0 (snd (fst read)) 0 <> ADXL_DEVICE_ID ->
      _state (snd after) = Startup /\ fst after = ERR_SUCCESS)
  /\ (adxlTimer_ms s <> 0 -> isError (fst (fst read)) = false ->
      nth 0 (snd (fst read)) 0 = ADXL_DEVICE_ID ->
      _state (snd after) = Configuring /\ fst after = ERR_SUCCESS).
Proof.
  intros Hst. cbv zeta. unfold ADXL345update. rewrite Hst.
  cbn [state_function]. unfold stStartup.
  pose proof (readRegisters_state DEVICE_ID [0] 1 env s) as [S1 _].
  destruct (readRegisters DEVICE_ID [0] 1 env s) as [[r deviceID] s1].
  cbn [fst snd] in *.
  split; [|split; [|split]].
  - intros H. rewrite H. reflexivity.
  - intros H E. apply Z.eqb_neq in H. rewrite H, E. simpl.
    split; [congruence|]. unfold isError in *. simpl. exact E.
  - intros H E N. apply Z.eqb_neq in H. apply Z.eqb_neq in N.
    rewrite H, E, N. simpl. split; [congruence|reflexivity].
  - intros H E N. apply Z.eqb_neq in H. apply Z.eqb_eq in N.
    rewrite H, E, N. simpl. split; reflexivity.
Qed.

Lemma stWaitingForSTenabled_running (env : Env) (s : ADXL) :
  adxlTimer_ms s <> 0 ->
  stWaitingForSTenabled env s
  = let write := writeRegister FIFO_CONTROL FIFO_CONTROL_DEFAULT env s in
    if isError (fst write)
    then (pushErrorCode (fst write) SELF_TEST_WAIT 1,
          set_state Error (set_result (fst write) (snd write)))
    else (ERR_SUCCESS,
          set_state MeasuringST_ON
                    (set_adxlTimer_ms INT_TIMEOUT_MS
                       (set_result (fst write) (snd write)))).
Proof.
  intros H. unfold stWaitingForSTenabled.
  apply Z.eqb_neq in H. rewrite H. cbv zeta.
  destruct (writeRegister _ _ _ _) as [r s1]. reflexivity.
Qed.

(** One call of [ADXL345update] runs the function of the current state
    and starts at most [max_transactions] bus transactions. *)
Lemma adxl_update_transactions (env : Env) (s : ADXL) :
  ADXL345update env s = state_function (_state s) env s
  /\ (transactions (trace (bus (snd (ADXL345update env s))))
      <= transactions (trace (bus s)) + max_transactions (_state s))%nat.
Proof.
  split; [reflexivity|].
  unfold ADXL345update.
  destruct (_state s); cbn [state_function max_transactions].
  - (* Startup *)
    unfold stStartup.
    pose proof (readRegisters_transactions DEVICE_ID [0] 1 env s) as T.
    destruct (readRegisters DEVICE_ID [0] 1 env s) as [[r v] s1].
    cbn [fst snd] in T. branches; simpl; lia.
  - (* Configuring *)
    unfold stConfiguring.
    assert (W : forall entries s0,
               (transactions (trace (bus (snd (write_registers entries env s0))))
                <= transactions (trace (bus s0)) + length entries)%nat).
    { induction entries as [|[r v] rest IH]; intros s0; [simpl; lia|].
      simpl.
      pose proof (writeRegister_transactions r v env s0) as T.
      destruct (writeRegister r v env s0) as [r1 s1]. cbn [fst snd] in T.
      destruct (isError r1).
      - simpl. lia.
      - specialize (IH (set_result r1 s1)). simpl in IH. lia. }
    specialize (W initialisationArray s).
    destruct (write_registers initialisationArray env s) as [[e|] s1];
      simpl in *; lia.
  - (* MeasuringST_OFF *)
    unfold stMeasuringST_OFF.
    pose proof (integrateFIFO_frame env s) as (_ & T & _).
    destruct (integrateFIFO env s) as [[r values] s1]. cbn [fst snd] in T.
    destruct (adxlTimer_ms s =? 0); [simpl; lia|].
    destruct (negb (isFIFOdataReady env)); [simpl; lia|].
    destruct (isError r); [simpl; lia|].
    match goal with
    | |- context [writeRegister ?r ?v ?e ?s0] =>
        pose proof (writeRegister_transactions r v e s0) as T1;
        destruct (writeRegister r v e s0) as [r1 s2]; cbn [fst snd] in T1
    end.
    simpl in T1.
    destruct (isError r1); [simpl; lia|].
    match goal with
    | |- context [writeRegister ?r ?v ?e ?s0] =>
        pose proof (writeRegister_transactions r v e s0) as T2;
        destruct (writeRegister r v e s0) as [r2 s3]; cbn [fst snd] in T2
    end.
    simpl in T2. destruct (isError r2); simpl; lia.
  - (* WaitingForSTenabled *)
    unfold stWaitingForSTenabled.
    destruct (adxlTimer_ms s =? 0); [simpl; lia|].
    match goal with
    | |- context [writeRegister ?r ?v ?e ?s0] =>
        pose proof (writeRegister_transactions r v e s0) as T1;
        destruct (writeRegister r v e s0) as [r1 s2]; cbn [fst snd] in T1
    end.
    destruct (isError r1); simpl; lia.
  - (* MeasuringST_ON *)
    unfold stMeasuringST_ON.
    pose proof (integrateFIFO_frame env s) as (_ & T & _).
    destruct (integrateFIFO env s) as [[r values] s1]. cbn [fst snd] in T.
    destruct (adxlTimer_ms s =? 0); [simpl; lia|].
    destruct (negb (isFIFOdataReady env)); [simpl; lia|].
    destruct (isError r); [simpl; lia|].
    destruct (ST_out_of_range _); [simpl; lia|].
    match goal with
    | |- context [writeRegister ?r ?v ?e ?s0] =>
        pose proof (writeRegister_transactions r v e s0) as T1;
        destruct (writeRegister r v e s0) as [r1 s2]; cbn [fst snd] in T1
    end.
    simpl in T1. destruct (isError r1); simpl; lia.
  - (* Measuring *)
    unfold stMeasuring.
    pose proof (integrateFIFO_frame env (set_adxlTimer_ms INT_TIMEOUT_MS s))
      as (_ & T & _).
    destruct (integrateFIFO env (set_adxlTimer_ms INT_TIMEOUT_MS s))
      as [[r values] s1]. cbn [fst snd] in T. simpl in T.
    branches; simpl; lia.
  - (* Error *)
    simpl. lia.
Qed.

(** C10: a second change-detection query right after a first one
    returns 0, on every axis: the first has copied the latest sample of
    that axis into the baseline and left the latest samples alone. *)
Theorem hasChanged_twice (axis : axis_e) (s : ADXL) :
  fst (ADXL345hasChanged axis (snd (ADXL345hasChanged axis s))) = 0
  /\ get axis (_previousValues (snd (ADXL345hasChanged axis s)))
     = get axis (_latestValues s)
  /\ _latestValues (snd (ADXL345hasChanged axis s)) = _latestValues s.
Proof.
  unfold ADXL345hasChanged. cbn [fst snd].
  destruct axis; simpl; rewrite Z.eqb_refl; auto.
Qed.

(** C9: with a latest Z sample of zero the angle is 0 on every axis,
    whatever the X and Y samples, the zero offsets and the arctangent of
    the floating-point unit: the division is not reached. *)
Theorem angle_is_zero_when_Z_is_zero (atanf_degrees_tenths : Z -> Z -> Z)
        (axis : axis_e) (s : ADXL) :
  get Z_AXIS (_latestValues s) = 0 ->
  getAngleDegreesTenths atanf_degrees_tenths axis s = 0.
Proof.
  intros H. unfold getAngleDegreesTenths. rewrite H. reflexivity.
Qed.

End States.

(** C3: the code does the opposite of the claim.  In
    WaitingForSelfTestEnabled with the outer timer at zero (the delay has
    elapsed) the update returns success and changes nothing, on any device
    and whatever the bus would answer.  With the timer at the 25 ms span
    that MeasuringSelfTestOff has just set (the delay is still running)
    the update starts the FIFO_CONTROL write at once and, on a responsive
    bus, moves to MeasuringSelfTestOn. *)
Theorem settle_wait_is_inverted :
  (forall (regs : ADXL345registers) (env : Env) (s : ADXL),
      let elapsed := set_state WaitingForSTenabled (set_adxlTimer_ms 0 s) in
      ADXL345update env elapsed = (ERR_SUCCESS, elapsed))
  /\ (forall (env : Env) (s : ADXL),
         let running :=
           set_state WaitingForSTenabled (set_adxlTimer_ms ST_WAIT_MS s) in
         transactions (trace (bus (snd (@ADXL345update datasheet env running))))
         = S (transactions (trace (bus s))))
  /\ (@ADXL345update datasheet present settling
      = (ERR_SUCCESS,
         set_bus {| SPITimer_ms := 10; waits := 2; receptions := 0;
                    trace := [LL_SPI_Enable; LL_SPI_TransmitData8 0x38;
                              LL_SPI_TransmitData8 0x5F;
                              LL_SPI_ClearFlag_OVR; LL_SPI_Disable] |}
                 (at_state MeasuringST_ON INT_TIMEOUT_MS (mkAxes 0 0 0)))).
Proof.
  split; [reflexivity|]. split; [|vm_compute; reflexivity].
  intros env s. cbv zeta.
  unfold ADXL345update. cbn [_state set_state state_function].
  rewrite stWaitingForSTenabled_running by (simpl; unfold ST_WAIT_MS; lia).
  cbv zeta.
  pose proof (@writeRegister_accepted datasheet (@FIFO_CONTROL datasheet)
                (@FIFO_CONTROL_DEFAULT datasheet) env
                (set_state WaitingForSTenabled (set_adxlTimer_ms ST_WAIT_MS s))
                eq_refl) as A.
  destruct (isError _); simpl in *; exact A.
Qed.

Lemma self_test_window_is_exclusive_witness :
  self_test_deltas
    (snd (fst (@integrateFIFO datasheet (steady 186 (-600) 750 false)
                              self_testing)))
    (_latestValues self_testing)
  = mkAxes 86 (-500) 500
  /\ _state (snd (@ADXL345update datasheet (steady 186 (-600) 750 false)
                                 self_testing)) = Measuring.
Proof.
  split; [vm_compute; reflexivity|].
  apply (proj2 (@self_test_window_is_exclusive datasheet
                  (steady 186 (-600) 750 false) self_testing
                  eq_refl ltac:(vm_compute; discriminate) eq_refl
                  ltac:(vm_compute; reflexivity)));
    try (vm_compute; reflexivity).
  intros axis. destruct axis; vm_compute; split; reflexivity.
Defined.

(** C2 (as stated) fails: with a baseline of (100, -100, 250) and a
    self-test sample of (185, -600, 750) the X delta is 85, the lower
    bound of its window, the other two deltas are well inside theirs, and
    the machine goes to Error. *)
Lemma self_test_bound_is_rejected :
  self_test_deltas
    (snd (fst (@integrateFIFO datasheet (steady 185 (-600) 750 false)
                              self_testing)))
    (_latestValues self_testing)
  = mkAxes 85 (-500) 500
  /\ ST_MAXDELTAS X_AXIS = (85, 949)
  /\ _state (snd (@ADXL345update datasheet (steady 185 (-600) 750 false)
                                 self_testing)) = Error.
Proof. repeat split; vm_compute; reflexivity. Qed.

Lemma startup_transitions_witness :
  _state starting = Startup
  /\ isError (fst (fst (@readRegisters datasheet (@DEVICE_ID datasheet) [0] 1
                                       dead starting))) = true
  /\ _state (snd (@ADXL345update datasheet dead starting)) = Startup
  /\ isError (fst (@ADXL345update datasheet dead starting)) = true.
Proof.
  split; [reflexivity|]. split; [vm_compute; reflexivity|].
  apply (proj1 (proj2 (@startup_transitions datasheet dead starting eq_refl))).
  - vm_compute. discriminate.
  - vm_compute. reflexivity.
Defined.

(** C4 (as stated) fails: on a bus where the read of the identity register
    times out, the update returns a failure and the machine is still in
    Startup. *)
Lemma startup_read_failure_stays :
  _state starting = Startup
  /\ adxlTimer_ms starting = 1000
  /\ isError (fst (fst (@readRegisters datasheet (@DEVICE_ID datasheet) [0] 1
                                       dead starting))) = true
  /\ _state (snd (@ADXL345update datasheet dead starting)) = Startup
  /\ _state (snd (@ADXL345update datasheet dead starting)) <> Error.
Proof. repeat split; vm_compute; congruence. Qed.

Lemma angle_is_zero_when_Z_is_zero_witness :
  get Z_AXIS (_latestValues on_its_side) = 0
  /\ getAngleDegreesTenths (fun _ _ => 450) X_AXIS on_its_side = 0
  /\ getAngleDegreesTenths (fun _ _ => 450) Y_AXIS on_its_side = 0.
Proof.
  split; [reflexivity|].
  split; apply angle_is_zero_when_Z_is_zero; reflexivity.
Defined.

End ADXL345_proofs.

(** ** Display *)

Module SSD1306_proofs.

Import SSD1306 SSD1306_spec.

Section Driver.

Context {res : SSD1306resources}.

Lemma send_parameters_trace (nbParameters index : nat) (parameters : list Z)
      (env : Env) (b : Bus) :
  transactions (trace (send_parameters nbParameters index parameters env b))
  = transactions (trace b).
Proof.
  revert index b.
  induction nbParameters as [|n IH]; intros index b; [reflexivity|].
  simpl. destruct (SPITimer_ms b =? 0); [reflexivity|].
  rewrite IH. branches; count.
Qed.

Lemma sendCommand_transactions (regNumber : Z) (parameters : list Z)
      (nbParameters : Z) (env : Env) (s : SSD) :
  (transactions (trace (bus (snd (sendCommand regNumber parameters
                                              nbParameters env s))))
   <= transactions (trace (bus s)) + 1)%nat.
Proof.
  unfold sendCommand.
  destruct (u8 nbParameters >? MAX_PARAMETERS); [simpl; lia|].
  cbv zeta.
  match goal with
  | |- context [send_parameters ?n ?i ?p ?e ?b] =>
      pose proof (send_parameters_trace n i p e b) as T;
      set (sent := send_parameters n i p e b) in *
  end.
  simpl in T. rewrite !transactions_app in T.
  unfold transactions in T. simpl in T.
  branches; cbn [fst snd bus set_bus emit busy_wait trace];
    rewrite !transactions_app; unfold transactions; simpl; lia.
Qed.

(** A command changes the bus only. *)
Lemma sendCommand_state (regNumber : Z) (parameters : list Z)
      (nbParameters : Z) (env : Env) (s : SSD) :
  let s' := snd (sendCommand regNumber parameters nbParameters env s) in
  _state s' = _state s /\ _limitColumns s' = _limitColumns s
  /\ _limitPages s' = _limitPages s /\ _size s' = _size s
  /\ _screenBuffer s' = _screenBuffer s
  /\ screenTimer_ms s' = screenTimer_ms s.
Proof.
  unfold sendCommand. branches; simpl; auto 10.
Qed.

Lemma send_commands_transactions (commands : list (Z * Z * Z)) (env : Env) :
  forall s,
    (transactions (trace (bus (snd (send_commands commands env s))))
     <= transactions (trace (bus s)) + length commands)%nat
    /\ _state (snd (send_commands commands env s)) = _state s.
Proof.
  induction commands as [|[[r n] p] rest IH]; intros s; [simpl; split; auto; lia|].
  simpl.
  pose proof (sendCommand_transactions r [p] n env s) as T.
  pose proof (sendCommand_state r [p] n env s) as (St & _).
  destruct (sendCommand r [p] n env s) as [r1 s1]. cbn [fst snd] in *.
  destruct (isError r1).
  - simpl. split; [lia|exact St].
  - destruct (IH s1) as [T' St']. split; [lia|congruence].
Qed.

(** One call of [SSD1306update] runs the function of the current state
    and starts at most [max_transactions] bus transactions. *)
Lemma ssd_update_transactions (env : Env) (s : SSD) :
  SSD1306update env s = state_function (_state s) env s
  /\ (transactions (trace (bus (snd (SSD1306update env s))))
      <= transactions (trace (bus s)) + max_transactions (_state s))%nat.
Proof.
  split; [reflexivity|].
  unfold SSD1306update.
  destruct (_state s); cbn [state_function max_transactions].
  - simpl. lia.
  - unfold stConfiguring. cbv zeta.
    match goal with
    | |- context [send_commands ?c ?e ?s0] =>
        pose proof (send_commands_transactions c e s0) as [T _];
        destruct (send_commands c e s0) as [[e1|] s1]
    end; cbn [fst snd] in T; simpl in T;
      rewrite !transactions_app in T; unfold transactions in T;
      simpl in T; simpl; unfold transactions; lia.
  - unfold stSendingData.
    match goal with
    | |- context [sendCommand ?r ?p ?n ?e ?s0] =>
        pose proof (sendCommand_transactions r p n e s0) as T1;
        destruct (sendCommand r p n e s0) as [r1 s1]; cbn [fst snd] in T1
    end.
    destruct (isError r1); [simpl; lia|].
    match goal with
    | |- context [sendCommand ?r ?p ?n ?e ?s0] =>
        pose proof (sendCommand_transactions r p n e s0) as T2;
        destruct (sendCommand r p n e s0) as [r2 s2]; cbn [fst snd] in T2
    end.
    destruct (isError r2); [simpl; lia|].
    simpl. rewrite !transactions_app. unfold transactions in *. simpl. lia.
  - unfold stWaitingForTXdone, finalise.
    branches; simpl; rewrite ?transactions_app; unfold transactions; simpl; lia.
Qed.

(** Every buffer-preparation call is accepted in every state: it ends
    with the machine in SendingData. *)
Lemma preparation_restarts (s : SSD) :
  _state (snd (SSD1306drawBaseScreen s)) = SendingData
  /\ (forall angleTenths rotationAxis,
         _state (snd (SSD1306_printAngleTenths angleTenths rotationAxis s))
         = SendingData)
  /\ (forall type,
         _state (snd (SSD1306_printReferentialIcon type s)) = SendingData)
  /\ (forall status,
         _state (snd (SSD1306_printHoldIcon status s)) = SendingData).
Proof. repeat split. Qed.

(** C7: a transfer that ends, by DMA completion, DMA error flag or
    expiry of the outer timer while waiting, or by the failure of either
    address command while sending, leaves the machine in Idle.  In Idle
    the update succeeds and the screen reports ready; in no state is the
    machine stuck: every buffer-preparation call is accepted, whatever
    the state, and leads to SendingData. *)
Theorem transfer_end_returns_to_idle (env : Env) (s : SSD) :
  (_state s = WaitingForTXdone ->
   dma_TC5 env = true \/ dma_TE5 env = true \/ screenTimer_ms s = 0 ->
   _state (snd (SSD1306update env s)) = Idle)
  /\ (_state s = SendingData ->
      let columns :=
        sendCommand COLUMN_ADDRESS
                    [fst (_limitColumns s); snd (_limitColumns s)] 2 env s in
      let pages :=
        sendCommand PAGE_ADDRESS
                    [fst (_limitPages (snd columns));
                     snd (_limitPages (snd columns))] 2 env (snd columns) in
      (isError (fst columns) = true
       \/ (isError (fst columns) = false /\ isError (fst pages) = true)) ->
      _state (snd (SSD1306update env s)) = Idle)
  /\ (_state s = Idle ->
      SSD1306update env s = (ERR_SUCCESS, s) /\ isScreenReady s = 1)
  /\ (_state (snd (SSD1306drawBaseScreen s)) = SendingData
      /\ (forall angleTenths rotationAxis,
             _state (snd (SSD1306_printAngleTenths angleTenths rotationAxis s))
             = SendingData)
      /\ (forall type,
             _state (snd (SSD1306_printReferentialIcon type s)) = SendingData)
      /\ (forall status,
             _state (snd (SSD1306_printHoldIcon status s)) = SendingData)).
Proof.
  split; [|split; [|split]].
  - intros Hst H. unfold SSD1306update. rewrite Hst. cbn [state_function].
    unfold stWaitingForTXdone, finalise.
    destruct (screenTimer_ms s =? 0) eqn:Et; [reflexivity|].
    destruct (dma_TE5 env); [reflexivity|].
    destruct (dma_TC5 env); [reflexivity|].
    apply Z.eqb_neq in Et. destruct H as [H|[H|H]]; try discriminate.
    contradiction.
  - intros Hst. cbv zeta. unfold SSD1306update. rewrite Hst.
    cbn [state_function]. unfold stSendingData.
    destruct (sendCommand COLUMN_ADDRESS _ 2 env s) as [r1 s1].
    cbn [fst snd].
    destruct (sendCommand PAGE_ADDRESS _ 2 env s1) as [r2 s2].
    cbn [fst snd].
    intros [H|[H1 H2]].
    + rewrite H. reflexivity.
    + rewrite H1, H2. reflexivity.
  - intros Hst. unfold SSD1306update, isScreenReady. rewrite Hst.
    split; reflexivity.
  - apply preparation_restarts.
Qed.

(** The part of C5 that holds: the angle window agrees with its byte
    count for a two-page font that fits the screen. *)
Lemma printAngleTenths_window (angleTenths : Z) (rotationAxis : rotationAxis_e)
      (s : SSD) :
  VERDANA_NB_BYTES_CHAR = 2 * VERDANA_CHAR_WIDTH ->
  0 < ANGLE_NB_CHARS * VERDANA_CHAR_WIDTH <= SSD_LAST_COLUMN + 1 ->
  window_area (snd (SSD1306_printAngleTenths angleTenths rotationAxis s))
  = _size (snd (SSD1306_printAngleTenths angleTenths rotationAxis s)).
Proof.
  intros Hb Hw. unfold SSD1306_printAngleTenths, window_area.
  cbn [snd fst _limitColumns _limitPages _size set_window set_state
       set_screenBuffer].
  unfold ANGLE_COLUMN, ANGLE_NB_CHARS, SSD_LAST_COLUMN in *.
  rewrite Hb.
  rewrite (u8_small (40 + VERDANA_CHAR_WIDTH * 6 - 1)) by lia.
  unfold u16. rewrite (Z.mod_small (6 * (2 * VERDANA_CHAR_WIDTH))) by lia.
  destruct rotationAxis; unfold ANGLE_ROLL_PAGE, ANGLE_PITCH_PAGE;
    change (u8 40) with 40; change (u8 1) with 1; change (u8 5) with 5;
    change (u8 (1 + 1)) with 2; change (u8 (5 + 1)) with 6; lia.
Qed.

(** C5: the code breaks the invariant in three of the four calls.  The
    base screen stages columns 0..127 and pages 0..31, 4096 bytes, for a
    byte count of 1024.  The referential icon and the hold icon stage
    one column more than the bytes they count, whatever the icon size. *)
Theorem staged_window_disagrees_with_size (type : referentialType_e)
        (status : Z) (s : SSD) :
  (window_area (snd (SSD1306drawBaseScreen s)) = 4096
   /\ _size (snd (SSD1306drawBaseScreen s)) = 1024)
  /\ window_area (snd (SSD1306_printReferentialIcon type s))
     <> _size (snd (SSD1306_printReferentialIcon type s))
  /\ window_area (snd (SSD1306_printHoldIcon status s))
     <> _size (snd (SSD1306_printHoldIcon status s)).
Proof.
  split; [split; reflexivity|].
  unfold SSD1306_printReferentialIcon, SSD1306_printHoldIcon, window_area.
  simpl. unfold REFTYPE_COLUMN, REFTYPE_PAGE, SSD_LAST_COLUMN, SSD_LAST_PAGE.
  unfold u8, u16.
  generalize REFERENCETYPE_NB_BYTES. intros n.
  pose proof (Z.div_mod (127 - n + n) 256 ltac:(lia)).
  pose proof (Z.div_mod (127 - n) 256 ltac:(lia)).
  pose proof (Z.div_mod (127 - n - n) 256 ltac:(lia)).
  pose proof (Z.div_mod n 65536 ltac:(lia)).
  change (31 mod 256) with 31.
  split; lia.
Qed.

End Driver.

(** C5 on a 16-byte icon set: 17 columns are staged for 16 bytes. *)
Lemma icon_window_is_one_column_too_wide :
  window_area (snd (@SSD1306_printReferentialIcon sample ABSOLUTE initial)) = 17
  /\ _size (snd (@SSD1306_printReferentialIcon sample ABSOLUTE initial)) = 16
  /\ _limitColumns (snd (@SSD1306_printReferentialIcon sample ABSOLUTE initial))
     = (111, 127)
  /\ window_area (snd (@SSD1306_printHoldIcon sample 1 initial)) = 17
  /\ _size (snd (@SSD1306_printHoldIcon sample 1 initial)) = 16
  /\ _limitColumns (snd (@SSD1306_printHoldIcon sample 1 initial)) = (95, 111).
Proof. repeat split. Qed.

Lemma transfer_end_returns_to_idle_witness :
  _state (at_state WaitingForTXdone 0) = WaitingForTXdone
  /\ _state (snd (@SSD1306update sample (responsive false false)
                                 (at_state WaitingForTXdone 0))) = Idle
  /\ _state (snd (@SSD1306drawBaseScreen sample initial)) = SendingData
  /\ _state (snd (@SSD1306update sample dead
                    (snd (@SSD1306drawBaseScreen sample initial)))) = Idle
  /\ @SSD1306update sample dead (at_state Idle 0) = (ERR_SUCCESS, at_state Idle 0).
Proof.
  split; [reflexivity|]. split.
  { apply (proj1 (@transfer_end_returns_to_idle sample (responsive false false)
                    (at_state WaitingForTXdone 0))); [reflexivity|].
    right. right. reflexivity. }
  split; [reflexivity|]. split.
  { apply (proj1 (proj2 (@transfer_end_returns_to_idle sample dead
                    (snd (@SSD1306drawBaseScreen sample initial)))));
      [reflexivity|].
    left. vm_compute. reflexivity. }
  apply (proj1 (proj2 (proj2 (@transfer_end_returns_to_idle sample dead
                                (at_state Idle 0))))).
  reflexivity.
Defined.

End SSD1306_proofs.

(** ** Both drivers *)

(** C1 (amended): one call of an update entry point runs the function of the
    current state, once, and starts a bounded number of bus transactions
    before it returns: at most 1 in Startup and WaitingForSelfTestEnabled, 6
    in Configuring, 34 in MeasuringSelfTestOff, 33 in MeasuringSelfTestOn, 32
    in Measuring and none in Error for the accelerometer; at most 8 in
    Configuring, 3 in SendingData (two commands and the DMA transfer) and
    none in WaitingForTransferDone and Idle for the display. *)
Theorem update_runs_one_state_with_bounded_transactions :
  (forall (regs : ADXL345.ADXL345registers) (env : Env) (s : ADXL345.ADXL),
      ADXL345.ADXL345update env s
      = ADXL345.state_function (ADXL345._state s) env s
      /\ (transactions (trace (ADXL345.bus (snd (ADXL345.ADXL345update env s))))
          <= transactions (trace (ADXL345.bus s))
             + ADXL345_spec.max_transactions (ADXL345._state s))%nat
      /\ (ADXL345_spec.max_transactions (ADXL345._state s) <= 34)%nat)
  /\ (forall (res : SSD1306.SSD1306resources) (env : Env) (s : SSD1306.SSD),
         SSD1306.SSD1306update env s
         = SSD1306.state_function (SSD1306._state s) env s
         /\ (transactions (trace (SSD1306.bus (snd (SSD1306.SSD1306update env s))))
             <= transactions (trace (SSD1306.bus s))
                + SSD1306_spec.max_transactions (SSD1306._state s))%nat
         /\ (SSD1306_spec.max_transactions (SSD1306._state s) <= 8)%nat).
Proof.
  split.
  - intros regs env s.
    destruct (ADXL345_proofs.adxl_update_transactions env s) as [D T].
    split; [exact D|]. split; [exact T|].
    destruct (ADXL345._state s); simpl; lia.
  - intros res env s.
    destruct (SSD1306_proofs.ssd_update_transactions env s) as [D T].
    split; [exact D|]. split; [exact T|].
    destruct (SSD1306._state s); simpl; lia.
Qed.

(** C1 (as stated) fails: on a responsive bus one update in
    MeasuringSelfTestOff starts 34 transactions (32 burst reads and two
    register writes), and the first update of the display starts 8 (one per
    setup command). *)
Lemma update_starts_many_transactions :
  transactions
    (trace (ADXL345.bus (snd (@ADXL345.ADXL345update ADXL345.datasheet
       (ADXL345_spec.steady 100 100 100 false)
       ADXL345_spec.measuring_baseline))))
  = 34%nat
  /\ trace (ADXL345.bus ADXL345_spec.measuring_baseline) = []
  /\ transactions
       (trace (SSD1306.bus (snd (@SSD1306.SSD1306update SSD1306.sample
          (SSD1306_spec.responsive false false) SSD1306.initial))))
     = 8%nat
  /\ trace (SSD1306.bus SSD1306.initial) = [].
Proof. repeat split; vm_compute; reflexivity. Qed.

(** ** Accelerometer: further properties *)

Module ADXL345_extra.

Import ADXL345 ADXL345_spec ADXL345_api ADXL345_proofs.

Lemma lor_bytes (byte0 byte1 : Z) :
  0 <= byte0 < 256 -> 0 <= byte1 ->
  Z.lor (Z.shiftl byte1 8) byte0 = byte1 * 256 + byte0.
Proof.
  intros H0 H1.
  assert (L : Z.land (Z.shiftl byte1 8) byte0 = 0).
  { apply Z.bits_inj'. intros n Hn. rewrite Z.land_spec, Z.bits_0.
    destruct (Z_lt_le_dec n 8) as [Hlow|Hhigh].
    - rewrite Z.shiftl_spec_low by lia. reflexivity.
    - assert (B : Z.testbit byte0 n = false).
      { destruct (Z.eq_dec byte0 0) as [->|N]; [apply Z.bits_0|].
        apply Z.bits_above_log2; [lia|].
        apply Z.lt_le_trans with 8; [|lia].
        apply Z.log2_lt_pow2; simpl; lia. }
      rewrite B. apply andb_false_r. }
  rewrite <- Z.lxor_lor by exact L.
  rewrite <- Z.add_nocarry_lxor by exact L.
  rewrite Z.shiftl_mul_pow2 by lia. reflexivity.
Qed.

(** X1: [twoComplement] undoes the device's little-endian encoding of a
    16-bit sample, and two bytes are the encoding of what it returns. *)
Theorem twoComplement_round_trip (v byte0 byte1 : Z) :
  (-32768 <= v < 32768 ->
   twoComplement (fst (sample_bytes v)) (snd (sample_bytes v)) = v)
  /\ (0 <= byte0 < 256 -> 0 <= byte1 < 256 ->
      sample_bytes (twoComplement byte0 byte1) = (byte0, byte1)).
Proof.
  unfold twoComplement, sample_bytes, s16. cbn [fst snd]. split.
  - intros Hv.
    pose proof (Z.mod_pos_bound v 256 ltac:(lia)).
    pose proof (Z.mod_pos_bound (v / 256) 256 ltac:(lia)).
    rewrite lor_bytes by lia.
    pose proof (Z.div_mod v 256 ltac:(lia)).
    pose proof (Z.div_mod (v / 256) 256 ltac:(lia)).
    assert (Hq : -128 <= v / 256 < 128).
    { split; [apply Z.div_le_lower_bound | apply Z.div_lt_upper_bound]; lia. }
    destruct (Z_lt_le_dec v 0) as [Hneg|Hpos].
    + assert (E : (v / 256) mod 256 = v / 256 + 256).
      { symmetry. apply (Z.mod_unique_pos _ _ (-1)); lia. }
      rewrite E.
      replace ((v / 256 + 256) * 256 + v mod 256 + 32768)
        with (v + 32768 + 1 * 65536) by lia.
      rewrite Z.mod_add by lia. rewrite Z.mod_small; lia.
    + assert (0 <= v / 256) by (apply Z.div_pos; lia).
      rewrite (Z.mod_small (v / 256)) by lia.
      rewrite Z.mod_small; lia.
  - intros H0 H1. rewrite lor_bytes by lia.
    set (w := byte1 * 256 + byte0).
    assert (Hw : 0 <= w < 65536) by (unfold w; lia).
    destruct (Z_lt_le_dec w 32768) as [Hlow|Hhigh].
    + rewrite (Z.mod_small (w + 32768)) by lia.
      replace (w + 32768 - 32768) with w by lia. unfold w.
      f_equal.
      * rewrite Z.add_comm, Z.mod_add by lia. apply Z.mod_small. lia.
      * rewrite Z.div_add_l by lia. rewrite (Z.div_small byte0) by lia.
        rewrite Z.add_0_r. apply Z.mod_small. lia.
    + replace (w + 32768) with (w - 32768 + 1 * 65536) by lia.
      rewrite Z.mod_add by lia. rewrite (Z.mod_small (w - 32768)) by lia.
      replace (w - 32768 - 32768) with (byte0 + (byte1 - 256) * 256)
        by (unfold w; lia).
      f_equal.
      * rewrite Z.mod_add by lia. apply Z.mod_small. lia.
      * rewrite Z.div_add by lia. rewrite (Z.div_small byte0) by lia.
        replace (0 + (byte1 - 256)) with (byte1 + (-1) * 256) by lia.
        rewrite Z.mod_add by lia. apply Z.mod_small. lia.
Qed.

Lemma twoComplement_round_trip_witness :
  twoComplement (fst (sample_bytes (-300))) (snd (sample_bytes (-300))) = -300
  /\ sample_bytes (twoComplement 0xD4 0xFE) = (0xD4, 0xFE).
Proof.
  split.
  - apply (proj1 (twoComplement_round_trip (-300) 0 0)). lia.
  - apply (proj2 (twoComplement_round_trip 0 0xD4 0xFE)); lia.
Defined.

Section Primitives.

Context {regs : ADXL345registers}.

(** An accepted write on a bus that answers in time. *)
Lemma writeRegister_in_time (registerNumber value : Z) (env : Env) (s : ADXL) :
  always_in_time env -> write_rejected registerNumber = false ->
  fst (writeRegister registerNumber value env s) = ERR_SUCCESS
  /\ trace (bus (snd (writeRegister registerNumber value env s)))
     = trace (bus s) ++ write_trace (registerNumber, value).
Proof.
  intros Henv Hreg. unfold writeRegister. rewrite Hreg. cbv zeta.
  set (b1 := busy_wait env (emit _ (emit LL_SPI_Enable _))).
  assert (H1 : 0 < SPITimer_ms b1).
  { apply busy_wait_responsive; [|apply Henv].
    simpl. unfold SPI_TIMEOUT_MS. lia. }
  destruct (SPITimer_ms b1 =? 0) eqn:E1; [apply Z.eqb_eq in E1; lia|].
  set (b2 := busy_wait env _).
  assert (H2 : 0 < SPITimer_ms b2).
  { apply busy_wait_responsive; [exact H1|apply Henv]. }
  change (SPITimer_ms (emit LL_SPI_Disable (emit LL_SPI_ClearFlag_OVR b2)))
    with (SPITimer_ms b2).
  destruct (SPITimer_ms b2 =? 0) eqn:E2; [apply Z.eqb_eq in E2; lia|].
  split; [reflexivity|].
  simpl. unfold write_trace. cbn [fst snd].
  rewrite <- !app_assoc. reflexivity.
Qed.

(** X2: on an accepted register, [writeRegister] reports success only
    after it has sent the opcode and the value, in this order, between
    enabling and disabling the peripheral; and when the transmit buffer
    does not empty before the timer runs out, it reports the timeout
    (code 2), having left the value byte unsent and the peripheral
    disabled. *)
Theorem writeRegister_outcomes (registerNumber value : Z) (env : Env) (s : ADXL) :
  write_rejected registerNumber = false ->
  (fst (writeRegister registerNumber value env s) = ERR_SUCCESS ->
   trace (bus (snd (writeRegister registerNumber value env s)))
   = trace (bus s) ++ write_trace (registerNumber, value))
  /\ (flag_deadline env (waits (bus s)) <= 0 ->
      fst (writeRegister registerNumber value env s)
      = createErrorCode WRITE_REGISTER 2 ERR_WARNING
      /\ trace (bus (snd (writeRegister registerNumber value env s)))
         = trace (bus s) ++ aborted_write_trace registerNumber).
Proof.
  intros Hreg. unfold writeRegister. rewrite Hreg. cbv zeta.
  set (b1 := busy_wait env (emit _ (emit LL_SPI_Enable _))).
  split.
  - destruct (SPITimer_ms b1 =? 0) eqn:E1.
    + apply Z.eqb_eq in E1.
      pose proof (busy_wait_expired env b1 E1) as E2.
      change (SPITimer_ms (emit LL_SPI_Disable
                (emit LL_SPI_ClearFlag_OVR (busy_wait env b1))))
        with (SPITimer_ms (busy_wait env b1)).
      rewrite E2. simpl. discriminate.
    + intros _.
      unfold write_trace. cbn [fst snd]. clear E1.
      destruct (SPITimer_ms _ =? 0); cbn [fst snd bus set_bus];
        unfold b1; simpl; rewrite <- ?app_assoc; reflexivity.
  - intros Hdead.
    assert (E1 : SPITimer_ms b1 = 0).
    { unfold b1. simpl. unfold SPI_TIMEOUT_MS. lia. }
    rewrite E1. cbn [Z.eqb].
    change (SPITimer_ms (emit LL_SPI_Disable
              (emit LL_SPI_ClearFlag_OVR (busy_wait env b1))))
      with (SPITimer_ms (busy_wait env b1)).
    rewrite (busy_wait_expired env b1 E1). cbn [Z.eqb fst snd].
    split; [reflexivity|].
    simpl. unfold aborted_write_trace. rewrite <- !app_assoc. reflexivity.
Qed.

(** The receive loop writes inside its [size] cells only. *)
Lemma receive_bytes_inside (size : nat) (env : Env) :
  forall (index : nat) (b : Bus) (value : list Z) (j : nat),
    (j < index \/ index + size <= j)%nat ->
    nth j (snd (receive_bytes size index env b value)) 0 = nth j value 0.
Proof.
  induction size as [|size IH]; intros index b value j Hj; [reflexivity|].
  rewrite receive_bytes_turn.
  destruct (receive_turn_facts index env b value) as (_ & _ & V).
  destruct (SPITimer_ms _ =? 0).
  - rewrite V. apply nth_poke_other. lia.
  - rewrite IH by lia. rewrite V. apply nth_poke_other. lia.
Qed.

(** X3: whatever the bus does, a burst read of [size] bytes keeps the
    length of the caller's array and leaves every cell from index [size]
    on as it was: it never writes past the bytes asked for. *)
Theorem readRegisters_stays_in_bounds (firstRegister : Z) (value : list Z)
        (size : Z) (env : Env) (s : ADXL) (j : nat) :
  0 < size < 256 -> (Z.to_nat size <= j)%nat ->
  length (snd (fst (readRegisters firstRegister value size env s)))
  = length value
  /\ nth j (snd (fst (readRegisters firstRegister value size env s))) 0
     = nth j value 0.
Proof.
  intros Hsize Hj. rewrite readRegisters_unfold.
  rewrite (u8_small size) by lia.
  destruct (size =? 0); [auto|].
  destruct (firstRegister >? ADXL_REGISTER_MAXNB); [auto|].
  cbv zeta.
  match goal with
  | |- context [receive_bytes ?n ?i ?e ?b ?v] =>
      pose proof (receive_bytes_trace n i e b v) as [_ L];
      pose proof (receive_bytes_inside n e i b v j ltac:(lia)) as N;
      set (received := receive_bytes n i e b v) in *
  end.
  rewrite poke_length in L. rewrite nth_poke_other in N by lia.
  destruct (SPITimer_ms _ =? 0); cbn [fst snd]; auto.
Qed.

End Primitives.

Lemma writeRegister_outcomes_witness :
  fst (@writeRegister datasheet 0x31 0x2B present initial) = ERR_SUCCESS
  /\ trace (bus (snd (@writeRegister datasheet 0x31 0x2B present initial)))
     = [LL_SPI_Enable; LL_SPI_TransmitData8 0x31; LL_SPI_TransmitData8 0x2B;
        LL_SPI_ClearFlag_OVR; LL_SPI_Disable]
  /\ fst (@writeRegister datasheet 0x31 0x2B dead initial)
     = createErrorCode WRITE_REGISTER 2 ERR_WARNING
  /\ trace (bus (snd (@writeRegister datasheet 0x31 0x2B dead initial)))
     = [LL_SPI_Enable; LL_SPI_TransmitData8 0x31;
        LL_SPI_ClearFlag_OVR; LL_SPI_Disable].
Proof.
  split; [reflexivity|]. split.
  - apply (proj1 (@writeRegister_outcomes datasheet 0x31 0x2B present initial
                    eq_refl)). reflexivity.
  - apply (proj2 (@writeRegister_outcomes datasheet 0x31 0x2B dead initial
                    eq_refl)). simpl. lia.
Defined.

Lemma readRegisters_stays_in_bounds_witness :
  length (snd (fst (@readRegisters datasheet 0x32 [1; 2; 3; 4] 2 present initial)))
  = 4%nat
  /\ nth 2 (snd (fst (@readRegisters datasheet 0x32 [1; 2; 3; 4] 2 present
                                     initial))) 0 = 3.
Proof.
  apply (@readRegisters_stays_in_bounds datasheet 0x32 [1; 2; 3; 4] 2 present
           initial 2); simpl; lia.
Defined.

(** *** Integration *)

Lemma spi_enabled_snoc (t : list Event) (e : Event) :
  spi_enabled (t ++ [e])
  = match e with
    | LL_SPI_Enable => true
    | LL_SPI_Disable => false
    | _ => spi_enabled t
    end.
Proof. unfold spi_enabled. rewrite fold_left_app. reflexivity. Qed.

Lemma quiet_refl (s : ADXL) : quiet s s.
Proof. split; [apply keeps_data_refl | auto]. Qed.

Lemma quiet_trans (s1 s2 s3 : ADXL) : quiet s1 s2 -> quiet s2 s3 -> quiet s1 s3.
Proof.
  intros [K1 P1] [K2 P2]. split; [eapply keeps_data_trans; eauto | auto].
Qed.

Lemma quiet_set_result (r : errorCode_u) (s : ADXL) : quiet s (set_result r s).
Proof. split; [apply keeps_data_set_result | auto]. Qed.

Lemma quiet_set_state (st : adxlState) (s : ADXL) : quiet s (set_state st s).
Proof. split; [apply keeps_data_set_state | auto]. Qed.

Section Integration.

Context {regs : ADXL345registers}.

Lemma writeRegister_quiet (registerNumber value : Z) (env : Env) (s : ADXL) :
  quiet s (snd (writeRegister registerNumber value env s)).
Proof.
  split; [apply writeRegister_state|].
  unfold writeRegister. destruct (write_rejected registerNumber); [auto|].
  intros _. cbv zeta.
  destruct (SPITimer_ms (emit _ _) =? 0); cbn [snd bus set_bus emit trace];
    apply spi_enabled_snoc.
Qed.

Lemma receive_bytes_spi (size : nat) (env : Env) :
  forall (index : nat) (b : Bus) (value : list Z),
    spi_enabled (trace (fst (receive_bytes size index env b value)))
    = spi_enabled (trace b).
Proof.
  induction size as [|size IH]; intros index b value; [reflexivity|].
  rewrite receive_bytes_turn.
  assert (T : spi_enabled (trace (fst (receive_turn index env b value)))
              = spi_enabled (trace b)).
  { unfold receive_turn. cbn [fst snd receive busy_wait emit trace].
    rewrite !spi_enabled_snoc. reflexivity. }
  destruct (SPITimer_ms _ =? 0); [exact T|]. rewrite IH. exact T.
Qed.

Lemma readRegisters_quiet (firstRegister : Z) (value : list Z) (size : Z)
      (env : Env) (s : ADXL) :
  quiet s (snd (readRegisters firstRegister value size env s)).
Proof.
  split; [apply readRegisters_state|].
  rewrite readRegisters_unfold.
  destruct (u8 size =? 0); [auto|].
  destruct (firstRegister >? ADXL_REGISTER_MAXNB); [auto|].
  intros _. cbv zeta.
  destruct (SPITimer_ms (emit _ _) =? 0); cbn [snd bus set_bus emit trace];
    apply spi_enabled_snoc.
Qed.

(** An early return of the sample loop is a failure. *)
Lemma integrate_samples_failure (count : nat) (env : Env) :
  forall (s : ADXL) (buffer : list Z) (values : axes) (e : errorCode_u),
    fst (fst (integrate_samples count env s buffer values)) = Some e ->
    isError e = true.
Proof.
  induction count as [|count IH]; intros s buffer values e H; [discriminate|].
  rewrite integrate_samples_turn in H. cbv zeta in H.
  destruct (isError _) eqn:E in H.
  - inversion H. unfold isError, pushErrorCode in *. exact E.
  - eapply IH. exact H.
Qed.

Lemma integrate_samples_quiet (count : nat) (env : Env) :
  forall (s : ADXL) (buffer : list Z) (values : axes),
    quiet s (snd (integrate_samples count env s buffer values)).
Proof.
  induction count as [|count IH]; intros s buffer values; [apply quiet_refl|].
  rewrite integrate_samples_turn. cbv zeta.
  pose proof (readRegisters_quiet DATA_X0 buffer ADXL_NB_DATA_REGISTERS env s)
    as Q.
  destruct (isError _).
  - cbn [snd]. eapply quiet_trans; [exact Q|].
    eapply quiet_trans; [apply quiet_set_result | apply quiet_set_state].
  - eapply quiet_trans; [exact Q|].
    eapply quiet_trans; [apply quiet_set_result | apply IH].
Qed.

Lemma integrateFIFO_quiet (env : Env) (s : ADXL) :
  quiet s (snd (integrateFIFO env s)).
Proof.
  unfold integrateFIFO.
  pose proof (integrate_samples_quiet (Z.to_nat ADXL_AVG_SAMPLES) env s
                [0; 0; 0; 0; 0; 0] (mkAxes 0 0 0)) as Q.
  destruct (integrate_samples _ env s _ _) as [[[e|] values] s1]; exact Q.
Qed.

(** X4: [integrateFIFO] either succeeds and leaves the state alone, or
    returns a failure of origin [INTEGRATE] with the machine in Error;
    either way it returns with the peripheral disabled and, the array it
    is given to fill apart (which it overwrites, also when it fails), it
    keeps the outer timer, the updated flag, the previous values and the
    zero offsets. *)
Theorem integrateFIFO_outcomes (env : Env) (s : ADXL) :
  let r := fst (fst (integrateFIFO env s)) in
  let s' := snd (integrateFIFO env s) in
  ((r = ERR_SUCCESS /\ _state s' = _state s)
   \/ (isError r = true /\ origin r = INTEGRATE /\ _state s' = Error))
  /\ (adxlTimer_ms s' = adxlTimer_ms s
      /\ _measurementsUpdated s' = _measurementsUpdated s
      /\ _previousValues s' = _previousValues s
      /\ _zeroValues s' = _zeroValues s)
  /\ (spi_enabled (trace (bus s)) = false ->
      spi_enabled (trace (bus s')) = false).
Proof.
  cbv zeta.
  split;
    [|destruct (integrateFIFO_quiet env s) as ((K1 & K2 & _ & K4 & K5) & Q);
      repeat split; assumption].
  unfold integrateFIFO.
  pose proof (integrate_samples_frame (Z.to_nat ADXL_AVG_SAMPLES) env s
                [0; 0; 0; 0; 0; 0] (mkAxes 0 0 0)) as (_ & _ & S).
  pose proof (integrate_samples_failure (Z.to_nat ADXL_AVG_SAMPLES) env s
                [0; 0; 0; 0; 0; 0] (mkAxes 0 0 0)) as F.
  pose proof (integrate_samples_early (Z.to_nat ADXL_AVG_SAMPLES) env s
                [0; 0; 0; 0; 0; 0] (mkAxes 0 0 0)) as O.
  destruct (integrate_samples _ env s _ _) as [[[e|] values] s1];
    cbn [fst snd] in *; auto.
Qed.

Lemma axis_sum_bounds (env : Env) (axis : axis_e) (count : nat) :
  forall first,
    -32768 * Z.of_nat count
    <= axis_sum axis (burst_samples env first count)
    <= 32767 * Z.of_nat count.
Proof.
  induction count as [|count IH]; intros first; [unfold axis_sum; simpl; lia|].
  specialize (IH (first + 7)%nat).
  assert (S : -32768 <= get axis (burst_sample env first) <= 32767).
  { destruct axis; simpl;
      match goal with
      | |- _ <= twoComplement ?a ?b <= _ =>
          pose proof (twoComplement_range a b); lia
      end. }
  unfold axis_sum in *. simpl burst_samples. simpl map. simpl fold_right.
  lia.
Qed.

(** What a successful integration leaves in each axis. *)
Lemma integrateFIFO_value (env : Env) (s : ADXL) (axis : axis_e) :
  fst (fst (integrateFIFO env s)) = ERR_SUCCESS ->
  get axis (snd (fst (integrateFIFO env s)))
  = axis_sum axis (burst_samples env (receptions (bus s))
                                 (Z.to_nat ADXL_AVG_SAMPLES))
    / ADXL_AVG_SAMPLES.
Proof.
  intros Hok.
  pose proof (integrateFIFO_code env s Hok) as Hnone.
  pose proof (integrate_samples_sum (Z.to_nat ADXL_AVG_SAMPLES) env s
                [0; 0; 0; 0; 0; 0] (mkAxes 0 0 0) 0 eq_refl) as Hsum.
  unfold integrateFIFO in *.
  destruct (integrate_samples _ env s _ _) as [[[e|] values] s1];
    cbn [fst snd] in *; [discriminate|].
  assert (Hshift : get axis
            (mkAxes (Z.shiftr (x_of values) ADXL_AVG_SHIFT)
                    (Z.shiftr (y_of values) ADXL_AVG_SHIFT)
                    (Z.shiftr (z_of values) ADXL_AVG_SHIFT))
          = Z.shiftr (get axis values) ADXL_AVG_SHIFT)
    by (destruct axis; reflexivity).
  rewrite Hshift, Hsum; auto.
  - rewrite Z.shiftr_div_pow2 by (unfold ADXL_AVG_SHIFT; lia).
    replace (get axis (mkAxes 0 0 0)) with 0 by (destruct axis; reflexivity).
    reflexivity.
  - intros a. destruct a; simpl; lia.
  - lia.
  - change (Z.of_nat (Z.to_nat ADXL_AVG_SAMPLES)) with 32. lia.
Qed.

(** X5: a successful integration leaves on every axis a value that fits
    a signed 16-bit sample, between -32768 and 32767. *)
Theorem integrateFIFO_fits_16_bits (env : Env) (s : ADXL) (axis : axis_e) :
  fst (fst (integrateFIFO env s)) = ERR_SUCCESS ->
  -32768 <= get axis (snd (fst (integrateFIFO env s))) <= 32767.
Proof.
  intros Hok. rewrite (integrateFIFO_value env s axis Hok).
  pose proof (axis_sum_bounds env axis (Z.to_nat ADXL_AVG_SAMPLES)
                              (receptions (bus s))) as B.
  change (Z.of_nat (Z.to_nat ADXL_AVG_SAMPLES)) with 32 in B.
  set (total := axis_sum axis _) in *.
  change ADXL_AVG_SAMPLES with 32.
  split.
  - apply Z.div_le_lower_bound; lia.
  - apply Z.lt_succ_r. apply Z.div_lt_upper_bound; lia.
Qed.

End Integration.

Lemma integrateFIFO_fits_16_bits_witness :
  fst (fst (@integrateFIFO datasheet (steady (-32768) 32767 0 false) initial))
  = ERR_SUCCESS
  /\ -32768 <= get X_AXIS (snd (fst (@integrateFIFO datasheet
                                       (steady (-32768) 32767 0 false) initial)))
     <= 32767.
Proof.
  split; [vm_compute; reflexivity|].
  apply (@integrateFIFO_fits_16_bits datasheet (steady (-32768) 32767 0 false)
           initial X_AXIS).
  vm_compute. reflexivity.
Defined.

(** *** States and sequences of calls *)

Ltac use_write :=
  match goal with
  | |- context [writeRegister ?r ?v ?e ?s0] =>
      let K := fresh "K" in
      let P := fresh "P" in
      let St := fresh "St" in
      pose proof (writeRegister_quiet r v e s0) as [K P];
      pose proof (proj1 (writeRegister_state r v e s0)) as St;
      destruct K as (_ & _ & _ & ? & ?);
      destruct (writeRegister r v e s0) as [? ?]; cbn [fst snd] in *
  end.

Ltac use_integrate :=
  match goal with
  | |- context [integrateFIFO ?e ?s0] =>
      let K := fresh "K" in
      let P := fresh "P" in
      let St := fresh "St" in
      pose proof (integrateFIFO_quiet e s0) as [K P];
      pose proof (integrateFIFO_frame e s0) as (_ & _ & St);
      destruct K as (_ & _ & _ & ? & ?);
      destruct (integrateFIFO e s0) as [[? ?] ?]; cbn [fst snd] in *
  end.

Ltac settle :=
  unfold steps_to in *; simpl in *;
  repeat split; try congruence; auto;
  try (intuition congruence).

Section States.

Context {regs : ADXL345registers}.

Lemma write_registers_step (entries : list (Z * Z)) (env : Env) :
  forall s,
    let out := write_registers entries env s in
    quiet s (snd out)
    /\ match fst out with
       | None => _state (snd out) = _state s
       | Some e => _state (snd out) = Error /\ isError e = true
       end.
Proof.
  induction entries as [|[r v] rest IH]; intros s.
  - simpl. split; [apply quiet_refl|reflexivity].
  - simpl.
    pose proof (writeRegister_quiet r v env s) as Q.
    pose proof (proj1 (writeRegister_state r v env s)) as St.
    destruct (writeRegister r v env s) as [r1 s1]. cbn [fst snd] in *.
    destruct (isError r1) eqn:E.
    + cbn [fst snd]. split.
      * eapply quiet_trans; [exact Q|].
        eapply quiet_trans; [apply quiet_set_result|apply quiet_set_state].
      * split; [reflexivity|]. unfold isError, pushErrorCode in *. exact E.
    + specialize (IH (set_result r1 s1)). cbv zeta in IH.
      destruct IH as [Q' S']. split.
      * eapply quiet_trans; [exact Q|].
        eapply quiet_trans; [apply quiet_set_result|exact Q'].
      * destruct (fst (write_registers rest env (set_result r1 s1))).
        -- exact S'.
        -- rewrite S'. exact St.
Qed.

(** One update: where the state can go, what it keeps. *)
Lemma update_step (env : Env) (s : ADXL) :
  let s' := snd (ADXL345update env s) in
  steps_to (_state s) (_state s')
  /\ _previousValues s' = _previousValues s
  /\ _zeroValues s' = _zeroValues s
  /\ (spi_enabled (trace (bus s)) = false ->
      spi_enabled (trace (bus s')) = false).
Proof.
  cbv zeta. unfold ADXL345update.
  destruct (_state s) eqn:Hst; cbn [state_function].
  - (* Startup *)
    unfold stStartup.
    pose proof (readRegisters_quiet DEVICE_ID [0] 1 env s) as [K P].
    pose proof (proj1 (readRegisters_state DEVICE_ID [0] 1 env s)) as St.
    destruct K as (_ & _ & _ & ? & ?).
    destruct (readRegisters DEVICE_ID [0] 1 env s) as [[r v] s1].
    cbn [fst snd] in *. branches; settle.
  - (* Configuring *)
    unfold stConfiguring.
    pose proof (write_registers_step initialisationArray env s) as W.
    cbv zeta in W. destruct W as [[K P] S].
    destruct K as (_ & _ & _ & ? & ?).
    destruct (write_registers initialisationArray env s) as [[e|] s1];
      cbn [fst snd] in *; settle.
  - (* MeasuringST_OFF *)
    unfold stMeasuringST_OFF.
    destruct (adxlTimer_ms s =? 0); [settle|].
    destruct (negb (isFIFOdataReady env)); [settle|].
    use_integrate. destruct (isError _); [settle|].
    use_write. destruct (isError _); [settle|].
    use_write. destruct (isError _); settle.
  - (* WaitingForSTenabled *)
    unfold stWaitingForSTenabled.
    destruct (adxlTimer_ms s =? 0); [settle|].
    use_write. destruct (isError _); settle.
  - (* MeasuringST_ON *)
    unfold stMeasuringST_ON.
    destruct (adxlTimer_ms s =? 0); [settle|].
    destruct (negb (isFIFOdataReady env)); [settle|].
    use_integrate. destruct (isError _); [settle|].
    destruct (ST_out_of_range _); [settle|].
    use_write. destruct (isError _); settle.
  - (* Measuring *)
    unfold stMeasuring.
    destruct (adxlTimer_ms s =? 0); [settle|].
    destruct (negb (isFIFOdataReady env)); [settle|].
    use_integrate. destruct (isError _); settle.
    all: destruct St as [St|St]; rewrite St; auto.
  - (* Error *)
    settle.
Qed.

Lemma rank_bound (st : adxlState) : (rank st <= rank Error)%nat.
Proof. destruct st; simpl; lia. Qed.

(** X6: once the machine is in Error, no sequence of calls of the
    driver's entry points takes it out of it or starts a bus
    transaction. *)
Theorem error_is_terminal (calls : list call) (s : ADXL) :
  _state s = Error ->
  _state (perform_all calls s) = Error
  /\ transactions (trace (bus (perform_all calls s)))
     = transactions (trace (bus s)).
Proof.
  revert s. induction calls as [|c rest IH]; intros s Hst; [auto|].
  simpl perform_all.
  assert (H : _state (perform c s) = Error
              /\ transactions (trace (bus (perform c s)))
                 = transactions (trace (bus s))).
  { destruct c; simpl; auto.
    - split; [exact Hst|]. count.
    - unfold ADXL345update. rewrite Hst. simpl. auto. }
  destruct H as [H1 H2]. destruct (IH _ H1) as [I1 I2].
  split; [exact I1|]. rewrite I2. exact H2.
Qed.

(** X7: the machine never moves backward: along any sequence of calls
    the state keeps its place in the order Startup, Configuring,
    MeasuringST_OFF, WaitingForSTenabled, MeasuringST_ON, Measuring,
    Error, or moves further down it; one update advances by one state at
    most, unless it goes to Error. *)
Theorem state_never_moves_backward (calls : list call) (s : ADXL) :
  (rank (_state s) <= rank (_state (perform_all calls s)))%nat
  /\ (forall env, steps_to (_state s) (_state (snd (ADXL345update env s)))).
Proof.
  split; [|intros env; apply update_step].
  revert s. induction calls as [|c rest IH]; intros s; [simpl; lia|].
  simpl perform_all. specialize (IH (perform c s)).
  assert (H : (rank (_state s) <= rank (_state (perform c s)))%nat).
  { destruct c; simpl; try lia.
    destruct (update_step env s) as ([H|[H|H]] & _); rewrite H;
      [apply rank_bound | lia | lia]. }
  lia.
Qed.

(** X8: if the SPI peripheral is disabled when a sequence of calls
    begins, it is disabled when the sequence ends: no entry point
    returns with the bus left enabled. *)
Theorem bus_is_released (calls : list call) (s : ADXL) :
  spi_enabled (trace (bus s)) = false ->
  spi_enabled (trace (bus (perform_all calls s))) = false.
Proof.
  revert s. induction calls as [|c rest IH]; intros s H; [exact H|].
  simpl perform_all. apply IH.
  destruct c; simpl; auto.
  - apply spi_enabled_snoc.
  - apply update_step. exact H.
Qed.

(** X9: the Z axis is never compensated: if its zero offset is 0 when a
    sequence of calls begins (as after [ADXL345initialise]), it is 0
    when the sequence ends, zeroing and updates included. *)
Theorem Z_offset_stays_zero (calls : list call) (s : ADXL) :
  get Z_AXIS (_zeroValues s) = 0 ->
  get Z_AXIS (_zeroValues (perform_all calls s)) = 0
  /\ get Z_AXIS (_zeroValues (snd (ADXL345initialise s))) = 0.
Proof.
  intros H0. split; [|reflexivity].
  revert s H0. induction calls as [|c rest IH]; intros s H; [exact H|].
  simpl perform_all. apply IH.
  destruct c; simpl; auto.
  destruct (update_step env s) as (_ & _ & Z & _). rewrite Z. exact H.
Qed.

End States.

Lemma error_is_terminal_witness :
  _state (at_state Error 0 (mkAxes 1 2 3)) = Error
  /\ _state (@perform_all datasheet session (at_state Error 0 (mkAxes 1 2 3)))
     = Error
  /\ transactions (trace (bus (@perform_all datasheet session
                                 (at_state Error 0 (mkAxes 1 2 3)))))
     = 0%nat.
Proof.
  split; [reflexivity|].
  apply (@error_is_terminal datasheet session (at_state Error 0 (mkAxes 1 2 3))).
  reflexivity.
Defined.

Lemma bus_is_released_witness :
  spi_enabled (trace (bus initial)) = false
  /\ _state (@perform_all datasheet session initial) = Measuring
  /\ spi_enabled (trace (bus (@perform_all datasheet session initial))) = false.
Proof.
  split; [reflexivity|]. split; [vm_compute; reflexivity|].
  apply (@bus_is_released datasheet session initial). reflexivity.
Defined.

Lemma Z_offset_stays_zero_witness :
  get Z_AXIS (_zeroValues initial) = 0
  /\ _zeroValues (@perform_all datasheet [Initialise;
          Update present; Update present;
          Update (delayed 2 (steady 100 (-100) 250 false)); ZeroDown] initial)
     = mkAxes (-100) 100 0
  /\ get Z_AXIS (_zeroValues (@perform_all datasheet session initial)) = 0.
Proof.
  split; [reflexivity|]. split; [vm_compute; reflexivity|].
  apply (@Z_offset_stays_zero datasheet session initial). reflexivity.
Defined.

(** *** Configuration, measurement and the queries *)

Section Measurement.

Context {regs : ADXL345registers}.

Lemma write_registers_in_time (entries : list (Z * Z)) (env : Env) :
  always_in_time env ->
  forall s,
    (forall entry, In entry entries -> write_rejected (fst entry) = false) ->
    let out := write_registers entries env s in
    fst out = None
    /\ trace (bus (snd out)) = trace (bus s) ++ flat_map write_trace entries
    /\ (entries <> [] -> _result (snd out) = ERR_SUCCESS).
Proof.
  intros Henv. induction entries as [|[r v] rest IH]; intros s Hacc.
  - simpl. rewrite app_nil_r. repeat split. congruence.
  - simpl write_registers.
    destruct (writeRegister_in_time r v env s Henv (Hacc (r, v) (or_introl eq_refl)))
      as [C T].
    destruct (writeRegister r v env s) as [r1 s1]. cbn [fst snd] in *.
    subst r1. cbn [isError severity ERR_SUCCESS].
    specialize (IH (set_result ERR_SUCCESS s1)
                   (fun e H => Hacc e (or_intror H))).
    cbv zeta in *. destruct IH as (N & T' & R).
    split; [exact N|]. split.
    + rewrite T'. simpl bus. rewrite T. simpl flat_map.
      rewrite <- app_assoc. reflexivity.
    + intros _. destruct rest as [|e rest']; [reflexivity|].
      apply R. discriminate.
Qed.

(** X10: on a bus that answers in time, Configuring writes the six
    registers of its table in the order of the table (data format,
    rate, FIFO bypass, FIFO watermark mode, measurement mode and, last,
    the interrupt enable), each as opcode then value between enabling
    and disabling the peripheral, returns success, re-arms the outer
    timer to 1 s and moves to MeasuringST_OFF. *)
Theorem configuration_order (env : Env) (s : ADXL) :
  _state s = Configuring -> always_in_time env -> configuration_accepted ->
  fst (ADXL345update env s) = ERR_SUCCESS
  /\ _state (snd (ADXL345update env s)) = MeasuringST_OFF
  /\ adxlTimer_ms (snd (ADXL345update env s)) = INT_TIMEOUT_MS
  /\ trace (bus (snd (ADXL345update env s)))
     = trace (bus s) ++ flat_map write_trace initialisationArray
  /\ map fst initialisationArray
     = [u8 DATA_FORMAT; u8 BANDWIDTH_POWERMODE; u8 FIFO_CONTROL;
        u8 FIFO_CONTROL; u8 POWER_CONTROL; u8 INTERRUPT_ENABLE].
Proof.
  intros Hst Henv Hacc. unfold ADXL345update. rewrite Hst.
  cbn [state_function]. unfold stConfiguring.
  pose proof (write_registers_in_time initialisationArray env Henv s Hacc) as W.
  cbv zeta in W. destruct W as (N & T & R).
  destruct (write_registers initialisationArray env s) as [[e|] s1];
    cbn [fst snd] in *; [discriminate|].
  repeat split; auto. apply R. discriminate.
Qed.

(** X11: whatever the bus does, an update in Configuring ends in one of
    two ways: no failure, the machine in MeasuringST_OFF and the outer
    timer re-armed to 1 s; or a failure returned, the machine in Error
    and the outer timer as it was. *)
Theorem configuration_outcomes (env : Env) (s : ADXL) :
  _state s = Configuring ->
  let r := fst (ADXL345update env s) in
  let s' := snd (ADXL345update env s) in
  (isError r = false /\ _state s' = MeasuringST_OFF
   /\ adxlTimer_ms s' = INT_TIMEOUT_MS)
  \/ (isError r = true /\ _state s' = Error
      /\ adxlTimer_ms s' = adxlTimer_ms s).
Proof.
  intros Hst. cbv zeta. unfold ADXL345update. rewrite Hst.
  cbn [state_function]. unfold stConfiguring.
  assert (L : forall entries s0,
             fst (write_registers entries env s0) = None ->
             entries <> [] ->
             isError (_result (snd (write_registers entries env s0))) = false).
  { induction entries as [|[r v] rest IH]; intros s0 N Hne; [congruence|].
    simpl in *. destruct (writeRegister r v env s0) as [r1 s1].
    destruct (isError r1) eqn:E; [discriminate|].
    destruct rest as [|e rest']; [exact E|]. apply IH; [exact N|discriminate]. }
  pose proof (write_registers_step initialisationArray env s) as W.
  cbv zeta in W. destruct W as [[K _] S].
  destruct K as (Kt & _).
  specialize (L initialisationArray s).
  destruct (write_registers initialisationArray env s) as [[e|] s1];
    cbn [fst snd] in *.
  - right. destruct S as [S1 S2]. auto.
  - left. split; [apply L; [reflexivity|discriminate]|]. auto.
Qed.

(** X12: in Measuring, with the outer timer running and the watermark
    signalled, on a bus that answers in time, the update succeeds, stays
    in Measuring, re-arms the outer timer to 1 s, raises the
    measurements-updated flag and stores on every axis the floor mean of
    the 32 samples read. *)
Theorem measuring_stores_the_mean (env : Env) (s : ADXL) (axis : axis_e) :
  _state s = Measuring -> adxlTimer_ms s <> 0 -> int1_pin_set env = false ->
  always_in_time env -> DATA_X0 <= ADXL_REGISTER_MAXNB ->
  let s' := snd (ADXL345update env s) in
  fst (ADXL345update env s) = ERR_SUCCESS
  /\ _state s' = Measuring
  /\ adxlTimer_ms s' = INT_TIMEOUT_MS
  /\ _measurementsUpdated s' = 1
  /\ get axis (_latestValues s')
     = axis_sum axis (burst_samples env (receptions (bus s)) 32) / 32.
Proof.
  intros Hst Htimer Hpin Henv Hreg. cbv zeta.
  unfold ADXL345update. rewrite Hst. cbn [state_function].
  unfold stMeasuring, isFIFOdataReady.
  apply Z.eqb_neq in Htimer. rewrite Htimer, Hpin. cbn [negb].
  set (s0 := set_adxlTimer_ms INT_TIMEOUT_MS s).
  pose proof (integrateFIFO_in_time env s0 Henv Hreg) as Hok.
  pose proof (integrateFIFO_value env s0 axis Hok) as Hval.
  pose proof (integrateFIFO_frame env s0) as ((Kt & _) & _ & St).
  pose proof (integrateFIFO_code env s0 Hok) as Hnone.
  pose proof (integrate_samples_frame (Z.to_nat ADXL_AVG_SAMPLES) env s0
                [0; 0; 0; 0; 0; 0] (mkAxes 0 0 0)) as (_ & _ & Sn).
  unfold integrateFIFO in *.
  destruct (integrate_samples _ env s0 _ _) as [[[e|] values] s1];
    cbn [fst snd] in *; [discriminate|].
  cbn [isError severity ERR_SUCCESS fst snd].
  cbn [_state set_measurementsUpdated set_result set_latestValues
       adxlTimer_ms _measurementsUpdated _latestValues].
  split; [reflexivity|]. split; [rewrite Sn; exact Hst|].
  split; [rewrite Kt; reflexivity|]. split; [reflexivity|].
  exact Hval.
Qed.

(** X24: with the watermark raised, a bus that answers in time and the
    two registers accepted, the self-test-off state stores the floor
    mean of the 32 samples as the baseline, then writes the data format
    with the self-test bit set and puts the FIFO in bypass mode, in that
    order, and waits 25 ms in [WaitingForSTenabled]. *)
Theorem baseline_then_self_test (env : Env) (s : ADXL) (axis : axis_e) :
  _state s = MeasuringST_OFF -> adxlTimer_ms s <> 0 ->
  int1_pin_set env = false -> always_in_time env ->
  DATA_X0 <= ADXL_REGISTER_MAXNB ->
  write_rejected DATA_FORMAT = false -> write_rejected FIFO_CONTROL = false ->
  let s' := snd (ADXL345update env s) in
  fst (ADXL345update env s) = ERR_SUCCESS
  /\ _state s' = WaitingForSTenabled
  /\ adxlTimer_ms s' = 25
  /\ get axis (_latestValues s')
     = axis_sum axis (burst_samples env (receptions (bus s)) 32) / 32
  /\ trace (bus s')
     = trace (bus (snd (integrateFIFO env s)))
       ++ write_trace (DATA_FORMAT, Z.lor DATA_FORMAT_DEFAULT ADXL_SELF_TEST)
       ++ write_trace (FIFO_CONTROL, ADXL_MODE_BYPASS).
Proof.
  intros Hst Htimer Hpin Henv Hreg Hformat Hfifo. cbv zeta.
  unfold ADXL345update. rewrite Hst. cbn [state_function].
  unfold stMeasuringST_OFF, isFIFOdataReady.
  apply Z.eqb_neq in Htimer. rewrite Htimer, Hpin. cbn [negb].
  pose proof (integrateFIFO_in_time env s Henv Hreg) as Hok.
  pose proof (integrateFIFO_value env s axis Hok) as Hval.
  destruct (integrateFIFO env s) as [[r values] s1]. cbn [fst snd] in *.
  subst r. cbn [isError severity ERR_SUCCESS].
  set (s2 := set_result _ (set_latestValues values s1)).
  pose proof (writeRegister_in_time DATA_FORMAT
                (Z.lor DATA_FORMAT_DEFAULT ADXL_SELF_TEST) env s2 Henv Hformat)
    as (W1 & T1).
  pose proof (writeRegister_state DATA_FORMAT
                (Z.lor DATA_FORMAT_DEFAULT ADXL_SELF_TEST) env s2)
    as (_ & _ & _ & L1 & _).
  destruct (writeRegister DATA_FORMAT _ env s2) as [r1 s3]. cbn [fst snd] in *.
  subst r1. cbn [isError severity ERR_SUCCESS].
  set (s4 := set_result _ s3).
  pose proof (writeRegister_in_time FIFO_CONTROL ADXL_MODE_BYPASS env s4
                Henv Hfifo) as (W2 & T2).
  pose proof (writeRegister_state FIFO_CONTROL ADXL_MODE_BYPASS env s4)
    as (_ & _ & _ & L2 & _).
  destruct (writeRegister FIFO_CONTROL _ env s4) as [r2 s5]. cbn [fst snd] in *.
  subst r2. cbn [isError severity ERR_SUCCESS fst snd].
  cbn [_state set_state set_adxlTimer_ms set_result adxlTimer_ms
       _latestValues bus].
  split; [reflexivity|]. split; [reflexivity|]. split; [reflexivity|].
  split.
  - rewrite L2. subst s4. cbn [set_result _latestValues]. rewrite L1.
    subst s2. cbn [set_result set_latestValues _latestValues]. exact Hval.
  - rewrite T2. subst s4. cbn [set_result bus]. rewrite T1.
    subst s2. cbn [set_result set_latestValues bus].
    rewrite <- app_assoc. reflexivity.
Qed.

(** X25: the outer timer is a watchdog and the watermark is polled: in
    the four states that wait for the device (Startup and the three
    measuring states) an update with the timer at 0 returns a failure of
    detail 1 and stops the machine in Error without touching the bus;
    in the three measuring states, with the timer running and no
    watermark signalled, an update returns success and changes
    nothing. *)
Theorem watchdog_and_polling (env : Env) (s : ADXL) :
  (adxlTimer_ms s = 0 ->
   In (_state s) [Startup; MeasuringST_OFF; MeasuringST_ON; Measuring] ->
   isError (fst (ADXL345update env s)) = true
   /\ detail (fst (ADXL345update env s)) = 1
   /\ snd (ADXL345update env s) = set_state Error s)
  /\ (adxlTimer_ms s <> 0 -> int1_pin_set env = true ->
      In (_state s) [MeasuringST_OFF; MeasuringST_ON; Measuring] ->
      ADXL345update env s = (ERR_SUCCESS, s)).
Proof.
  split.
  - intros Htimer Hst. unfold ADXL345update.
    destruct Hst as [H|[H|[H|[H|[]]]]]; rewrite <- H; cbn [state_function];
      unfold stStartup, stMeasuringST_OFF, stMeasuringST_ON, stMeasuring;
      rewrite Htimer; cbn [Z.eqb]; repeat split.
  - intros Htimer Hpin Hst. apply Z.eqb_neq in Htimer. unfold ADXL345update.
    destruct Hst as [H|[H|[H|[]]]]; rewrite <- H; cbn [state_function];
      unfold stMeasuringST_OFF, stMeasuringST_ON, stMeasuring, isFIFOdataReady;
      rewrite Htimer, Hpin; reflexivity.
Qed.

End Measurement.

(** X13: zeroing makes the compensated X and Y samples zero, so that the
    angle of either axis is what the arctangent gives for a zero
    numerator; it leaves the Z offset and the samples alone, and cancelling
    the zeroing afterwards puts the three offsets back to 0. *)
Theorem zeroing_compensates (atanf_degrees_tenths : Z -> Z -> Z)
        (axis : axis_e) (s : ADXL) :
  axis <> Z_AXIS ->
  -2147483648 < get axis (_latestValues s) < 2147483648 ->
  get Z_AXIS (_latestValues s) <> 0 ->
  getAngleDegreesTenths atanf_degrees_tenths axis (ADXLzeroDown s)
  = atanf_degrees_tenths 0 (get Z_AXIS (_latestValues s))
  /\ _latestValues (ADXLzeroDown s) = _latestValues s
  /\ get Z_AXIS (_zeroValues (ADXLzeroDown s)) = get Z_AXIS (_zeroValues s)
  /\ _zeroValues (ADXLcancelZeroing (ADXLzeroDown s)) = mkAxes 0 0 0.
Proof.
  intros Haxis Hrange Hz.
  split; [|repeat split].
  unfold getAngleDegreesTenths, ADXLzeroDown.
  cbn [_latestValues set_zeroValues _zeroValues].
  apply Z.eqb_neq in Hz. rewrite Hz.
  f_equal.
  destruct axis; [| |congruence]; simpl in *;
    rewrite (s32_small (- _)) by lia;
    rewrite Z.add_opp_diag_r; reflexivity.
Qed.

Lemma zeroing_compensates_witness :
  getAngleDegreesTenths (fun n d => n * 10 + d) X_AXIS
    (ADXLzeroDown (at_state Measuring 1000 (mkAxes 120 (-45) 250)))
  = 250
  /\ getAngleDegreesTenths (fun n d => n * 10 + d) X_AXIS
       (at_state Measuring 1000 (mkAxes 120 (-45) 250))
     = 1450.
Proof.
  split; [|reflexivity].
  apply (zeroing_compensates (fun n d => n * 10 + d) X_AXIS
           (at_state Measuring 1000 (mkAxes 120 (-45) 250)));
    [discriminate | simpl; lia | simpl; lia].
Defined.

(** X14: a change-detection query on one axis does not disturb the other
    axes: the answer for another axis is the same before and after it, and
    it returns 1 exactly when the latest value of its axis differs from
    the value kept at the previous query, and 0 exactly when they are
    equal. *)
Theorem hasChanged_is_per_axis (axis other : axis_e) (s : ADXL) :
  axis <> other ->
  fst (ADXL345hasChanged other (snd (ADXL345hasChanged axis s)))
  = fst (ADXL345hasChanged other s)
  /\ (fst (ADXL345hasChanged axis s) = 1
      <-> get axis (_latestValues s) <> get axis (_previousValues s))
  /\ (fst (ADXL345hasChanged axis s) = 0
      <-> get axis (_latestValues s) = get axis (_previousValues s)).
Proof.
  intros Hne. unfold ADXL345hasChanged. cbn [fst snd].
  split; [destruct axis, other; try congruence; reflexivity|].
  destruct (get axis (_latestValues s) =? get axis (_previousValues s)) eqn:E.
  - apply Z.eqb_eq in E. split; split; intros; auto; try congruence; lia.
  - apply Z.eqb_neq in E. split; split; intros; auto; try congruence; lia.
Qed.

Lemma hasChanged_is_per_axis_witness :
  fst (ADXL345hasChanged Y_AXIS
         (snd (ADXL345hasChanged X_AXIS (at_state Measuring 1000 (mkAxes 5 6 7)))))
  = 1.
Proof.
  rewrite (proj1 (hasChanged_is_per_axis X_AXIS Y_AXIS
                    (at_state Measuring 1000 (mkAxes 5 6 7))
                    ltac:(discriminate))).
  reflexivity.
Defined.

Lemma configuration_accepted_datasheet : @configuration_accepted datasheet.
Proof.
  intros entry H. simpl in H.
  repeat (destruct H as [<-|H]; [reflexivity|]). contradiction.
Qed.

Lemma configuration_order_witness :
  fst (@ADXL345update datasheet present (at_state Configuring 1000 (mkAxes 0 0 0)))
  = ERR_SUCCESS
  /\ trace (bus (snd (@ADXL345update datasheet present
                       (at_state Configuring 1000 (mkAxes 0 0 0)))))
     = [LL_SPI_Enable; LL_SPI_TransmitData8 0x31; LL_SPI_TransmitData8 0x2B;
        LL_SPI_ClearFlag_OVR; LL_SPI_Disable;
        LL_SPI_Enable; LL_SPI_TransmitData8 0x2C; LL_SPI_TransmitData8 0x0B;
        LL_SPI_ClearFlag_OVR; LL_SPI_Disable;
        LL_SPI_Enable; LL_SPI_TransmitData8 0x38; LL_SPI_TransmitData8 0x00;
        LL_SPI_ClearFlag_OVR; LL_SPI_Disable;
        LL_SPI_Enable; LL_SPI_TransmitData8 0x38; LL_SPI_TransmitData8 0x5F;
        LL_SPI_ClearFlag_OVR; LL_SPI_Disable;
        LL_SPI_Enable; LL_SPI_TransmitData8 0x2D; LL_SPI_TransmitData8 0x08;
        LL_SPI_ClearFlag_OVR; LL_SPI_Disable;
        LL_SPI_Enable; LL_SPI_TransmitData8 0x2E; LL_SPI_TransmitData8 0x02;
        LL_SPI_ClearFlag_OVR; LL_SPI_Disable].
Proof.
  destruct (@configuration_order datasheet present
              (at_state Configuring 1000 (mkAxes 0 0 0)) eq_refl
              ltac:(intros n; simpl; lia) configuration_accepted_datasheet)
    as (C & _ & _ & T & _).
  split; [exact C|]. rewrite T. reflexivity.
Defined.

Lemma configuration_outcomes_witness :
  _state (snd (@ADXL345update datasheet dead
                 (at_state Configuring 1000 (mkAxes 0 0 0)))) = Error
  /\ adxlTimer_ms (snd (@ADXL345update datasheet dead
                          (at_state Configuring 1000 (mkAxes 0 0 0)))) = 1000.
Proof.
  destruct (@configuration_outcomes datasheet dead
              (at_state Configuring 1000 (mkAxes 0 0 0)) eq_refl)
    as [(E & _)|(_ & S & T)]; [vm_compute in E; discriminate|].
  split; [exact S | exact T].
Defined.

Lemma measuring_stores_the_mean_witness :
  get X_AXIS (_latestValues (snd (@ADXL345update datasheet alternating
                                   (at_state Measuring 1000 (mkAxes 0 0 0)))))
  = -1
  /\ _measurementsUpdated (snd (@ADXL345update datasheet alternating
                                  (at_state Measuring 1000 (mkAxes 0 0 0))))
     = 1.
Proof.
  destruct (@measuring_stores_the_mean datasheet alternating
              (at_state Measuring 1000 (mkAxes 0 0 0)) X_AXIS eq_refl
              ltac:(simpl; lia) eq_refl ltac:(intros n; simpl; lia)
              ltac:(simpl; lia))
    as (_ & _ & _ & U & V).
  split; [rewrite V; vm_compute; reflexivity | exact U].
Defined.

Lemma integrateFIFO_outcomes_witness :
  origin (fst (fst (@integrateFIFO datasheet dead initial))) = INTEGRATE
  /\ spi_enabled (trace (bus (snd (@integrateFIFO datasheet dead initial))))
     = false.
Proof.
  destruct (@integrateFIFO_outcomes datasheet dead initial)
    as ([(A & _)|(_ & O & _)] & _ & Q).
  - vm_compute in A. discriminate A.
  - split; [exact O | apply Q; reflexivity].
Defined.

Lemma watchdog_and_polling_witness :
  _state (snd (@ADXL345update datasheet present (at_state Measuring 0 (mkAxes 0 0 0))))
  = Error
  /\ @ADXL345update datasheet present (at_state MeasuringST_ON 7 (mkAxes 0 0 0))
     = (ERR_SUCCESS, at_state MeasuringST_ON 7 (mkAxes 0 0 0)).
Proof.
  split.
  - destruct (proj1 (@watchdog_and_polling datasheet present
                       (at_state Measuring 0 (mkAxes 0 0 0)))
                    eq_refl ltac:(simpl; auto)) as (_ & _ & S).
    rewrite S. reflexivity.
  - apply (proj2 (@watchdog_and_polling datasheet present
                    (at_state MeasuringST_ON 7 (mkAxes 0 0 0))));
      [simpl; lia | reflexivity | simpl; auto].
Defined.

Lemma baseline_then_self_test_witness :
  _state (snd (@ADXL345update datasheet alternating
                 (at_state MeasuringST_OFF 1000 (mkAxes 0 0 0))))
  = WaitingForSTenabled
  /\ get X_AXIS (_latestValues (snd (@ADXL345update datasheet alternating
                                   (at_state MeasuringST_OFF 1000 (mkAxes 0 0 0)))))
     = -1.
Proof.
  destruct (@baseline_then_self_test datasheet alternating
              (at_state MeasuringST_OFF 1000 (mkAxes 0 0 0)) X_AXIS eq_refl
              ltac:(simpl; lia) eq_refl ltac:(intros n; simpl; lia)
              ltac:(simpl; lia) eq_refl eq_refl)
    as (_ & S & _ & V & _).
  split; [exact S | rewrite V; vm_compute; reflexivity].
Defined.

End ADXL345_extra.

(** ** Display: further properties *)

Module SSD1306_extra.

Import SSD1306 SSD1306_spec SSD1306_api SSD1306_proofs.

Section Commands.

Context {res : SSD1306resources}.

Lemma send_parameters_turn (n index : nat) (parameters : list Z)
      (env : Env) (b : Bus) :
  send_parameters (S n) index parameters env b
  = if SPITimer_ms b =? 0 then b
    else send_parameters n (S index) parameters env
           (if SPITimer_ms (busy_wait env b) =? 0 then busy_wait env b
            else emit (LL_SPI_TransmitData8 (u8 (nth index parameters 0)))
                      (busy_wait env b)).
Proof. reflexivity. Qed.

Lemma send_parameters_in_time (nbParameters : nat) (parameters : list Z)
      (env : Env) :
  always_in_time env ->
  forall (index : nat) (b : Bus),
    0 < SPITimer_ms b ->
    0 < SPITimer_ms (send_parameters nbParameters index parameters env b)
    /\ trace (send_parameters nbParameters index parameters env b)
       = trace b
         ++ map (fun k => LL_SPI_TransmitData8 (u8 (nth k parameters 0)))
                (seq index nbParameters).
Proof.
  intros Henv. induction nbParameters as [|n IH]; intros index b Hb.
  - simpl. rewrite app_nil_r. auto.
  - rewrite send_parameters_turn.
    destruct (SPITimer_ms b =? 0) eqn:E; [apply Z.eqb_eq in E; lia|].
    pose proof (busy_wait_responsive env b Hb (Henv _)) as H1.
    destruct (SPITimer_ms (busy_wait env b) =? 0) eqn:E1;
      [apply Z.eqb_eq in E1; lia|].
    destruct (IH (S index)
                 (emit (LL_SPI_TransmitData8 (u8 (nth index parameters 0)))
                       (busy_wait env b)) H1) as [T1 T2].
    split; [exact T1|]. rewrite T2. simpl. rewrite <- app_assoc. reflexivity.
Qed.

(** A command on a bus that answers in time. *)
Lemma sendCommand_in_time (regNumber : Z) (parameters : list Z)
      (nbParameters : Z) (env : Env) (s : SSD) :
  always_in_time env -> 0 <= nbParameters <= MAX_PARAMETERS ->
  fst (sendCommand regNumber parameters nbParameters env s) = ERR_SUCCESS
  /\ trace (bus (snd (sendCommand regNumber parameters nbParameters env s)))
     = trace (bus s) ++ command_trace regNumber parameters nbParameters.
Proof.
  intros Henv Hnb. unfold MAX_PARAMETERS in Hnb. unfold sendCommand.
  rewrite (u8_small nbParameters) by lia.
  destruct (nbParameters >? MAX_PARAMETERS) eqn:G.
  { rewrite Z.gtb_ltb in G. apply Z.ltb_lt in G. unfold MAX_PARAMETERS in G. lia. }
  cbv zeta.
  match goal with
  | |- context [send_parameters ?n ?i ?p ?e ?b] =>
      destruct (send_parameters_in_time n p e Henv i b
                  ltac:(simpl; unfold SPI_TIMEOUT_MS; lia)) as [P T];
      set (sent := send_parameters n i p e b) in *
  end.
  pose proof (busy_wait_responsive env sent P (Henv _)) as H.
  change (SPITimer_ms (emit LL_SPI_Disable
            (emit LL_SPI_ClearFlag_OVR (busy_wait env sent))))
    with (SPITimer_ms (busy_wait env sent)).
  destruct (SPITimer_ms (busy_wait env sent) =? 0) eqn:E;
    [apply Z.eqb_eq in E; lia|].
  split; [reflexivity|].
  cbn [snd bus set_bus emit busy_wait trace]. rewrite T.
  unfold command_trace. simpl. rewrite <- !app_assoc. reflexivity.
Qed.

(** X15: [sendCommand] refuses more than six parameters without touching
    the driver or the bus; with at most six, on a bus that answers in
    time, it succeeds after selecting command mode, enabling the
    peripheral, sending the command byte and then the parameters in the
    order of the array, and disabling the peripheral. *)
Theorem sendCommand_contract (regNumber : Z) (parameters : list Z)
        (nbParameters : Z) (env : Env) (s : SSD) :
  (MAX_PARAMETERS < nbParameters < 256 ->
   sendCommand regNumber parameters nbParameters env s
   = (createErrorCode SEND_CMD 1 ERR_WARNING, s))
  /\ (0 <= nbParameters <= MAX_PARAMETERS -> always_in_time env ->
      fst (sendCommand regNumber parameters nbParameters env s) = ERR_SUCCESS
      /\ trace (bus (snd (sendCommand regNumber parameters nbParameters env s)))
         = trace (bus s) ++ command_trace regNumber parameters nbParameters
      /\ length (command_trace regNumber parameters nbParameters)
         = (5 + Z.to_nat nbParameters)%nat).
Proof.
  split.
  - intros H. unfold sendCommand. unfold MAX_PARAMETERS in *.
    rewrite (u8_small nbParameters) by lia.
    destruct (nbParameters >? 6) eqn:G; [reflexivity|].
    rewrite Z.gtb_ltb in G. apply Z.ltb_ge in G. lia.
  - intros Hnb Henv.
    destruct (sendCommand_in_time regNumber parameters nbParameters env s
                Henv Hnb) as [C T].
    split; [exact C|]. split; [exact T|].
    unfold command_trace. rewrite !length_app, length_map, length_seq.
    simpl. lia.
Qed.

(** What [stSendingData] does on a bus that answers in time. *)
Lemma sending_in_time (env : Env) (s : SSD) :
  always_in_time env ->
  fst (stSendingData env s) = ERR_SUCCESS
  /\ _state (snd (stSendingData env s)) = WaitingForTXdone
  /\ screenTimer_ms (snd (stSendingData env s)) = SPI_TIMEOUT_MS
  /\ trace (bus (snd (stSendingData env s)))
     = trace (bus s)
       ++ command_trace COLUMN_ADDRESS
            [fst (_limitColumns s); snd (_limitColumns s)] 2
       ++ command_trace PAGE_ADDRESS
            [fst (_limitPages s); snd (_limitPages s)] 2
       ++ dma_start_trace (_size s)
  /\ _screenBuffer (snd (stSendingData env s)) = _screenBuffer s
  /\ _limitColumns (snd (stSendingData env s)) = _limitColumns s
  /\ _limitPages (snd (stSendingData env s)) = _limitPages s
  /\ _size (snd (stSendingData env s)) = _size s.
Proof.
  intros Henv. unfold stSendingData.
  destruct (sendCommand_in_time COLUMN_ADDRESS
              [fst (_limitColumns s); snd (_limitColumns s)] 2 env s Henv
              ltac:(unfold MAX_PARAMETERS; lia)) as [C1 T1].
  pose proof (sendCommand_state COLUMN_ADDRESS
                [fst (_limitColumns s); snd (_limitColumns s)] 2 env s) as F1.
  destruct (sendCommand COLUMN_ADDRESS _ 2 env s) as [r1 s1].
  cbn [fst snd] in *. cbv zeta in F1.
  destruct F1 as (_ & Fc & Fp & Fs & Fb & _).
  subst r1. cbn [isError severity ERR_SUCCESS].
  destruct (sendCommand_in_time PAGE_ADDRESS
              [fst (_limitPages s1); snd (_limitPages s1)] 2 env s1 Henv
              ltac:(unfold MAX_PARAMETERS; lia)) as [C2 T2].
  pose proof (sendCommand_state PAGE_ADDRESS
                [fst (_limitPages s1); snd (_limitPages s1)] 2 env s1) as F2.
  destruct (sendCommand PAGE_ADDRESS _ 2 env s1) as [r2 s2].
  cbn [fst snd] in *. cbv zeta in F2.
  destruct F2 as (_ & Gc & Gp & Gs & Gb & _).
  subst r2. cbn [isError severity ERR_SUCCESS].
  cbn [fst snd _state set_state screenTimer_ms set_screenTimer_ms set_bus bus
       _screenBuffer _limitColumns _limitPages _size emit trace].
  repeat split; try congruence.
  rewrite T2, T1, Fp, Gs, Fs. unfold dma_start_trace.
  rewrite <- !app_assoc. reflexivity.
Qed.

(** X16: in SendingData, on a bus that answers in time, the update sends
    the column-range command with the staged first and last column, the
    page-range command with the staged first and last page, switches to
    data mode and hands the DMA exactly the staged byte count; it arms
    the outer timer to 10 ms, leaves the staged region and the buffer as
    they are, and moves to WaitingForTXdone with the peripheral enabled
    for the transfer. *)
Theorem staged_region_is_what_is_sent (env : Env) (s : SSD) :
  _state s = SendingData -> always_in_time env ->
  let s' := snd (SSD1306update env s) in
  fst (SSD1306update env s) = ERR_SUCCESS
  /\ _state s' = WaitingForTXdone
  /\ screenTimer_ms s' = SPI_TIMEOUT_MS
  /\ trace (bus s')
     = trace (bus s)
       ++ command_trace COLUMN_ADDRESS
            [fst (_limitColumns s); snd (_limitColumns s)] 2
       ++ command_trace PAGE_ADDRESS
            [fst (_limitPages s); snd (_limitPages s)] 2
       ++ dma_start_trace (_size s)
  /\ In (LL_DMA_SetDataLength (_size s)) (dma_start_trace (_size s))
  /\ (_screenBuffer s', _limitColumns s', _limitPages s', _size s')
     = (_screenBuffer s, _limitColumns s, _limitPages s, _size s).
Proof.
  intros Hst Henv. cbv zeta. unfold SSD1306update. rewrite Hst.
  cbn [state_function].
  destruct (sending_in_time env s Henv) as (C & S & Tm & T & B & Lc & Lp & Sz).
  repeat split; auto.
  - simpl. auto 10.
  - congruence.
Qed.


(** The set-up commands change the bus only, and an early return of
    their loop is a failure. *)
Lemma send_commands_frame (commands : list (Z * Z * Z)) (env : Env) :
  forall s,
    let out := send_commands commands env s in
    _state (snd out) = _state s
    /\ _screenBuffer (snd out) = _screenBuffer s
    /\ _limitColumns (snd out) = _limitColumns s
    /\ _limitPages (snd out) = _limitPages s
    /\ _size (snd out) = _size s
    /\ match fst out with
       | Some e => isError e = true
       | None => True
       end.
Proof.
  induction commands as [|[[r n] p] rest IH]; intros s; [simpl; auto 10|].
  simpl.
  pose proof (sendCommand_state r [p] n env s) as F. cbv zeta in F.
  destruct F as (F1 & F2 & F3 & F4 & F5 & _).
  destruct (sendCommand r [p] n env s) as [r1 s1]. cbn [fst snd] in *.
  destruct (isError r1) eqn:E.
  - cbn [fst snd]. repeat split; auto.
  - specialize (IH s1). cbv zeta in IH.
    destruct IH as (I1 & I2 & I3 & I4 & I5 & I6).
    split; [congruence|]. split; [congruence|]. split; [congruence|].
    split; [congruence|]. split; [congruence|]. exact I6.
Qed.

(** X18: whatever the bus does, the first state of the display ends an
    update in one of two ways: a set-up command failed, a failure is
    returned, and the machine stays in Configuring with the buffer and
    the staged region untouched, so that the set-up is run again by the
    next update; or all eight commands went through, success is
    returned, the base screen is staged (window 0..127 by 0..31, 1024
    bytes) and the machine is in SendingData. *)
Theorem display_setup_outcomes (env : Env) (s : SSD) :
  _state s = Configuring ->
  let r := fst (SSD1306update env s) in
  let s' := snd (SSD1306update env s) in
  (isError r = true /\ _state s' = Configuring
   /\ (_screenBuffer s', _limitColumns s', _limitPages s', _size s')
      = (_screenBuffer s, _limitColumns s, _limitPages s, _size s))
  \/ (r = ERR_SUCCESS /\ _state s' = SendingData
      /\ (_limitColumns s', _limitPages s', _size s')
         = ((0, SSD_LAST_COLUMN), (0, SSD_LAST_PAGE), MAX_DATA_SIZE)
      /\ _screenBuffer s' = _screenBuffer (snd (SSD1306drawBaseScreen s))).
Proof.
  intros Hst. cbv zeta. unfold SSD1306update. rewrite Hst.
  cbn [state_function]. unfold stConfiguring. cbv zeta.
  match goal with
  | |- context [send_commands ?c ?e ?s0] =>
      pose proof (send_commands_frame c e s0) as F;
      destruct (send_commands c e s0) as [[e1|] s1]
  end; cbv zeta in F; cbn [fst snd] in F;
    destruct F as (F1 & F2 & F3 & F4 & F5 & F6).
  - left. cbn [fst snd]. simpl in *. repeat split; congruence.
  - right. cbn [fst snd]. repeat split.
Qed.

End Commands.

Lemma always_in_time_responsive (TE5 TC5 : bool) :
  always_in_time (responsive TE5 TC5).
Proof. intros n. simpl. lia. Qed.

Lemma sendCommand_contract_witness :
  sendCommand 0x21 [1; 2; 3; 4; 5; 6; 7] 7 (responsive false false) initial
  = (createErrorCode SEND_CMD 1 ERR_WARNING, initial)
  /\ trace (bus (snd (sendCommand 0x21 [40; 99] 2
                       (responsive false false) initial)))
     = [LL_GPIO_ResetOutputPin SSD1306_DC_Pin; LL_SPI_Enable;
        LL_SPI_TransmitData8 0x21; LL_SPI_TransmitData8 40;
        LL_SPI_TransmitData8 99; LL_SPI_ClearFlag_OVR; LL_SPI_Disable].
Proof.
  split.
  - apply (proj1 (sendCommand_contract 0x21 [1; 2; 3; 4; 5; 6; 7] 7
                    (responsive false false) initial)).
    unfold MAX_PARAMETERS. lia.
  - destruct (proj2 (sendCommand_contract 0x21 [40; 99] 2
                       (responsive false false) initial)
                    ltac:(unfold MAX_PARAMETERS; lia)
                    (always_in_time_responsive false false)) as (_ & T & _).
    rewrite T. reflexivity.
Defined.

Lemma staged_region_is_what_is_sent_witness :
  trace (bus (snd (@SSD1306update sample (responsive false false)
                     (snd (@SSD1306_printAngleTenths sample (-123) ROLL initial)))))
  = [LL_GPIO_ResetOutputPin SSD1306_DC_Pin; LL_SPI_Enable;
     LL_SPI_TransmitData8 0x21; LL_SPI_TransmitData8 40;
     LL_SPI_TransmitData8 99; LL_SPI_ClearFlag_OVR; LL_SPI_Disable;
     LL_GPIO_ResetOutputPin SSD1306_DC_Pin; LL_SPI_Enable;
     LL_SPI_TransmitData8 0x22; LL_SPI_TransmitData8 1;
     LL_SPI_TransmitData8 2; LL_SPI_ClearFlag_OVR; LL_SPI_Disable;
     LL_GPIO_SetOutputPin SSD1306_DC_Pin; LL_SPI_Enable;
     LL_DMA_DisableChannel; LL_DMA_ClearFlag_GI5;
     LL_DMA_SetDataLength 120; LL_DMA_EnableChannel;
     LL_SPI_EnableDMAReq_TX].
Proof.
  destruct (@staged_region_is_what_is_sent sample (responsive false false)
              (snd (@SSD1306_printAngleTenths sample (-123) ROLL initial))
              eq_refl (always_in_time_responsive false false))
    as (_ & _ & _ & T & _).
  rewrite T. reflexivity.
Defined.


Lemma display_setup_outcomes_witness :
  _state (snd (@SSD1306update sample dead initial)) = Configuring
  /\ isError (fst (@SSD1306update sample dead initial)) = true
  /\ _state (snd (@SSD1306update sample (responsive false false) initial))
     = SendingData.
Proof.
  destruct (@display_setup_outcomes sample dead initial eq_refl)
    as [(E & S & _)|(E & _)]; [|vm_compute in E; discriminate].
  split; [exact S|]. split; [exact E|].
  destruct (@display_setup_outcomes sample (responsive false false) initial
              eq_refl) as [(E' & _)|(_ & S' & _)];
    [vm_compute in E'; discriminate | exact S'].
Defined.

(** *** The frame buffer *)

Lemma blit_length (bytes : list Z) :
  forall (offset : nat) (dst : list Z),
    length (blit offset bytes dst) = length dst.
Proof.
  induction bytes as [|b rest IH]; intros offset dst; [reflexivity|].
  simpl. rewrite IH. apply poke_length.
Qed.

(** Inside the buffer, [blit] stores its bytes and nothing else. *)
Lemma nth_blit (bytes : list Z) :
  forall (offset : nat) (dst : list Z) (j : nat),
    (offset + length bytes <= length dst)%nat ->
    nth j (blit offset bytes dst) 0
    = if (offset <=? j)%nat && (j <? offset + length bytes)%nat
      then nth (j - offset) bytes 0
      else nth j dst 0.
Proof.
  induction bytes as [|b rest IH]; intros offset dst j Hlen.
  - simpl. rewrite Nat.add_0_r.
    destruct (offset <=? j)%nat eqn:L, (j <? offset)%nat eqn:U; try reflexivity.
    apply Nat.leb_le in L. apply Nat.ltb_lt in U. lia.
  - change (blit offset (b :: rest) dst)
      with (blit (S offset) rest (poke offset b dst)).
    change (length (b :: rest)) with (S (length rest)) in *.
    rewrite IH by (rewrite poke_length; lia).
    destruct (Nat.lt_trichotomy j offset) as [Hlt|[->|Hgt]].
    + rewrite (proj2 (Nat.leb_gt (S offset) j)) by lia.
      rewrite (proj2 (Nat.leb_gt offset j)) by lia.
      cbn [andb]. apply nth_poke_other. lia.
    + rewrite (proj2 (Nat.leb_gt (S offset) offset)) by lia.
      rewrite (proj2 (Nat.leb_le offset offset)) by lia.
      rewrite (proj2 (Nat.ltb_lt offset (offset + S (length rest)))) by lia.
      cbn [andb]. rewrite Nat.sub_diag. apply nth_poke_same. lia.
    + rewrite (proj2 (Nat.leb_le (S offset) j)) by lia.
      rewrite (proj2 (Nat.leb_le offset j)) by lia.
      replace (offset + S (length rest))%nat with (S offset + length rest)%nat
        by lia.
      cbn [andb].
      destruct (j <? S offset + length rest)%nat.
      * replace (j - offset)%nat with (S (j - S offset)) by lia. reflexivity.
      * apply nth_poke_other. lia.
Qed.

Lemma nth_first_bytes (n : Z) (array : list Z) (k : nat) :
  (k < Z.to_nat n)%nat -> nth k (first_bytes n array) 0 = u8 (nth k array 0).
Proof.
  intros H. unfold first_bytes.
  rewrite (nth_indep _ 0 ((fun k => u8 (nth k array 0)) 0%nat))
    by (rewrite length_map, length_seq; exact H).
  rewrite (map_nth (fun k => u8 (nth k array 0))).
  rewrite seq_nth by exact H. reflexivity.
Qed.

Lemma first_bytes_length (n : Z) (array : list Z) :
  length (first_bytes n array) = Z.to_nat n.
Proof. unfold first_bytes. rewrite length_map, length_seq. reflexivity. Qed.

Lemma nth_flat_map_uniform {A : Type} (f : A -> list Z) (m : nat) (dx : A) :
  (forall x, length (f x) = m) ->
  forall (l : list A) (i j : nat),
    (i < length l)%nat -> (j < m)%nat ->
    nth (i * m + j) (flat_map f l) 0 = nth j (f (nth i l dx)) 0.
Proof.
  intros Hm. induction l as [|h t IH]; intros i j Hi Hj; [simpl in Hi; lia|].
  simpl flat_map. destruct i as [|i].
  - simpl. apply app_nth1. rewrite Hm. exact Hj.
  - rewrite app_nth2 by (rewrite Hm; simpl; lia).
    rewrite Hm. replace (S i * m + j - m)%nat with (i * m + j)%nat by (simpl; lia).
    simpl nth. apply IH; [simpl in Hi; lia | exact Hj].
Qed.

Lemma flat_map_uniform_length {A : Type} (f : A -> list Z) (m : nat) :
  (forall x, length (f x) = m) ->
  forall l : list A, length (flat_map f l) = (length l * m)%nat.
Proof.
  intros Hm. induction l as [|h t IH]; [reflexivity|].
  simpl. rewrite length_app, Hm, IH. reflexivity.
Qed.

Lemma nth_map_seq (g : nat -> Z) (n x : nat) :
  (x < n)%nat -> nth x (map g (seq 0 n)) 0 = g x.
Proof.
  intros H. rewrite (nth_indep _ 0 (g 0%nat)) by (rewrite length_map, length_seq; exact H).
  rewrite map_nth, seq_nth by exact H. reflexivity.
Qed.

Section Buffer.

Context {res : SSD1306resources}.

Lemma draw_arrows_length (indices : list nat) :
  forall buffer, length (draw_arrows indices buffer) = length buffer.
Proof.
  induction indices as [|i rest IH]; intros buffer; [reflexivity|].
  simpl. rewrite IH. apply poke_length.
Qed.

Lemma draw_arrows_step (i : nat) (rest : list nat) (buffer : list Z) :
  draw_arrows (i :: rest) buffer
  = draw_arrows rest (poke (arrows_offset i) (u8 (nth i arrowsIcon_32px 0))
                           buffer).
Proof. reflexivity. Qed.

(** A cell that is the place of no byte of the icon is left alone. *)
Lemma draw_arrows_other (indices : list nat) (j : nat) :
  forall buffer,
    (forall i, In i indices -> arrows_offset i <> j) ->
    nth j (draw_arrows indices buffer) 0 = nth j buffer 0.
Proof.
  induction indices as [|i rest IH]; intros buffer H; [reflexivity|].
  rewrite draw_arrows_step.
  rewrite IH by (intros i' Hi'; apply H; right; exact Hi').
  apply nth_poke_other. apply H. left. reflexivity.
Qed.

(** The place of byte [i] holds byte [i] when no other byte goes there. *)
Lemma draw_arrows_same (indices : list nat) (i : nat) :
  forall buffer,
    In i indices ->
    (forall i', In i' indices -> arrows_offset i' = arrows_offset i -> i' = i) ->
    (arrows_offset i < length buffer)%nat ->
    nth (arrows_offset i) (draw_arrows indices buffer) 0
    = u8 (nth i arrowsIcon_32px 0).
Proof.
  induction indices as [|h rest IH]; intros buffer Hin Hinj Hlen; [contradiction|].
  rewrite draw_arrows_step.
  destruct (in_dec Nat.eq_dec i rest) as [Hrest|Hnot].
  - apply IH; auto.
    + intros i' Hi'. apply Hinj. right. exact Hi'.
    + rewrite poke_length. exact Hlen.
  - destruct Hin as [->|Hin]; [|contradiction].
    rewrite draw_arrows_other.
    + apply nth_poke_same. exact Hlen.
    + intros i' Hi' E. apply Hnot.
      rewrite <- (Hinj i' (or_intror Hi') E). exact Hi'.
Qed.

Lemma arrows_offset_value (i : nat) :
  (i < 256)%nat ->
  Z.of_nat (arrows_offset i)
  = (Z.of_nat i / 32) * 128 + Z.of_nat i mod 32.
Proof.
  intros H. unfold arrows_offset, ARROWSICON_WIDTH, SSD_LAST_COLUMN, u16.
  assert (0 <= Z.of_nat i / 32 < 8).
  { split; [apply Z.div_pos; lia | apply Z.div_lt_upper_bound; lia]. }
  pose proof (Z.mod_pos_bound (Z.of_nat i) 32 ltac:(lia)).
  change (127 + 1) with 128.
  rewrite Z.mod_small by lia. rewrite Z2Nat.id by lia. reflexivity.
Qed.

Lemma arrows_offset_injective (i i' : nat) :
  (i < 256)%nat -> (i' < 256)%nat ->
  arrows_offset i' = arrows_offset i -> i' = i.
Proof.
  intros H H' E.
  pose proof (arrows_offset_value i H) as V.
  pose proof (arrows_offset_value i' H') as V'.
  rewrite E in V'. rewrite V in V'.
  pose proof (Z.div_mod (Z.of_nat i) 32 ltac:(lia)).
  pose proof (Z.div_mod (Z.of_nat i') 32 ltac:(lia)).
  pose proof (Z.mod_pos_bound (Z.of_nat i) 32 ltac:(lia)).
  pose proof (Z.mod_pos_bound (Z.of_nat i') 32 ltac:(lia)).
  lia.
Qed.

Lemma nth_repeat_any (a : Z) (n j : nat) :
  nth j (repeat a n) 0 = if (j <? n)%nat then a else 0.
Proof.
  revert j. induction n as [|n IH]; intros [|j]; simpl; auto.
Qed.

(** X19: for an icon of fewer than 256 bytes (the copy loops count with
    a [uint8_t]), the two icon calls stage the icon at the head of the
    buffer: the [_size] bytes that the next transfer sends are the bytes
    of the chosen referential icon, those of the hold icon, or zeros
    when the hold icon is erased, and the rest of the buffer is left as
    it was. *)
Theorem icons_are_staged_at_the_head (type : referentialType_e) (status : Z)
        (s : SSD) (j : nat) :
  0 <= REFERENCETYPE_NB_BYTES < 256 ->
  length (_screenBuffer s) = Z.to_nat MAX_DATA_SIZE ->
  let referential := snd (SSD1306_printReferentialIcon type s) in
  let hold := snd (SSD1306_printHoldIcon status s) in
  _size referential = REFERENCETYPE_NB_BYTES
  /\ _size hold = REFERENCETYPE_NB_BYTES
  /\ nth j (_screenBuffer referential) 0
     = (if (j <? Z.to_nat REFERENCETYPE_NB_BYTES)%nat
        then u8 (nth j match type with
                       | ABSOLUTE => absoluteReferentialIcon
                       | RELATIVE => relativeReferentialIcon
                       end 0)
        else nth j (_screenBuffer s) 0)
  /\ nth j (_screenBuffer hold) 0
     = (if (j <? Z.to_nat REFERENCETYPE_NB_BYTES)%nat
        then if u8 status =? 0 then 0 else u8 (nth j holdIcon 0)
        else nth j (_screenBuffer s) 0).
Proof.
  intros Hn Hlen. cbv zeta. unfold MAX_DATA_SIZE in *.
  unfold SSD1306_printReferentialIcon, SSD1306_printHoldIcon.
  cbn [snd _size _screenBuffer set_window set_state set_screenBuffer].
  unfold u16. rewrite (Z.mod_small REFERENCETYPE_NB_BYTES) by lia.
  split; [reflexivity|]. split; [reflexivity|].
  split.
  - rewrite nth_blit by (rewrite first_bytes_length, Hlen; lia).
    rewrite first_bytes_length. cbn [Nat.leb andb Nat.add].
    rewrite Nat.sub_0_r.
    destruct (j <? Z.to_nat REFERENCETYPE_NB_BYTES)%nat eqn:L; [|reflexivity].
    apply Nat.ltb_lt in L. apply nth_first_bytes. exact L.
  - destruct (u8 status =? 0).
    + rewrite nth_blit by (rewrite repeat_length, Hlen; lia).
      rewrite repeat_length. cbn [Nat.leb andb Nat.add].
      rewrite Nat.sub_0_r.
      destruct (j <? Z.to_nat REFERENCETYPE_NB_BYTES)%nat eqn:L; [|reflexivity].
      rewrite nth_repeat_any, L. reflexivity.
    + rewrite nth_blit by (rewrite first_bytes_length, Hlen; lia).
      rewrite first_bytes_length. cbn [Nat.leb andb Nat.add].
      rewrite Nat.sub_0_r.
      destruct (j <? Z.to_nat REFERENCETYPE_NB_BYTES)%nat eqn:L; [|reflexivity].
      apply Nat.ltb_lt in L. apply nth_first_bytes. exact L.
Qed.

(** The buffer [SSD1306drawBaseScreen] builds, whatever the state. *)
Lemma base_screen_unfold (s : SSD) :
  _screenBuffer (snd (SSD1306drawBaseScreen s))
  = blit (Z.to_nat (1024 - REFERENCETYPE_NB_BYTES))
         (first_bytes REFERENCETYPE_NB_BYTES absoluteReferentialIcon)
         (draw_arrows (seq 0 256)
                      (blit 544 (repeat LIGN 96) (repeat 0 1024))).
Proof. reflexivity. Qed.

(** X20: the base screen, for icons of at most 96 bytes: the buffer has
    1024 bytes; the 32 leftmost columns of the eight pages hold the
    arrows icon, page after page; the rest of page 4 holds the separator
    line; the last bytes of the buffer hold the absolute-referential
    icon; every other byte is blank. *)
Theorem base_screen_content (s : SSD) (page column k : nat) :
  0 <= REFERENCETYPE_NB_BYTES <= 96 ->
  (page < 8)%nat -> (column < 128)%nat ->
  let buffer := _screenBuffer (snd (SSD1306drawBaseScreen s)) in
  let icon_start := (1024 - Z.to_nat REFERENCETYPE_NB_BYTES)%nat in
  length buffer = 1024%nat
  /\ ((column < 32)%nat ->
      nth (page * 128 + column) buffer 0
      = u8 (nth (page * 32 + column) arrowsIcon_32px 0))
  /\ ((32 <= column)%nat -> page = 4%nat ->
      nth (page * 128 + column) buffer 0 = LIGN)
  /\ ((k < Z.to_nat REFERENCETYPE_NB_BYTES)%nat ->
      nth (icon_start + k) buffer 0 = u8 (nth k absoluteReferentialIcon 0))
  /\ ((32 <= column)%nat -> page <> 4%nat ->
      (page * 128 + column < icon_start)%nat ->
      nth (page * 128 + column) buffer 0 = 0).
Proof.
  intros Hn Hpage Hcol. cbv zeta. rewrite base_screen_unfold.
  set (inner := blit 544 (repeat LIGN 96) (repeat 0 1024)).
  assert (Linner : length inner = 1024%nat)
    by (unfold inner; rewrite blit_length, repeat_length; reflexivity).
  assert (Larrows : length (draw_arrows (seq 0 256) inner) = 1024%nat)
    by (rewrite draw_arrows_length; exact Linner).
  assert (Hstart : Z.to_nat (1024 - REFERENCETYPE_NB_BYTES)
                   = (1024 - Z.to_nat REFERENCETYPE_NB_BYTES)%nat) by lia.
  rewrite Hstart.
  assert (Outer : forall j,
             nth j (blit (1024 - Z.to_nat REFERENCETYPE_NB_BYTES)
                      (first_bytes REFERENCETYPE_NB_BYTES absoluteReferentialIcon)
                      (draw_arrows (seq 0 256) inner)) 0
             = if ((1024 - Z.to_nat REFERENCETYPE_NB_BYTES <=? j)%nat
                   && (j <? 1024)%nat)%bool
               then nth (j - (1024 - Z.to_nat REFERENCETYPE_NB_BYTES))
                        (first_bytes REFERENCETYPE_NB_BYTES
                                     absoluteReferentialIcon) 0
               else nth j (draw_arrows (seq 0 256) inner) 0).
  { intros j. rewrite nth_blit by (rewrite first_bytes_length, Larrows; lia).
    rewrite first_bytes_length.
    replace (1024 - Z.to_nat REFERENCETYPE_NB_BYTES
             + Z.to_nat REFERENCETYPE_NB_BYTES)%nat with 1024%nat by lia.
    reflexivity. }
  assert (Before : forall j, (j < 1024 - Z.to_nat REFERENCETYPE_NB_BYTES)%nat ->
             (1024 - Z.to_nat REFERENCETYPE_NB_BYTES <=? j)%nat = false)
    by (intros j Hj; apply Nat.leb_gt; exact Hj).
  assert (Off : forall i, (i < 256)%nat ->
             arrows_offset i = (i / 32 * 128 + i mod 32)%nat).
  { intros i Hi. apply Nat2Z.inj. rewrite arrows_offset_value by exact Hi.
    rewrite Nat2Z.inj_add, Nat2Z.inj_mul, Nat2Z.inj_div, Nat2Z.inj_mod.
    reflexivity. }
  assert (Right : forall j, (32 <= j mod 128)%nat ->
             nth j (draw_arrows (seq 0 256) inner) 0 = nth j inner 0).
  { intros j Hj. apply draw_arrows_other. intros i Hi E.
    apply in_seq in Hi. rewrite Off in E by lia. subst j.
    rewrite Nat.add_comm, Nat.Div0.mod_add in Hj.
    pose proof (Nat.mod_upper_bound i 32 ltac:(lia)).
    rewrite Nat.mod_small in Hj by lia. lia. }
  assert (Mod : (32 <= column)%nat ->
                ((page * 128 + column) mod 128 = column)%nat).
  { intros _. rewrite Nat.add_comm, Nat.Div0.mod_add.
    apply Nat.mod_small. exact Hcol. }
  split; [rewrite blit_length; exact Larrows|].
  split; [|split; [|split]].
  - intros Hc. rewrite Outer, Before by lia. cbn [andb].
    assert (E : (page * 128 + column)%nat = arrows_offset (page * 32 + column)).
    { rewrite Off by lia.
      rewrite (Nat.add_comm (page * 32)), Nat.div_add, Nat.Div0.mod_add by lia.
      rewrite Nat.div_small, Nat.mod_small by lia. reflexivity. }
    rewrite E. apply draw_arrows_same.
    + apply in_seq. lia.
    + intros i' Hi' Ei. apply in_seq in Hi'.
      apply arrows_offset_injective; [lia | lia | exact Ei].
    + rewrite <- E, Linner. lia.
  - intros Hc Hp. subst page. rewrite Outer, Before by lia. cbn [andb].
    rewrite Right by (rewrite Mod by exact Hc; exact Hc).
    unfold inner. rewrite nth_blit by (rewrite !repeat_length; lia).
    rewrite repeat_length.
    replace (544 <=? 4 * 128 + column)%nat with true
      by (symmetry; apply Nat.leb_le; lia).
    replace (4 * 128 + column <? 544 + 96)%nat with true
      by (symmetry; apply Nat.ltb_lt; lia).
    cbn [andb]. rewrite nth_repeat_any.
    replace (4 * 128 + column - 544 <? 96)%nat with true
      by (symmetry; apply Nat.ltb_lt; lia).
    reflexivity.
  - intros Hk. rewrite Outer.
    replace (1024 - Z.to_nat REFERENCETYPE_NB_BYTES
             <=? 1024 - Z.to_nat REFERENCETYPE_NB_BYTES + k)%nat with true
      by (symmetry; apply Nat.leb_le; lia).
    replace (1024 - Z.to_nat REFERENCETYPE_NB_BYTES + k <? 1024)%nat with true
      by (symmetry; apply Nat.ltb_lt; lia).
    cbn [andb].
    replace (1024 - Z.to_nat REFERENCETYPE_NB_BYTES + k
             - (1024 - Z.to_nat REFERENCETYPE_NB_BYTES))%nat with k by lia.
    apply nth_first_bytes. exact Hk.
  - intros Hc Hp Hbefore. rewrite Outer, Before by exact Hbefore. cbn [andb].
    rewrite Right by (rewrite Mod by exact Hc; exact Hc).
    unfold inner. rewrite nth_blit by (rewrite !repeat_length; lia).
    rewrite repeat_length.
    assert (Hout : ((544 <=? page * 128 + column)%nat
                    && (page * 128 + column <? 544 + 96)%nat)%bool = false).
    { apply andb_false_iff.
      destruct (Nat.lt_ge_cases page 4) as [Hlt|Hge].
      - left. apply Nat.leb_gt. lia.
      - right. apply Nat.ltb_ge. lia. }
    rewrite Hout, nth_repeat_any.
    destruct (_ <? 1024)%nat; reflexivity.
Qed.

Lemma drawBaseScreen_well_staged (s : SSD) :
  well_staged (snd (SSD1306drawBaseScreen s)).
Proof.
  split.
  - rewrite base_screen_unfold.
    rewrite blit_length, draw_arrows_length, blit_length, repeat_length.
    reflexivity.
  - change (0 <= 1024 <= 1024). lia.
Qed.




Lemma clamp_angle_range (angleTenths : Z) :
  -900 <= clamp_angle angleTenths <= 900
  /\ (-900 <= angleTenths <= 900 -> clamp_angle angleTenths = angleTenths)
  /\ (angleTenths < -900 -> clamp_angle angleTenths = -900)
  /\ (900 < angleTenths -> clamp_angle angleTenths = 900).
Proof.
  unfold clamp_angle, MIN_ANGLE_DEG_TENTHS, MAX_ANGLE_DEG_TENTHS.
  destruct (angleTenths <? -900) eqn:L.
  - apply Z.ltb_lt in L. cbn. repeat split; intros; lia.
  - apply Z.ltb_ge in L. rewrite Z.gtb_ltb.
    destruct (900 <? angleTenths) eqn:G.
    + apply Z.ltb_lt in G. repeat split; intros; lia.
    + apply Z.ltb_ge in G. repeat split; intros; lia.
Qed.

(** X22: the six characters printed for an angle are the sign, the tens,
    the units, the point, the tenths and the degree mark of the angle
    clamped to -90.0 .. +90.0 degrees: the three digits are between 0
    and 9 and spell the magnitude of the clamped angle, the sign is the
    minus exactly when it is negative, and any angle beyond a limit
    prints as the limit. *)
Theorem angle_characters (angleTenths : Z) :
  let shown := clamp_angle angleTenths in
  let indexes := charIndexes angleTenths in
  length indexes = 6%nat
  /\ nth 0 indexes 0 = u8 (if shown <? 0 then INDEX_MINUS else INDEX_PLUS)
  /\ nth 3 indexes 0 = u8 INDEX_DOT
  /\ nth 5 indexes 0 = u8 INDEX_DEG
  /\ 0 <= nth 1 indexes 0 <= 9
  /\ 0 <= nth 2 indexes 0 <= 9
  /\ 0 <= nth 4 indexes 0 <= 9
  /\ 100 * nth 1 indexes 0 + 10 * nth 2 indexes 0 + nth 4 indexes 0
     = Z.abs shown
  /\ (angleTenths <= -900 -> indexes = charIndexes (-900))
  /\ (900 <= angleTenths -> indexes = charIndexes 900).
Proof.
  cbv zeta.
  destruct (clamp_angle_range angleTenths) as (R & Hin & Hlow & Hhigh).
  assert (Hclamp : forall a b, clamp_angle a = clamp_angle b ->
                               charIndexes a = charIndexes b).
  { intros a b E. unfold charIndexes. rewrite E. reflexivity. }
  assert (Low : angleTenths <= -900 ->
                charIndexes angleTenths = charIndexes (-900)).
  { intros Hlim. apply Hclamp.
    destruct (Z.eq_dec angleTenths (-900)) as [->|Hne]; [reflexivity|].
    rewrite Hlow by lia. reflexivity. }
  assert (High : 900 <= angleTenths ->
                 charIndexes angleTenths = charIndexes 900).
  { intros Hlim. apply Hclamp.
    destruct (Z.eq_dec angleTenths 900) as [->|Hne]; [reflexivity|].
    rewrite Hhigh by lia. reflexivity. }
  split; [reflexivity|]. split; [reflexivity|].
  split; [reflexivity|]. split; [reflexivity|].
  revert Low High. generalize (charIndexes (-900)) (charIndexes 900).
  intros low high.
  set (whole := charIndexes angleTenths).
  intros Low High.
  assert (Digits : 0 <= nth 1 whole 0 <= 9 /\ 0 <= nth 2 whole 0 <= 9
                   /\ 0 <= nth 4 whole 0 <= 9
                   /\ 100 * nth 1 whole 0 + 10 * nth 2 whole 0 + nth 4 whole 0
                      = Z.abs (clamp_angle angleTenths));
    [|destruct Digits as (D1 & D2 & D3 & D4); auto 10].
  clear Low High low high. unfold whole. clear whole.
  unfold charIndexes. cbn [nth].
  set (c := clamp_angle angleTenths) in *.
  set (a := if c <? 0 then s16 (- c) else c).
  assert (Ha : a = Z.abs c /\ 0 <= a <= 900).
  { unfold a. destruct (c <? 0) eqn:N.
    - apply Z.ltb_lt in N. unfold s16.
      rewrite Z.mod_small by lia. lia.
    - apply Z.ltb_ge in N. lia. }
  destruct Ha as [Habs Hrange]. rewrite <- Habs.
  rewrite !Z.quot_div_nonneg, !Z.rem_mod_nonneg;
    try lia; try (apply Z.div_pos; lia).
  pose proof (Z.div_mod a 10 ltac:(lia)) as D1.
  pose proof (Z.mod_pos_bound a 10 ltac:(lia)) as M1.
  pose proof (Z.div_mod (a / 10) 10 ltac:(lia)) as D2.
  pose proof (Z.mod_pos_bound (a / 10) 10 ltac:(lia)) as M2.
  assert (E100 : a / 100 = a / 10 / 10)
    by (rewrite Z.div_div by lia; reflexivity).
  assert (0 <= a / 10 / 10 <= 9) by lia.
  rewrite E100.
  rewrite !u8_small by lia.
  repeat split; lia.
Qed.

End Buffer.

Section Glyphs.

Context {res : SSD1306resources}.

(** X23: [SSD1306_printAngleTenths] lays the six glyphs out at the head
    of the buffer page by page, within a page character by character,
    within a character column by column: the byte of page [page],
    character [character] and column [column] is the byte
    [width * page + column] of the glyph of that character, and the
    bytes after the last page are left as they were. *)
Theorem angle_glyph_layout (angleTenths : Z) (rotationAxis : rotationAxis_e)
        (s : SSD) (page character column : nat) :
  let width := Z.to_nat VERDANA_CHAR_WIDTH in
  let pages := Z.to_nat VERDANA_NB_PAGES in
  let staged := snd (SSD1306_printAngleTenths angleTenths rotationAxis s) in
  0 <= VERDANA_CHAR_WIDTH ->
  (pages * (6 * width) <= length (_screenBuffer s))%nat ->
  (page < pages)%nat -> (character < 6)%nat -> (column < width)%nat ->
  nth (page * (6 * width) + character * width + column)
      (_screenBuffer staged) 0
  = u8 (nth (width * page + column)
            (nth (Z.to_nat (nth character (charIndexes (s16 angleTenths)) 0))
                 verdana_16ptNumbers []) 0)
  /\ (forall j, (pages * (6 * width) <= j)%nat ->
                nth j (_screenBuffer staged) 0 = nth j (_screenBuffer s) 0)
  /\ length (_screenBuffer staged) = length (_screenBuffer s).
Proof.
  cbv zeta. intros Hw Hlen Hp Hc Hx.
  unfold SSD1306_printAngleTenths.
  cbn [snd _screenBuffer set_window set_state set_screenBuffer].
  set (indexes := charIndexes (s16 angleTenths)).
  set (w := Z.to_nat VERDANA_CHAR_WIDTH) in *.
  set (np := Z.to_nat VERDANA_NB_PAGES) in *.
  assert (Lidx : length indexes = 6%nat) by reflexivity.
  set (glyph_row := fun (pg : nat) (ch : Z) =>
         map (fun col =>
                u8 (nth (Z.to_nat (VERDANA_CHAR_WIDTH * Z.of_nat pg) + col)
                        (nth (Z.to_nat ch) verdana_16ptNumbers []) 0))
             (seq 0 w)).
  assert (Lrow : forall pg ch, length (glyph_row pg ch) = w)
    by (intros; unfold glyph_row; rewrite length_map, length_seq; reflexivity).
  set (page_row := fun pg => flat_map (glyph_row pg) indexes).
  assert (Lpage : forall pg, length (page_row pg) = (6 * w)%nat).
  { intros pg. unfold page_row.
    rewrite (flat_map_uniform_length _ w (Lrow pg)), Lidx. reflexivity. }
  change (angle_bitmap indexes) with (flat_map page_row (seq 0 np)).
  assert (Lall : length (flat_map page_row (seq 0 np)) = (np * (6 * w))%nat).
  { rewrite (flat_map_uniform_length _ (6 * w) Lpage), length_seq. reflexivity. }
  split; [|split].
  - rewrite nth_blit by (rewrite Lall; simpl; exact Hlen).
    rewrite Lall. cbn [Nat.leb andb Nat.add]. rewrite Nat.sub_0_r.
    assert (Hin : (page * (6 * w) + character * w + column < np * (6 * w))%nat).
    { assert (character * w + column < 6 * w)%nat by nia.
      assert (S page * (6 * w) <= np * (6 * w))%nat
        by (apply Nat.mul_le_mono_r; lia).
      simpl in *. lia. }
    rewrite (proj2 (Nat.ltb_lt _ _) Hin).
    rewrite <- Nat.add_assoc.
    rewrite (nth_flat_map_uniform page_row (6 * w) 0%nat Lpage)
      by (rewrite ?length_seq; nia).
    rewrite seq_nth by exact Hp. cbn [Nat.add].
    unfold page_row.
    rewrite (nth_flat_map_uniform (glyph_row page) w 0 (Lrow page))
      by (rewrite ?Lidx; lia).
    unfold glyph_row. rewrite nth_map_seq by exact Hx.
    replace (Z.to_nat (VERDANA_CHAR_WIDTH * Z.of_nat page)) with (w * page)%nat
      by (unfold w; rewrite Z2Nat.inj_mul, Nat2Z.id by lia; reflexivity).
    reflexivity.
  - intros j Hj.
    rewrite nth_blit by (rewrite Lall; simpl; exact Hlen).
    rewrite Lall. cbn [Nat.leb andb Nat.add].
    rewrite (proj2 (Nat.ltb_ge _ _) Hj). reflexivity.
  - apply blit_length.
Qed.

End Glyphs.

Lemma angle_glyph_layout_witness :
  nth (1 * (6 * 10) + 2 * 10 + 3)
      (_screenBuffer (snd (@SSD1306_printAngleTenths sample (-123) ROLL
                             (snd (@SSD1306drawBaseScreen sample initial))))) 0
  = 0.
Proof.
  destruct (@angle_glyph_layout sample (-123) ROLL
              (snd (@SSD1306drawBaseScreen sample initial)) 1 2 3
              ltac:(simpl; lia)
              ltac:(rewrite (proj1 (@drawBaseScreen_well_staged sample initial));
                    vm_compute; lia)
              ltac:(simpl; lia) ltac:(lia) ltac:(simpl; lia)) as (G & _).
  change (Z.to_nat (@VERDANA_CHAR_WIDTH sample)) with 10%nat in G.
  rewrite G. reflexivity.
Defined.

Lemma icons_are_staged_at_the_head_witness :
  nth 3 (_screenBuffer (snd (@SSD1306_printReferentialIcon sample RELATIVE
                               initial))) 0 = 0x42
  /\ nth 3 (_screenBuffer (snd (@SSD1306_printHoldIcon sample 0
               (snd (@SSD1306_printHoldIcon sample 1 initial))))) 0 = 0.
Proof.
  split.
  - destruct (@icons_are_staged_at_the_head sample RELATIVE 0 initial 3
                ltac:(simpl; lia) eq_refl)
      as (_ & _ & R & _).
    rewrite R. reflexivity.
  - destruct (@icons_are_staged_at_the_head sample RELATIVE 0
                (snd (@SSD1306_printHoldIcon sample 1 initial)) 3
                ltac:(simpl; lia)
                ltac:(unfold SSD1306_printHoldIcon;
                      cbn [snd _screenBuffer set_state set_screenBuffer];
                      rewrite blit_length; reflexivity))
      as (_ & _ & _ & H).
    rewrite H. reflexivity.
Defined.

Lemma base_screen_content_witness :
  nth (4 * 128 + 100) (_screenBuffer (snd (@SSD1306drawBaseScreen sample initial))) 0
  = 3
  /\ nth (2 * 128 + 5) (_screenBuffer (snd (@SSD1306drawBaseScreen sample initial))) 0
     = 0x55
  /\ nth (1024 - 16 + 7) (_screenBuffer (snd (@SSD1306drawBaseScreen sample initial))) 0
     = 0x81.
Proof.
  destruct (@base_screen_content sample initial 4 100 7
              ltac:(simpl; lia) ltac:(lia) ltac:(lia)) as (_ & _ & L & I & _).
  destruct (@base_screen_content sample initial 2 5 7
              ltac:(simpl; lia) ltac:(lia) ltac:(lia)) as (_ & A & _).
  split; [apply L; [lia | reflexivity]|].
  split; [rewrite A by lia; reflexivity|].
  change (1024 - 16)%nat with (1024 - Z.to_nat (@REFERENCETYPE_NB_BYTES sample))%nat.
  rewrite I by (simpl; lia). reflexivity.
Defined.




Lemma angle_characters_witness :
  @charIndexes sample (-1234) = [11; 9; 0; 12; 0; 13]
  /\ @charIndexes sample (-123) = [11; 1; 2; 12; 3; 13].
Proof.
  split; [|reflexivity].
  rewrite (proj1 (proj2 (proj2 (proj2 (proj2 (proj2 (proj2 (proj2 (proj2
             (@angle_characters sample (-1234)))))))))) ltac:(lia)).
  reflexivity.
Defined.

End SSD1306_extra.
